(** * RailGate Monitor: the closure / wait-time derivation pipeline

    A shallow embedding of [train_processor.py] (class [TrainDataProcessor])
    and the properties of its derived outputs: closure schedule, route
    ranking, wait-time predictions, traffic intensity and alerts.

    Modelling conventions.
    - A Python [str] is a [string]; characters are the code points 0..255.
    - A Python [int] is a [Z].
    - A naive [datetime.datetime] is the number of microseconds elapsed since
      [datetime.min] (0001-01-01 00:00:00); arithmetic that leaves the
      representable range raises [OverflowError] as in CPython.
    - A Python [float] is an IEEE 754 binary64 number where its rounding or
      its range matters: the traffic multiplier of the ranker and the
      product [additional_time_minutes * multiplier] are computed with the
      operations of [SpecFloat] at precision 53, so that [int(...)] truncates
      the rounded product and raises where the product is not finite.  The
      quotient [total_seconds() / 60] is kept as an exact rational: its
      operands are far below 2^53, so that truncating the float quotient and
      truncating the exact quotient give the same integer.  The floats that
      are only stored and copied (distances, tolls) and the values that the
      generator is asked to return are written as rationals.
    - The ambient state of the process (system clock, global random
      generator, the heap of [Route] objects) is an explicit [world] threaded
      through a state-and-exception monad.  Logging is not modelled. *)

From Stdlib Require Import ZArith QArith Lia Ascii String SpecFloat.
From stdpp Require Import base tactics option list functions gmap strings pretty sorting.

Local Open Scope string_scope.
Local Open Scope Z_scope.
Local Open Scope list_scope.

(** ** Exceptions and results *)

Inductive exn := ValueError | OverflowError.

Inductive result (A : Type) :=
| Ok (a : A)
| Raise (e : exn).
Arguments Ok {A} a.
Arguments Raise {A} e.

Definition rbind {A B} (r : result A) (k : A -> result B) : result B :=
  match r with
  | Ok a => k a
  | Raise e => Raise e
  end.

Notation "'let?' x ':=' r 'in' k" := (rbind r (fun x => k))
  (at level 10, x pattern, r at level 100, k at level 200).

(** ** Python strings *)

Module PyStr.

Definition code (c : ascii) : Z := Z.of_N (N_of_ascii c).

(** [str.split(sep)] for a one-character separator: always at least one
    field, empty fields are kept. *)
Fixpoint split (sep : ascii) (s : string) : list string :=
  match s with
  | EmptyString => [EmptyString]
  | String c s' =>
      if Ascii.eqb c sep then EmptyString :: split sep s'
      else match split sep s' with
           | x :: r => String c x :: r
           | [] => [String c EmptyString]
           end
  end.

(** The white space that [int()] skips around a number: the C white space
    of ASCII, and the two Unicode spaces below code point 256. *)
Definition is_space (c : ascii) : bool :=
  let n := code c in
  ((9 <=? n) && (n <=? 13)) || (n =? 32) || (n =? 133) || (n =? 160).

Fixpoint lstrip (s : string) : string :=
  match s with
  | String c s' => if is_space c then lstrip s' else s
  | EmptyString => EmptyString
  end.

(** Drop trailing white space: a character is kept when something that is
    kept follows it, or when it is not white space itself. *)
Fixpoint rstrip (s : string) : string :=
  match s with
  | EmptyString => EmptyString
  | String c s' =>
      match rstrip s' with
      | EmptyString => if is_space c then EmptyString else String c EmptyString
      | r => String c r
      end
  end.

Definition strip (s : string) : string := rstrip (lstrip s).

Definition is_digit (c : ascii) : bool :=
  let n := code c in (48 <=? n) && (n <=? 57).

Definition digit_value (c : ascii) : Z := code c - 48.

(** CPython's default limit on the number of digits [int()] converts. *)
Definition int_max_str_digits : nat := 4300.

(** Decimal digits with single underscores between digits.  [after_digit]
    tells whether the previous character was a digit; [n] counts digits. *)
Fixpoint digits_go (acc : Z) (n : nat) (after_digit : bool) (s : string)
  : option Z :=
  match s with
  | EmptyString =>
      if after_digit && (n <=? int_max_str_digits)%nat then Some acc else None
  | String c s' =>
      if is_digit c then digits_go (10 * acc + digit_value c) (S n) true s'
      else if Ascii.eqb c "_"%char && after_digit then digits_go acc n false s'
      else None
  end.

(** [int(s)] for a string argument, base 10. *)
Definition int (s : string) : result Z :=
  let body := strip s in
  let '(neg, ds) :=
    match body with
    | String "+"%char r => (false, r)
    | String "-"%char r => (true, r)
    | _ => (false, body)
    end in
  match digits_go 0 0 false ds with
  | Some v => Ok (if neg : bool then - v else v)
  | None => Raise ValueError
  end.

(** ["%02d"] of a number in 0..99. *)
Definition digit_char (d : Z) : ascii := ascii_of_N (Z.to_N (48 + d)).

Definition two_digits (n : Z) : string :=
  String (digit_char (n / 10)) (String (digit_char (n mod 10)) EmptyString).

(** The first integer that has more decimal digits than [str] converts. *)
Definition int_max_str : Z := 10 ^ Z.of_nat int_max_str_digits.

(** [str(n)], also the [{n}] of an f-string, for an int: the decimal
    digits, or a [ValueError] beyond the digit limit (the sign does not
    count). *)
Definition of_int (n : Z) : result string :=
  if Z.abs n <? int_max_str then Ok (pretty n) else Raise ValueError.

End PyStr.

(** ** Python floats that are stored, copied or divided exactly, as rationals *)

Module PyFloat.

Definition float := Q.

Definition of_int (z : Z) : float := inject_Z z.

(** [int(x)]: truncation toward zero. *)
Definition to_int (x : float) : Z := Z.quot (Qnum x) (Z.pos (Qden x)).

End PyFloat.

(** ** Python floats, as IEEE 754 binary64 *)

Module PyDouble.

Definition double := spec_float.

Definition prec : Z := 53.
Definition emax : Z := 1024.

(** The double nearest to an integer, ties to even; an infinity beyond the
    range. *)
Definition of_Z (z : Z) : double := binary_normalize prec emax z 0 false.

(** The double nearest to a rational whose numerator and denominator are
    themselves doubles: a decimal literal such as [0.8], or a value [k/2^53]
    of the generator. *)
Definition of_Q (q : Q) : double :=
  SFdiv prec emax (of_Z (Qnum q)) (of_Z (Z.pos (Qden q))).

Definition add : double -> double -> double := SFadd prec emax.
Definition sub : double -> double -> double := SFsub prec emax.
Definition mul : double -> double -> double := SFmul prec emax.

(** The conversion of an int operand of a float operation: [OverflowError]
    when the int is beyond the range of a double. *)
Definition of_int (z : Z) : result double :=
  match of_Z z with
  | S754_infinity _ => Raise OverflowError
  | x => Ok x
  end.

(** [n * x] for an int [n] and a float [x]. *)
Definition int_mul (n : Z) (x : double) : result double :=
  let? f := of_int n in Ok (mul f x).

(** [int(x)]: truncation toward zero; [OverflowError] for an infinity,
    [ValueError] for a NaN. *)
Definition to_int (x : double) : result Z :=
  match x with
  | S754_zero _ => Ok 0
  | S754_finite s m e =>
      let a := if 0 <=? e then Z.shiftl (Z.pos m) e else Z.shiftr (Z.pos m) (- e) in
      Ok (if s then - a else a)
  | S754_infinity _ => Raise OverflowError
  | S754_nan => Raise ValueError
  end.

End PyDouble.

(** ** Naive datetimes *)

Module DateTime.

Definition datetime := Z.
Definition timedelta := Z.

Definition US_PER_SECOND : Z := 1000000.
Definition US_PER_MINUTE : Z := 60 * US_PER_SECOND.
Definition US_PER_HOUR : Z := 60 * US_PER_MINUTE.
Definition US_PER_DAY : Z := 24 * US_PER_HOUR.

(** [datetime.max.toordinal()]: the number of representable days. *)
Definition MAXORDINAL : Z := 3652059.
Definition MAX_US : Z := MAXORDINAL * US_PER_DAY.

Definition in_range (t : Z) : bool := (0 <=? t) && (t <? MAX_US).

Definition hour (t : datetime) : Z := (t / US_PER_HOUR) mod 24.
Definition minute (t : datetime) : Z := (t / US_PER_MINUTE) mod 60.
Definition midnight (t : datetime) : datetime := t / US_PER_DAY * US_PER_DAY.

Definition fits_c_int (z : Z) : bool := (- 2147483648 <=? z) && (z <=? 2147483647).

(** [t.replace(hour=h, minute=m, second=0, microsecond=0)] *)
Definition replace_hm (t : datetime) (h m : Z) : result datetime :=
  if negb (fits_c_int h && fits_c_int m) then Raise OverflowError
  else if (0 <=? h) && (h <=? 23) && (0 <=? m) && (m <=? 59)
  then Ok (midnight t + h * US_PER_HOUR + m * US_PER_MINUTE)
  else Raise ValueError.

(** [datetime.timedelta(minutes=d)] *)
Definition timedelta_minutes (d : Z) : result timedelta :=
  let us := d * US_PER_MINUTE in
  if (- 999999999 <=? us / US_PER_DAY) && (us / US_PER_DAY <=? 999999999)
  then Ok us else Raise OverflowError.

Definition checked (t : Z) : result datetime :=
  if in_range t then Ok t else Raise OverflowError.

Definition add (t : datetime) (d : timedelta) : result datetime := checked (t + d).
Definition sub (t : datetime) (d : timedelta) : result datetime := checked (t - d).

(** [a - b] for two datetimes. *)
Definition diff (a b : datetime) : timedelta := a - b.

(** [d.total_seconds()] *)
Definition total_seconds (d : timedelta) : PyFloat.float :=
  Qmake d (Z.to_pos US_PER_SECOND).

(** [t.strftime('%H:%M')] *)
Definition strftime_HM (t : datetime) : string :=
  PyStr.two_digits (hour t) +:+ ":" +:+ PyStr.two_digits (minute t).

End DateTime.

(** ** Data classes *)

Record TrainSchedule := {
  train_number : string;
  arrival_time : string;
  departure_time : string;
  platform : string;
  route : string;
  status : string;
  delay_minutes : Z;
  gate_closure_duration : Z;
  priority : string
}.

Record Route := {
  route_id : string;
  name : string;
  distance_km : PyFloat.float;
  additional_time_minutes : Z;
  traffic_level : string;
  road_conditions : string;
  recommended : bool;
  toll_cost : PyFloat.float
}.

Definition set_additional_time_minutes (v : Z) (r : Route) : Route :=
  {| route_id := route_id r; name := name r; distance_km := distance_km r;
     additional_time_minutes := v; traffic_level := traffic_level r;
     road_conditions := road_conditions r; recommended := recommended r;
     toll_cost := toll_cost r |}.

Definition set_traffic_level (v : string) (r : Route) : Route :=
  {| route_id := route_id r; name := name r; distance_km := distance_km r;
     additional_time_minutes := additional_time_minutes r; traffic_level := v;
     road_conditions := road_conditions r; recommended := recommended r;
     toll_cost := toll_cost r |}.

Definition set_recommended (v : bool) (r : Route) : Route :=
  {| route_id := route_id r; name := name r; distance_km := distance_km r;
     additional_time_minutes := additional_time_minutes r;
     traffic_level := traffic_level r; road_conditions := road_conditions r;
     recommended := v; toll_cost := toll_cost r |}.

(** The dictionaries the pipeline builds have fixed keys; each is a record. *)

Record Closure := {
  c_train_number : string;
  closure_start : string;
  closure_end : string;
  duration_minutes : Z;
  c_priority : string;
  c_platform : string
}.

Record WaitPrediction := {
  minutes_until_closure : Z;
  closure_duration : Z;
  total_wait_if_caught : Z;
  recommended_action : string
}.

(** [timestamp] holds the instant that the source renders with [isoformat()];
    [a_train_number] and [a_closure_start] are the keys that only some alert
    types carry. *)
Record Alert := {
  a_type : string;
  a_priority : string;
  message : string;
  timestamp : DateTime.datetime;
  a_train_number : option string;
  a_closure_start : option string
}.

(** The entries of the traffic analysis that the rest of the pipeline or the
    properties below read.  Left out: day (the weekday name of the locale),
    peak_hours_today (a constant), and weather_impact, special_events and
    statistics, which are samples of [random.choice] and [random.randint]
    that nothing else reads; their draws are not taken from [rand], which
    feeds [random.uniform] only. *)
Record TrafficAnalysis := {
  time : string;
  traffic_intensity : string;
  next_hour_traffic : string;
  recommended_travel_window : string
}.

(** ** The process state *)

(** Identity of a [Route] object. *)
Definition loc := nat.

Record world := {
  clock : nat -> DateTime.datetime;  (** successive readings of [datetime.now()] *)
  ticks : nat;                       (** readings taken so far *)
  rand : nat -> PyFloat.float;       (** successive values of [random.random()],
                                         each the double nearest to the rational *)
  draws : nat;                       (** values drawn so far *)
  heap : loc -> Route                (** the state of every [Route] object *)
}.

(** The processor object: its two lists.  [alternative_routes] holds
    references, as a Python list does. *)
Record TrainDataProcessor := {
  sample_trains : list TrainSchedule;
  alternative_routes : list loc
}.

Definition M (A : Type) : Type := world -> result A * world.

Definition ret {A} (a : A) : M A := fun w => (Ok a, w).

Definition bind {A B} (m : M A) (k : A -> M B) : M B :=
  fun w => match m w with
           | (Ok a, w') => k a w'
           | (Raise e, w') => (Raise e, w')
           end.

Definition lift {A} (r : result A) : M A := fun w => (r, w).

Notation "x <- m ;; k" := (bind m (fun x => k))
  (at level 100, m at next level, right associativity).
Notation "m ;;; k" := (bind m (fun _ => k))
  (at level 100, right associativity).

(** [for x in l: body x] *)
Fixpoint for_each {A} (l : list A) (body : A -> M unit) : M unit :=
  match l with
  | [] => ret tt
  | x :: l' => body x ;;; for_each l' body
  end.

(** A loop that appends one item to a list per iteration. *)
Fixpoint collect {A B} (l : list A) (body : A -> M B) : M (list B) :=
  match l with
  | [] => ret []
  | x :: l' => y <- body x ;; ys <- collect l' body ;; ret (y :: ys)
  end.

(** [datetime.datetime.now()] *)
Definition now : M DateTime.datetime :=
  fun w => (Ok (clock w (ticks w)),
            {| clock := clock w; ticks := S (ticks w); rand := rand w;
               draws := draws w; heap := heap w |}).

(** [random.random()] *)
Definition random : M PyDouble.double :=
  fun w => (Ok (PyDouble.of_Q (rand w (draws w))),
            {| clock := clock w; ticks := ticks w; rand := rand w;
               draws := S (draws w); heap := heap w |}).

(** [random.uniform(a, b)] is [a + (b - a) * random()]. *)
Definition uniform (a b : PyDouble.double) : M PyDouble.double :=
  u <- random ;; ret (PyDouble.add a (PyDouble.mul (PyDouble.sub b a) u)).

Definition read (l : loc) : M Route := fun w => (Ok (heap w l), w).

Definition update (l : loc) (f : Route -> Route) : M unit :=
  fun w => (Ok tt,
            {| clock := clock w; ticks := ticks w; rand := rand w;
               draws := draws w; heap := alter f l (heap w) |}).

(** ** [list.sort(key=...)]: a stable sort that compares keys with [<] *)

Section StableSort.
Context {A K : Type} (lt : K -> K -> bool) (key : A -> K).

(** [x] goes in front of the first element whose key is not below its own,
    so it stays ahead of the equal keys that came after it in the input. *)
Fixpoint insert_by (x : A) (l : list A) : list A :=
  match l with
  | [] => [x]
  | y :: l' => if lt (key y) (key x) then y :: insert_by x l' else x :: y :: l'
  end.

Fixpoint sort_by (l : list A) : list A :=
  match l with
  | [] => []
  | x :: l' => insert_by x (sort_by l')
  end.
End StableSort.

(** ** The methods of [TrainDataProcessor] *)

Import DateTime.

(** [arrival_hour, arrival_minute = map(int, train.arrival_time.split(':'))]:
    exactly two fields, each accepted by [int]; anything else is a
    [ValueError] (from [int] or from the unpacking). *)
Definition parse_arrival (s : string) : result (Z * Z) :=
  match PyStr.split ":" s with
  | [a; b] =>
      let? h := PyStr.int a in
      let? m := PyStr.int b in
      Ok (h, m)
  | _ => Raise ValueError
  end.

(** The three instants of one iteration: arrival, closure start, closure end,
    for the clock reading [t], the parsed time [h]:[m] and the duration [d]. *)
Definition closure_instants (t : datetime) (h m d : Z)
  : result (datetime * datetime * datetime) :=
  let? arrival_datetime := replace_hm t h m in
  let? five := timedelta_minutes 5 in
  let? closure_start := sub arrival_datetime five in
  let? dur := timedelta_minutes d in
  let? closure_end := add arrival_datetime dur in
  Ok (arrival_datetime, closure_start, closure_end).

(** The body of the loop of [calculate_gate_closure_schedule]. *)
Definition closure_of (train : TrainSchedule) : M Closure :=
  hm <- lift (parse_arrival (arrival_time train)) ;;
  t <- now ;;
  i <- lift (closure_instants t hm.1 hm.2 (gate_closure_duration train)) ;;
  ret {| c_train_number := train_number train;
         closure_start := strftime_HM i.1.2;
         closure_end := strftime_HM i.2;
         duration_minutes := gate_closure_duration train + 5;
         c_priority := priority train;
         c_platform := platform train |}.

Definition calculate_gate_closure_schedule (self : TrainDataProcessor)
  : M (list Closure) :=
  closure_schedule <- collect (sample_trains self) closure_of ;;
  ret (sort_by String.ltb closure_start closure_schedule).

Definition is_rush_hour (h : Z) : bool :=
  ((7 <=? h) && (h <=? 9)) || ((17 <=? h) && (h <=? 19)).

(** The body of the first loop of [optimize_routes].  The dictionary literal
    draws all three multipliers before one is selected. *)
Definition adjust_route (l : loc) : M unit :=
  m_low <- uniform (PyDouble.of_Q (8 # 10)) (PyDouble.of_Q (11 # 10)) ;;
  m_medium <- uniform (PyDouble.of_Q (10 # 10)) (PyDouble.of_Q (13 # 10)) ;;
  m_high <- uniform (PyDouble.of_Q (12 # 10)) (PyDouble.of_Q (18 # 10)) ;;
  r <- read l ;;
  let traffic_multiplier : PyDouble.double :=
    if String.eqb (traffic_level r) "low" then m_low
    else if String.eqb (traffic_level r) "medium" then m_medium
    else if String.eqb (traffic_level r) "high" then m_high
    else PyDouble.of_Q (10 # 10) in
  v <- lift (let? x := PyDouble.int_mul (additional_time_minutes r) traffic_multiplier in
             PyDouble.to_int x) ;;
  update l (set_additional_time_minutes v) ;;;
  t <- now ;;
  let current_hour := hour t in
  if is_rush_hour current_hour then
    r' <- read l ;;
    if String.eqb (traffic_level r') "low" then update l (set_traffic_level "medium")
    else if String.eqb (traffic_level r') "medium" then update l (set_traffic_level "high")
    else ret tt
  else ret tt.

(** [self.alternative_routes.copy()] copies the list of references, not the
    objects: the loops below write to the objects of the canonical list. *)
Definition optimize_routes (self : TrainDataProcessor) : M (list loc) :=
  let optimized_routes := alternative_routes self in
  for_each optimized_routes adjust_route ;;;
  sorted <- (fun w => (Ok (sort_by Z.ltb (fun l => additional_time_minutes (heap w l))
                                   optimized_routes), w)) ;;
  for_each sorted (fun l => update l (set_recommended false)) ;;;
  match sorted with
  | first :: _ => update first (set_recommended true)
  | [] => ret tt
  end ;;;
  ret sorted.

Definition _get_wait_recommendation (minutes_until duration : Z) : string :=
  if minutes_until <=? 2 then "STOP - Gate closing very soon"
  else if minutes_until <=? 5 then "CAUTION - Consider alternative route"
  else if duration >? 10 then "PLAN - Long closure expected, use alternative route"
  else "PROCEED - Sufficient time to cross".

(** [datetime.strptime(s, '%H:%M')], reduced to the hour and minute it reads.
    The format compiles to the regular expression
    [(2[0-3]|[0-1]\d|\d):([0-5]\d|\d)]; the alternatives are tried in that
    order, and text left after the match is an error. *)
Definition digit_at (s : string) : option (Z * string) :=
  match s with
  | String c r => if PyStr.is_digit c then Some (PyStr.digit_value c, r) else None
  | EmptyString => None
  end.

Definition re_H (s : string) : list (Z * string) :=
  match digit_at s with
  | Some (a, r) =>
      match digit_at r with
      | Some (b, r') =>
          (if (a =? 2) && (b <=? 3) then [(20 + b, r')] else [])
          ++ (if a <=? 1 then [(10 * a + b, r')] else [])
      | None => []
      end ++ [(a, r)]
  | None => []
  end.

Definition re_M (s : string) : list (Z * string) :=
  match digit_at s with
  | Some (a, r) =>
      match digit_at r with
      | Some (b, r') => if a <=? 5 then [(10 * a + b, r')] else []
      | None => []
      end ++ [(a, r)]
  | None => []
  end.

Definition strptime_HM (s : string) : result (Z * Z) :=
  let matches :=
    '(h, r) ← re_H s;
    match r with
    | String ":"%char r' => '(m, rest) ← re_M r'; [(h, m, rest)]
    | _ => []
    end in
  match matches with
  | (h, m, EmptyString) :: _ => Ok (h, m)
  | _ => Raise ValueError
  end.

(** The instant rebuilt from a window's closure_start against the date of
    [current_time]: [strptime], then [current_time.replace(...)]. *)
Definition closure_start_instant (current_time : datetime) (closure : Closure)
  : result datetime :=
  let? hm := strptime_HM (closure_start closure) in
  replace_hm current_time hm.1 hm.2.

(** The body of the loop of [predict_wait_times], on the dictionary built so
    far. *)
Definition predict_one (current_time : datetime)
    (wait_predictions : gmap string WaitPrediction) (closure : Closure)
  : result (gmap string WaitPrediction) :=
  let? closure_start_time := closure_start_instant current_time closure in
  if closure_start_time >? current_time then
    let minutes_until_closure :=
      PyFloat.to_int (total_seconds (diff closure_start_time current_time) / 60)%Q in
    Ok (<[ c_train_number closure :=
           {| minutes_until_closure := minutes_until_closure;
              closure_duration := duration_minutes closure;
              total_wait_if_caught := duration_minutes closure;
              recommended_action :=
                _get_wait_recommendation minutes_until_closure
                                         (duration_minutes closure) |} ]>
          wait_predictions)
  else Ok wait_predictions.

Fixpoint fold_result {A S} (body : S -> A -> result S) (l : list A) (s : S)
  : result S :=
  match l with
  | [] => Ok s
  | x :: l' => let? s' := body s x in fold_result body l' s'
  end.

(** [[f x for x in l]], where evaluating [f x] can raise. *)
Fixpoint map_result {A B} (f : A -> result B) (l : list A) : result (list B) :=
  match l with
  | [] => Ok []
  | x :: l' => let? y := f x in let? ys := map_result f l' in Ok (y :: ys)
  end.

Definition predict_wait_times (self : TrainDataProcessor)
  : M (gmap string WaitPrediction) :=
  current_time <- now ;;
  closure_schedule <- calculate_gate_closure_schedule self ;;
  lift (fold_result (predict_one current_time) closure_schedule ∅).

Definition _get_traffic_intensity (hour : Z) : string :=
  if ((7 <=? hour) && (hour <=? 9)) || ((17 <=? hour) && (hour <=? 19)) then "high"
  else if ((10 <=? hour) && (hour <=? 16)) || ((19 <=? hour) && (hour <=? 21))
       then "medium"
  else "low".

Definition _get_recommended_window (current_hour : Z) : string :=
  if current_hour <? 7 then "07:00-07:30 (Before morning rush)"
  else if (7 <=? current_hour) && (current_hour <=? 9)
       then "10:00-11:00 (After morning rush)"
  else if (9 <? current_hour) && (current_hour <? 17) then "Now - Good time to travel"
  else if (17 <=? current_hour) && (current_hour <=? 19)
       then "20:00-21:00 (After evening rush)"
  else "Now - Light traffic period".

(** The clock is read three times: for [current_hour], for [current_day] and
    for the ['time'] entry. *)
Definition analyze_traffic_patterns : M TrafficAnalysis :=
  t_hour <- now ;;
  let current_hour := hour t_hour in
  _t_day <- now ;;
  t_time <- now ;;
  ret {| time := strftime_HM t_time;
         traffic_intensity := _get_traffic_intensity current_hour;
         next_hour_traffic := _get_traffic_intensity (current_hour + 1);
         recommended_travel_window := _get_recommended_window current_hour |}.

(** The dictionary appended for a delayed train.  Rendering the delay in
    the message can raise. *)
Definition delay_alert (current_time : datetime) (train : TrainSchedule)
  : result Alert :=
  let? delay := PyStr.of_int (delay_minutes train) in
  Ok {| a_type := "delay_alert";
        a_priority := "high";
        message := "Train " +:+ train_number train +:+ " delayed by "
                   +:+ delay +:+ " minutes";
        timestamp := current_time;
        a_train_number := Some (train_number train);
        a_closure_start := None |}.

Definition long_closure_alert (current_time : datetime) (closure : Closure)
  : result Alert :=
  let? duration := PyStr.of_int (duration_minutes closure) in
  Ok {| a_type := "long_closure_alert";
        a_priority := "medium";
        message := "Extended gate closure expected: "
                   +:+ duration +:+ " minutes for "
                   +:+ c_train_number closure;
        timestamp := current_time;
        a_train_number := None;
        a_closure_start := Some (closure_start closure) |}.

Definition traffic_alert (current_time : datetime) : Alert :=
  {| a_type := "traffic_alert";
     a_priority := "medium";
     message := "High traffic intensity detected. Consider alternative routes.";
     timestamp := current_time;
     a_train_number := None;
     a_closure_start := None |}.

(** [for x in l: if cond x: alerts.append(mk x)], where building the item
    can raise. *)
Definition append_when {A} (cond : A -> bool) (mk : A -> result Alert)
    (l : list A) (alerts : list Alert) : result (list Alert) :=
  fold_result (fun alerts x => if cond x
                               then let? a := mk x in Ok (alerts ++ [a])
                               else Ok alerts) l alerts.

Definition generate_alerts (self : TrainDataProcessor) : M (list Alert) :=
  let alerts := [] in
  current_time <- now ;;
  alerts <-
    lift (append_when (fun train => String.eqb (status train) "delayed"
                                    && (delay_minutes train >? 10))
                      (delay_alert current_time) (sample_trains self) alerts) ;;
  closure_schedule <- calculate_gate_closure_schedule self ;;
  alerts <-
    lift (append_when (fun closure => duration_minutes closure >? 10)
                      (long_closure_alert current_time) closure_schedule alerts) ;;
  traffic_analysis <- analyze_traffic_patterns ;;
  let alerts :=
    if String.eqb (traffic_intensity traffic_analysis) "high"
    then alerts ++ [traffic_alert current_time] else alerts in
  ret alerts.

(** ** The data built by [__init__] and [initialize_routes] *)

Module Sample.

Definition train (number arrival departure plat rt st : string)
    (delay duration : Z) (prio : string) : TrainSchedule :=
  {| train_number := number; arrival_time := arrival;
     departure_time := departure; platform := plat; route := rt;
     status := st; delay_minutes := delay;
     gate_closure_duration := duration; priority := prio |}.

Definition EXP_12345 :=
  train "EXP-12345" "14:30" "14:38" "3" "Mumbai-Delhi Express" "ontime" 0 8 "high".
Definition LOC_67890 :=
  train "LOC-67890" "14:45" "14:51" "1" "Local Passenger Service" "delayed" 15 8 "normal".
Definition FRT_11111 :=
  train "FRT-11111" "15:15" "15:27" "2" "Freight Service" "approaching" 0 12 "low".
Definition EXP_22222 :=
  train "EXP-22222" "15:45" "15:52" "4" "Chennai-Kolkata Express" "ontime" 0 8 "high".
Definition PSG_33333 :=
  train "PSG-33333" "16:20" "16:29" "1" "Inter-city Passenger" "ontime" 0 8 "normal".

(** Two records outside the built-in data: an arrival time that cannot be
    read, and one that is read although it is not zero-padded. *)
Definition BAD_00000 :=
  train "BAD-00000" "2.30pm" "14:38" "2" "Unscheduled Service" "ontime" 0 8 "normal".
Definition LAX_00000 :=
  train "LAX-00000" "7:5" "07:13" "2" "Early Service" "ontime" 0 8 "normal".

Definition R001 : Route :=
  {| route_id := "R001"; name := "Highway Bypass"; distance_km := 82 # 10;
     additional_time_minutes := 15; traffic_level := "medium";
     road_conditions := "good"; recommended := false; toll_cost := 25 # 1 |}.
Definition R002 : Route :=
  {| route_id := "R002"; name := "City Center Route"; distance_km := 78 # 10;
     additional_time_minutes := 12; traffic_level := "high";
     road_conditions := "fair"; recommended := false; toll_cost := 0 # 1 |}.
Definition R003 : Route :=
  {| route_id := "R003"; name := "Industrial Zone"; distance_km := 91 # 10;
     additional_time_minutes := 18; traffic_level := "low";
     road_conditions := "excellent"; recommended := false; toll_cost := 15 # 1 |}.
Definition R004 : Route :=
  {| route_id := "R004"; name := "Bridge Road"; distance_km := 65 # 10;
     additional_time_minutes := 8; traffic_level := "low";
     road_conditions := "good"; recommended := true; toll_cost := 10 # 1 |}.

(** The four route objects live at addresses 0..3. *)
Definition routes_heap : loc -> Route :=
  fun l => match l with
           | 0%nat => R001
           | 1%nat => R002
           | 2%nat => R003
           | _ => R004
           end.

Definition processor : TrainDataProcessor :=
  {| sample_trains := [EXP_12345; LOC_67890; FRT_11111; EXP_22222; PSG_33333];
     alternative_routes := [0; 1; 2; 3]%nat |}.

(** An instant of day 739000 (in the year 2024) at [h]:[m]:[s]. *)
Definition at_time (h m s : Z) : datetime :=
  739000 * US_PER_DAY + h * US_PER_HOUR + m * US_PER_MINUTE + s * US_PER_SECOND.

Definition processor_of (trains : list TrainSchedule) : TrainDataProcessor :=
  {| sample_trains := trains; alternative_routes := [0; 1; 2; 3]%nat |}.

(** A world whose clock stands still at [t] and whose generator always
    returns [u]. *)
Definition frozen (t : datetime) (u : PyFloat.float) : world :=
  {| clock := fun _ => t; ticks := 0; rand := fun _ => u; draws := 0;
     heap := routes_heap |}.

End Sample.

(** * Vocabulary of the statements *)

(** The zero-padded rendering of hour [h] and minute [m]. *)
Definition hhmm (h m : Z) : string :=
  PyStr.two_digits h +:+ ":" +:+ PyStr.two_digits m.

(** The rendering of minute [k] of the day, wrapping around midnight. *)
Definition clock_string (k : Z) : string := hhmm ((k / 60) mod 24) (k mod 60).

(** A string is a well-formed "HH:MM" when it is two digits, a colon and two
    digits, with the hour at most 23 and the minute at most 59. *)
Definition hhmm_value (s : string) : option (Z * Z) :=
  match s with
  | String a (String b (String sep (String c (String d EmptyString)))) =>
      if PyStr.is_digit a && PyStr.is_digit b && Ascii.eqb sep ":"
         && PyStr.is_digit c && PyStr.is_digit d
      then
        let h := 10 * PyStr.digit_value a + PyStr.digit_value b in
        let m := 10 * PyStr.digit_value c + PyStr.digit_value d in
        if (h <=? 23) && (m <=? 59) then Some (h, m) else None
      else None
  | _ => None
  end.

Definition well_formed (s : string) : Prop := is_Some (hhmm_value s).

#[global] Instance exn_eq_dec : EqDecision exn.
Proof. solve_decision. Defined.

#[global] Instance result_eq_dec {A} `{EqDecision A} : EqDecision (result A).
Proof. solve_decision. Defined.

Ltac us_consts :=
  change US_PER_DAY with 86400000000 in *;
  change US_PER_HOUR with 3600000000 in *;
  change US_PER_MINUTE with 60000000 in *;
  change US_PER_SECOND with 1000000 in *;
  change MAX_US with 315537897600000000 in *.

(** The window of a train arriving at [h]:[m] fits the datetime range on the
    day of [t]. *)
Definition window_in_range (t : datetime) (h m d : Z) : bool :=
  in_range (midnight t + (60 * h + m - 5) * US_PER_MINUTE)
  && in_range (midnight t + (60 * h + m + d) * US_PER_MINUTE).

(** The world after [n] further readings of the clock. *)
Definition advance (n : nat) (w : world) : world :=
  {| clock := clock w; ticks := n + ticks w; rand := rand w;
     draws := draws w; heap := heap w |}.

(** The window of a train that arrives at [h]:[m]. *)
Definition closure_window (train : TrainSchedule) (h m : Z) : Closure :=
  {| c_train_number := train_number train;
     closure_start := clock_string (60 * h + m - 5);
     closure_end := clock_string (60 * h + m + gate_closure_duration train);
     duration_minutes := gate_closure_duration train + 5;
     c_priority := priority train;
     c_platform := platform train |}.

Definition window_of (train : TrainSchedule) : Closure :=
  let hm := default (0, 0) (hhmm_value (arrival_time train)) in
  closure_window train hm.1 hm.2.

(** A record whose arrival time is a well-formed "HH:MM" and whose window
    fits the datetime range whatever reading of the clock is used. *)
Definition schedulable (w : world) (train : TrainSchedule) : Prop :=
  exists h m, hhmm_value (arrival_time train) = Some (h, m)
    /\ forall n, window_in_range (clock w n) h m (gate_closure_duration train) = true.

(** An arrival time that [split] and [int] do not turn into an hour of 0..23
    and a minute of 0..59. *)
Definition unreadable (s : string) : Prop :=
  match parse_arrival s with
  | Ok (h, m) => ~ (0 <= h <= 23 /\ 0 <= m <= 59)
  | Raise _ => True
  end.

Ltac sample_schedulable :=
  repeat constructor;
  eexists _, _; (split; [vm_compute; reflexivity | intros ?; vm_compute; reflexivity]).

Definition is_delayed (train : TrainSchedule) : bool :=
  String.eqb (status train) "delayed" && (delay_minutes train >? 10).

Definition is_long (closure : Closure) : bool := duration_minutes closure >? 10.

(** The entry written for a window whose closure starts at [start]. *)
Definition prediction_for (current_time start : datetime) (closure : Closure)
  : WaitPrediction :=
  let minutes := (start - current_time) ÷ (60 * US_PER_SECOND) in
  {| minutes_until_closure := minutes;
     closure_duration := duration_minutes closure;
     total_wait_if_caught := duration_minutes closure;
     recommended_action :=
       _get_wait_recommendation minutes (duration_minutes closure) |}.

(** ** Further vocabulary *)

(** The window computed for a record from what [parse_arrival] reads. *)
Definition parsed_window (train : TrainSchedule) : Closure :=
  match parse_arrival (arrival_time train) with
  | Ok (h, m) => closure_window train h m
  | Raise _ => closure_window train 0 0
  end.

(** The number of occurrences of a character in a string. *)
Fixpoint occurrences (c : ascii) (s : string) : nat :=
  match s with
  | EmptyString => 0%nat
  | String c' s' => ((if Ascii.eqb c' c then 1 else 0) + occurrences c s')%nat
  end.

(** The instant that [closure_start_instant] rebuilds for a window, and
    [current_time] itself where the closure_start cannot be read. *)
Definition start_of (current_time : datetime) (closure : Closure) : datetime :=
  match closure_start_instant current_time closure with
  | Ok s => s
  | Raise _ => current_time
  end.

(** A window of train number [k] whose rebuilt start is after [current_time]. *)
Definition upcoming (current_time : datetime) (k : string) (closure : Closure) : bool :=
  String.eqb (c_train_number closure) k && (start_of current_time closure >? current_time).

(** Further records and batches used as examples. *)
Definition NGT_00002 : TrainSchedule :=
  Sample.train "NGT-00002" "00:02" "00:10" "1" "Night Mail" "ontime" 0 8 "low".

Definition SEC_00001 : TrainSchedule :=
  Sample.train "SEC-00001" "14:30:00" "14:38" "2" "Timed Service" "ontime" 0 8 "normal".

(** A record with a well-formed arrival time whose closure would end after
    the last day of [datetime]. *)
Definition HUG_00000 : TrainSchedule :=
  Sample.train "HUG-00000" "14:30" "14:38" "2" "Endless Service" "ontime" 0
               5258964960 "normal".


Definition SLOW_00000 : TrainSchedule :=
  Sample.train "SLOW-00000" "2147483648:00" "00:10" "1" "Slow Service" "delayed"
               PyStr.int_max_str 8 "low".

(** A delayed train whose arrival time cannot be read, and one whose arrival
    time is well-formed and whose delay has 4301 digits. *)
Definition LATE_00000 : TrainSchedule :=
  Sample.train "LATE-00000" "2.30pm" "14:38" "1" "Late Service" "delayed" 15 8 "normal".

Definition AGES_00000 : TrainSchedule :=
  Sample.train "AGES-00000" "14:45" "14:51" "1" "Overdue Service" "delayed"
               PyStr.int_max_str 8 "normal".

Definition DUP_00001 : TrainSchedule :=
  Sample.train "DUP-00001" "14:45" "14:50" "2" "Relief Service" "ontime" 0 8 "normal".

Definition duplicate_numbers : TrainDataProcessor :=
  Sample.processor_of
    [Sample.train "DUP-00002" "15:00" "15:08" "1" "Second Run" "ontime" 0 8 "normal";
     Sample.train "DUP-00002" "14:00" "14:12" "2" "First Run" "ontime" 0 12 "normal"].

(** A processor whose list of routes holds the route at address 3 twice. *)
Definition twice_listed : TrainDataProcessor :=
  {| sample_trains := []; alternative_routes := [3; 3]%nat |}.

(** The world used in the examples: the clock stands at [h]:[m] and the
    generator returns one half. *)
Definition at_clock (h m : Z) : world := Sample.frozen (Sample.at_time h m 0) (1 # 2).

(** A processor with one route, a route that takes [minutes] at traffic
    level [level], and a world that holds that route at every address, with
    a clock that stands at [t] and a generator that always returns [u]. *)
Definition single_route : TrainDataProcessor :=
  {| sample_trains := []; alternative_routes := [0%nat] |}.

Definition route_taking (minutes : Z) (level : string) : Route :=
  {| route_id := "R900"; name := "Detour"; distance_km := 10 # 1;
     additional_time_minutes := minutes; traffic_level := level;
     road_conditions := "good"; recommended := false; toll_cost := 0 # 1 |}.

Definition lone_route (r : Route) (t : datetime) (u : Q) : world :=
  {| clock := fun _ => t; ticks := 0; rand := fun _ => u; draws := 0;
     heap := fun _ => r |}.

(** A double of the interval [0, 1): the values of [random.random()]. *)
Definition in_unit_interval (x : PyDouble.double) : bool :=
  match x with
  | S754_zero _ => true
  | S754_finite false m e => (Z.pos m <? 2 ^ 53) && (e <=? - 53)
  | _ => false
  end.

(** A double that is a zero, or is finite with a mantissa below 2^53 and an
    exponent of at most [E]: its absolute value is below [2 ^ (E + 53)]. *)
Definition small (E : Z) (x : PyDouble.double) : Prop :=
  match x with
  | S754_zero _ => True
  | S754_finite _ m e => Z.pos m < 2 ^ 53 /\ e <= E
  | _ => False
  end.

(** One step up the traffic scale, as the ranker escalates a level. *)
Definition escalate (level : string) : string :=
  if String.eqb level "low" then "medium"
  else if String.eqb level "medium" then "high"
  else level.

(** The double [a + (b - a) * u] that [random.uniform(a, b)] returns when
    the generator returns [u]; [a], [b] and [u] name the doubles nearest to
    them. *)
Definition uniform_value (a b u : Q) : PyDouble.double :=
  PyDouble.add (PyDouble.of_Q a)
               (PyDouble.mul (PyDouble.sub (PyDouble.of_Q b) (PyDouble.of_Q a))
                             (PyDouble.of_Q u)).

(** The multiplier that the ranker selects for a level among the three
    values it has drawn; [1.0] for a level that is none of the three. *)
Definition multiplier_for (level : string) (u_low u_medium u_high : Q)
  : PyDouble.double :=
  if String.eqb level "low" then uniform_value (8 # 10) (11 # 10) u_low
  else if String.eqb level "medium" then uniform_value (10 # 10) (13 # 10) u_medium
  else if String.eqb level "high" then uniform_value (12 # 10) (18 # 10) u_high
  else PyDouble.of_Q (10 # 10).

(** [int(minutes * multiplier)] in double arithmetic. *)
Definition scaled (minutes : Z) (multiplier : PyDouble.double) : result Z :=
  let? x := PyDouble.int_mul minutes multiplier in PyDouble.to_int x.

(** A route after one adjustment with the draws [u_low], [u_medium],
    [u_high] and the clock reading [t], when the new time [v] has been
    computed. *)
Definition adjusted_to (v : Z) (r : Route) (t : datetime) : Route :=
  {| route_id := route_id r; name := name r; distance_km := distance_km r;
     additional_time_minutes := v;
     traffic_level :=
       if is_rush_hour (hour t) then escalate (traffic_level r) else traffic_level r;
     road_conditions := road_conditions r; recommended := recommended r;
     toll_cost := toll_cost r |}.

Definition adjusted (r : Route) (u_low u_medium u_high : Q) (t : datetime)
  : result Route :=
  let? v := scaled (additional_time_minutes r)
                   (multiplier_for (traffic_level r) u_low u_medium u_high) in
  Ok (adjusted_to v r t).

(** Two states of a route that differ at most in the fields that the ranker
    assigns. *)
Definition same_identity (r r' : Route) : Prop :=
  route_id r' = route_id r /\ name r' = name r /\ distance_km r' = distance_km r
  /\ road_conditions r' = road_conditions r /\ toll_cost r' = toll_cost r.

(** A step from [w] to [w'] that leaves the clock and the generator's
    sequence as they are, keeps the identity of every route and does not
    touch the routes outside [ls]. *)
Definition framed (ls : list loc) (w w' : world) : Prop :=
  clock w' = clock w /\ rand w' = rand w
  /\ (forall l, same_identity (heap w l) (heap w' l))
  /\ (forall l, l ∉ ls -> heap w' l = heap w l).

(** ** [sync_with_backend] *)

(** One entry of 'optimized_routes'.  [e_distance] holds the float that the
    source renders as "+{distance_km} km". *)
Record RouteEntry := {
  e_id : string;
  e_name : string;
  e_distance : PyFloat.float;
  e_additional_time : string;
  e_traffic_level : string;
  e_recommended : bool;
  e_toll_cost : PyFloat.float
}.

Definition route_entry (r : Route) : result RouteEntry :=
  let? minutes := PyStr.of_int (additional_time_minutes r) in
  Ok {| e_id := route_id r;
        e_name := name r;
        e_distance := distance_km r;
        e_additional_time := minutes +:+ " min longer";
        e_traffic_level := traffic_level r;
        e_recommended := recommended r;
        e_toll_cost := toll_cost r |}.

(** The document [processed_data].  [s_timestamp] holds the instant that the
    source renders with [isoformat()]. *)
Record Snapshot := {
  s_timestamp : datetime;
  s_gate_closure_schedule : list Closure;
  s_optimized_routes : list RouteEntry;
  s_wait_predictions : gmap string WaitPrediction;
  s_traffic_analysis : TrafficAnalysis
}.

(** The dictionary display of [sync_with_backend]: its entries are evaluated
    in the order in which they are written. *)
Definition build_snapshot (self : TrainDataProcessor) : M Snapshot :=
  t <- now ;;
  schedule <- calculate_gate_closure_schedule self ;;
  routes <- optimize_routes self ;;
  entries <- (fun w => (map_result (fun l => route_entry (heap w l)) routes, w)) ;;
  predictions <- predict_wait_times self ;;
  analysis <- analyze_traffic_patterns ;;
  ret {| s_timestamp := t;
         s_gate_closure_schedule := schedule;
         s_optimized_routes := entries;
         s_wait_predictions := predictions;
         s_traffic_analysis := analysis |}.

(** A document left in the file by an earlier run. *)
Definition stale_snapshot : Snapshot :=
  {| s_timestamp := Sample.at_time 3 0 0;
     s_gate_closure_schedule := [];
     s_optimized_routes := [];
     s_wait_predictions := ∅;
     s_traffic_analysis :=
       {| time := "03:00"; traffic_intensity := "low"; next_hour_traffic := "low";
          recommended_travel_window := "07:00-07:30 (Before morning rush)" |} |}.

(** What becomes of the attempt to write 'processed_data.json'. *)
Inductive write_outcome :=
| open_fails   (** [open(..., 'w')] raises: the file is left as it was *)
| dump_fails   (** the file is opened, which empties it, and [json.dump] raises *)
| written.     (** the document is written *)

(** [sync_with_backend]: the [try] block builds the document and writes it to
    'processed_data.json'; any exception is caught and turned into [False].
    [file] is the document that the file holds, [None] when it holds no
    complete document; [outcome] is what the file system does when the code
    comes to write.  The JSON text is not modelled. *)
Definition sync_with_backend (self : TrainDataProcessor) (outcome : write_outcome)
    (file : option Snapshot) : world -> (bool * option Snapshot) * world :=
  fun w =>
    match build_snapshot self w with
    | (Ok processed_data, w') =>
        match outcome with
        | written => ((true, Some processed_data), w')
        | dump_fails => ((false, None), w')
        | open_fails => ((false, file), w')
        end
    | (Raise _, w') => ((false, file), w')
    end.

(** * Properties *)

(** ** Well-formed "HH:MM" strings *)

Section Enumeration.

(** A boolean property checked on [0 .. n-1] holds on that interval. *)
Lemma forallb_range (P : Z -> bool) (n : nat) :
  forallb P (map Z.of_nat (seq 0 n)) = true ->
  forall z, 0 <= z < Z.of_nat n -> P z = true.
Proof.
  intros Hall z Hz.
  rewrite forallb_forall in Hall. apply Hall.
  apply in_map_iff. exists (Z.to_nat z). split; [lia|].
  apply in_seq. lia.
Qed.

Lemma forallb_range2 (P : Z -> Z -> bool) (n1 n2 : nat) :
  forallb (fun a => forallb (P a) (map Z.of_nat (seq 0 n2)))
          (map Z.of_nat (seq 0 n1)) = true ->
  forall a b, 0 <= a < Z.of_nat n1 -> 0 <= b < Z.of_nat n2 -> P a b = true.
Proof.
  intros Hall a b Ha Hb.
  apply (forallb_range (P a) n2); [|done].
  by apply (forallb_range (fun a => forallb (P a) _) n1).
Qed.

End Enumeration.

Lemma is_digit_char (c : ascii) :
  PyStr.is_digit c = true ->
  0 <= PyStr.digit_value c <= 9 /\ c = PyStr.digit_char (PyStr.digit_value c).
Proof.
  destruct c as [[] [] [] [] [] [] [] []]; vm_compute; intros H;
    first [discriminate H | split; [split; discriminate | reflexivity]].
Qed.

Lemma two_digits_chars (a b : Z) :
  0 <= a <= 9 -> 0 <= b <= 9 ->
  PyStr.two_digits (10 * a + b)
  = String (PyStr.digit_char a) (String (PyStr.digit_char b) EmptyString).
Proof.
  intros Ha Hb. unfold PyStr.two_digits.
  replace ((10 * a + b) / 10) with a by (apply Z.div_unique with b; lia).
  replace ((10 * a + b) mod 10) with b by (apply Z.mod_unique with a; lia).
  done.
Qed.

(** A well-formed string is the zero-padded rendering of its value. *)
Lemma hhmm_value_spec (s : string) (h m : Z) :
  hhmm_value s = Some (h, m) -> 0 <= h <= 23 /\ 0 <= m <= 59 /\ s = hhmm h m.
Proof.
  unfold hhmm_value.
  destruct s as [|a [|b [|sep [|c [|d [|]]]]]]; try discriminate.
  destruct (PyStr.is_digit a) eqn:Ha; [|discriminate].
  destruct (PyStr.is_digit b) eqn:Hb; [|discriminate].
  destruct (Ascii.eqb sep ":") eqn:Hsep; [|discriminate].
  destruct (PyStr.is_digit c) eqn:Hc; [|discriminate].
  destruct (PyStr.is_digit d) eqn:Hd; [|discriminate].
  cbn [andb].
  destruct (_ && _) eqn:Hrange; [|discriminate].
  intros [= <- <-].
  apply Ascii.eqb_eq in Hsep as ->.
  apply is_digit_char in Ha as [Ha Ea], Hb as [Hb Eb], Hc as [Hc Ec], Hd as [Hd Ed].
  apply andb_true_iff in Hrange as [?%Z.leb_le ?%Z.leb_le].
  split; [lia|]. split; [lia|].
  unfold hhmm. rewrite !two_digits_chars by done.
  by rewrite <- Ea, <- Eb, <- Ec, <- Ed.
Qed.

(** Both parsers of the pipeline read a zero-padded time back. *)
Lemma hhmm_readback (h m : Z) :
  0 <= h <= 23 -> 0 <= m <= 59 ->
  parse_arrival (hhmm h m) = Ok (h, m)
  /\ strptime_HM (hhmm h m) = Ok (h, m)
  /\ hhmm_value (hhmm h m) = Some (h, m).
Proof.
  intros Hh Hm.
  pose (P := fun h m =>
    bool_decide (parse_arrival (hhmm h m) = Ok (h, m))
    && bool_decide (strptime_HM (hhmm h m) = Ok (h, m))
    && bool_decide (hhmm_value (hhmm h m) = Some (h, m))).
  assert (P h m = true) as HP.
  { apply (forallb_range2 P 24 60); [vm_compute; reflexivity|lia|lia]. }
  unfold P in HP.
  apply andb_true_iff in HP as [HP H3]. apply andb_true_iff in HP as [H1 H2].
  apply bool_decide_eq_true in H1, H2, H3. done.
Qed.

(** ** Datetime arithmetic *)

Lemma midnight_spec (t : datetime) :
  exists day, midnight t = day * US_PER_DAY /\ midnight t <= t < midnight t + US_PER_DAY.
Proof.
  exists (t / US_PER_DAY). unfold midnight. split; [done|].
  us_consts. pose proof (Z.mod_pos_bound t 86400000000).
  pose proof (Z.div_mod t 86400000000). lia.
Qed.

Lemma hour_of_offset (t : datetime) (k : Z) :
  hour (midnight t + k * US_PER_MINUTE) = (k / 60) mod 24.
Proof.
  destruct (midnight_spec t) as (day & -> & _). unfold hour. us_consts.
  replace (day * 86400000000 + k * 60000000)
    with ((24 * day) * 3600000000 + k * 60000000) by lia.
  rewrite Z.div_add_l by lia.
  replace 3600000000 with (60 * 60000000) by lia.
  rewrite Z.div_mul_cancel_r by lia.
  rewrite Z.add_comm, Z.mul_comm. apply Z.mod_add. lia.
Qed.

Lemma minute_of_offset (t : datetime) (k : Z) :
  minute (midnight t + k * US_PER_MINUTE) = k mod 60.
Proof.
  destruct (midnight_spec t) as (day & -> & _). unfold minute. us_consts.
  replace (day * 86400000000 + k * 60000000)
    with ((day * 1440 + k) * 60000000) by lia.
  rewrite Z.div_mul by lia.
  replace (day * 1440 + k) with (k + (day * 24) * 60) by lia.
  apply Z.mod_add. lia.
Qed.

(** The "HH:MM" of an instant depends on its minute of the day alone. *)
Lemma strftime_offset (t : datetime) (k : Z) :
  strftime_HM (midnight t + k * US_PER_MINUTE) = clock_string k.
Proof.
  unfold strftime_HM, clock_string, hhmm.
  by rewrite hour_of_offset, minute_of_offset.
Qed.

Lemma replace_hm_ok (t : datetime) (h m : Z) :
  0 <= h <= 23 -> 0 <= m <= 59 ->
  replace_hm t h m = Ok (midnight t + (60 * h + m) * US_PER_MINUTE).
Proof.
  intros Hh Hm. unfold replace_hm, fits_c_int.
  repeat match goal with
         | |- context [?a <=? ?b] => rewrite (Zle_imp_le_bool a b) by lia
         end.
  cbn. f_equal. us_consts. lia.
Qed.

Lemma replace_hm_Ok_inv (t : datetime) (h m : Z) (a : datetime) :
  replace_hm t h m = Ok a ->
  0 <= h <= 23 /\ 0 <= m <= 59 /\ a = midnight t + (60 * h + m) * US_PER_MINUTE.
Proof.
  unfold replace_hm. destruct (negb _); [discriminate|].
  destruct (_ && _) eqn:E; [|discriminate]. intros [= <-].
  repeat (apply andb_true_iff in E as [E ?]).
  us_consts. lia.
Qed.

Lemma closure_instants_ok (t : datetime) (h m d : Z) :
  0 <= h <= 23 -> 0 <= m <= 59 -> window_in_range t h m d = true ->
  let arrival := midnight t + (60 * h + m) * US_PER_MINUTE in
  closure_instants t h m d
  = Ok (arrival, arrival - 5 * US_PER_MINUTE, arrival + d * US_PER_MINUTE).
Proof.
  intros Hh Hm Hfit arrival.
  apply andb_true_iff in Hfit as [Hs He].
  unfold closure_instants. rewrite replace_hm_ok by done. cbn [rbind].
  fold arrival.
  replace (timedelta_minutes 5) with (Ok (A:=timedelta) (5 * US_PER_MINUTE))
    by (vm_compute; reflexivity).
  cbn [rbind]. unfold sub, checked.
  replace (arrival - 5 * US_PER_MINUTE)
    with (midnight t + (60 * h + m - 5) * US_PER_MINUTE) by (unfold arrival; lia).
  rewrite Hs. cbn [rbind].
  assert (timedelta_minutes d = Ok (d * US_PER_MINUTE)) as ->.
  { unfold timedelta_minutes. cbv zeta.
    destruct (midnight_spec t) as (day & Hday & _).
    unfold in_range in Hs, He.
    apply andb_true_iff in Hs as [Hs1%Z.leb_le Hs2%Z.ltb_lt].
    apply andb_true_iff in He as [He1%Z.leb_le He2%Z.ltb_lt].
    assert (- (2 * MAX_US) <= d * US_PER_MINUTE <= MAX_US) as Hd by (us_consts; lia).
    assert (- 999999999 <= d * US_PER_MINUTE / US_PER_DAY <= 999999999) as [H1 H2].
    { us_consts. split.
      - apply Z.div_le_lower_bound; lia.
      - apply Z.div_le_upper_bound; lia. }
    apply Z.leb_le in H1, H2. by rewrite H1, H2. }
  cbn [rbind]. unfold add, checked.
  replace (arrival + d * US_PER_MINUTE)
    with (midnight t + (60 * h + m + d) * US_PER_MINUTE) by (unfold arrival; lia).
  by rewrite He.
Qed.

(** ** The stable sort *)

Section StableSortFacts.
Context {A K : Type} (lt : K -> K -> bool) (le : K -> K -> Prop) (key : A -> K).
Hypothesis lt_le : forall a b, lt a b = true -> le a b.
Hypothesis nlt_le : forall a b, lt a b = false -> le b a.
Hypothesis le_trans : forall a b c, le a b -> le b c -> le a c.

Let R (x y : A) : Prop := le (key x) (key y).

Lemma key_le_refl (a : K) : le a a.
Proof. destruct (lt a a) eqn:E; auto. Qed.

Lemma insert_by_perm (x : A) (l : list A) : insert_by lt key x l ≡ₚ x :: l.
Proof.
  induction l as [|y l IH]; cbn; [done|].
  destruct (lt (key y) (key x)); [|done].
  rewrite IH. apply Permutation_swap.
Qed.

Lemma sort_by_perm (l : list A) : sort_by lt key l ≡ₚ l.
Proof.
  induction l as [|x l IH]; cbn; [done|].
  by rewrite insert_by_perm, IH.
Qed.

Lemma insert_by_sorted (x : A) (l : list A) :
  StronglySorted R l -> StronglySorted R (insert_by lt key x l).
Proof.
  induction l as [|y l IH]; cbn; intros Hs.
  - repeat constructor.
  - apply StronglySorted_cons in Hs as [Hy Hl].
    destruct (lt (key y) (key x)) eqn:E.
    + apply StronglySorted_cons. split; [|by apply IH].
      rewrite insert_by_perm. constructor; [by apply lt_le|done].
    + apply StronglySorted_cons. split.
      * constructor; [by apply nlt_le|].
        eapply Forall_impl; [exact Hy|].
        intros z Hz. eapply le_trans; [by apply nlt_le|exact Hz].
      * by apply StronglySorted_cons.
Qed.

Lemma sort_by_sorted (l : list A) : StronglySorted R (sort_by lt key l).
Proof.
  induction l as [|x l IH]; cbn; [constructor|by apply insert_by_sorted].
Qed.

(** The head of the sorted list is the first element of the input whose key
    is minimal: everything before it in the input is strictly above it. *)
Lemma sort_by_head (l : list A) (b : A) (rest : list A) :
  sort_by lt key l = b :: rest ->
  exists pre post,
    l = pre ++ b :: post
    /\ Forall (fun y => lt (key b) (key y) = true) pre
    /\ Forall (fun y => le (key b) (key y)) post.
Proof.
  revert b rest. induction l as [|x l IH]; intros b rest; cbn; [discriminate|].
  destruct (sort_by lt key l) as [|y r] eqn:Hsort; cbn.
  - intros [= <- <-].
    assert (l = []) as -> by (apply Permutation_nil; by rewrite <- Hsort, sort_by_perm).
    exists [], []. by repeat constructor.
  - destruct (lt (key y) (key x)) eqn:E.
    + intros [= <- <-].
      destruct (IH y r eq_refl) as (pre & post & -> & Hpre & Hpost).
      exists (x :: pre), post. split; [done|]. split; [by constructor|done].
    + intros [= <- <-].
      exists [], l. split; [done|]. split; [constructor|].
      pose proof (sort_by_sorted l) as Hs. rewrite Hsort in Hs.
      apply StronglySorted_cons in Hs as [Hy _].
      apply Forall_forall. intros z Hz.
      assert (z ∈ y :: r) as Hz' by (by rewrite <- Hsort, sort_by_perm).
      apply nlt_le in E.
      apply elem_of_cons in Hz' as [->|Hz']; [done|].
      eapply le_trans; [exact E|].
      rewrite Forall_forall in Hy. by apply Hy.
Qed.

(** Stability: the elements of one key class keep their input order. *)
Variable same : K -> bool.
Hypothesis lt_same : forall a b, lt a b = true -> same a = true -> same b = true -> False.

Lemma insert_by_class (x : A) (l : list A) :
  List.filter (fun y => same (key y)) (insert_by lt key x l)
  = List.filter (fun y => same (key y)) (x :: l).
Proof.
  induction l as [|y l IH]; [done|]. cbn [insert_by].
  destruct (lt (key y) (key x)) eqn:E; [|done].
  cbn [List.filter] in *. rewrite IH.
  destruct (same (key y)) eqn:Ey, (same (key x)) eqn:Ex; try done.
  destruct (lt_same _ _ E Ey Ex).
Qed.

Lemma sort_by_stable (l : list A) :
  List.filter (fun y => same (key y)) (sort_by lt key l)
  = List.filter (fun y => same (key y)) l.
Proof.
  induction l as [|x l IH]; [done|]. cbn [sort_by].
  rewrite insert_by_class. cbn [List.filter]. by rewrite IH.
Qed.

End StableSortFacts.

Lemma string_ltb_le (a b : string) : String.ltb a b = true -> String.le a b.
Proof.
  unfold String.ltb, String.le, String.leb.
  by destruct (String.compare a b).
Qed.

Lemma string_nltb_le (a b : string) : String.ltb a b = false -> String.le b a.
Proof.
  unfold String.ltb, String.le, String.leb.
  rewrite (String.compare_antisym b a).
  by destruct (String.compare a b).
Qed.

Lemma string_le_trans (a b c : string) : String.le a b -> String.le b c -> String.le a c.
Proof. intros. by etrans. Qed.

(** ** Running the closure schedule *)

Lemma now_run (w : world) : now w = (Ok (clock w (ticks w)), advance 1 w).
Proof. reflexivity. Qed.

Lemma advance_advance (n k : nat) (w : world) :
  advance n (advance k w) = advance (n + k) w.
Proof. unfold advance; cbn. f_equal. lia. Qed.

Lemma schedulable_advance (n : nat) (w : world) (train : TrainSchedule) :
  schedulable w train -> schedulable (advance n w) train.
Proof. done. Qed.

Lemma closure_of_ok (train : TrainSchedule) (w : world) (h m : Z) :
  parse_arrival (arrival_time train) = Ok (h, m) ->
  0 <= h <= 23 -> 0 <= m <= 59 ->
  window_in_range (clock w (ticks w)) h m (gate_closure_duration train) = true ->
  closure_of train w = (Ok (closure_window train h m), advance 1 w).
Proof.
  intros Hparse Hh Hm Hfit.
  unfold closure_of, bind, lift. rewrite Hparse, now_run. cbn [fst snd].
  rewrite closure_instants_ok by done. cbn [fst snd]. unfold ret.
  f_equal. f_equal. unfold closure_window. f_equal.
  - rewrite <- strftime_offset with (t := clock w (ticks w)). f_equal. lia.
  - rewrite <- strftime_offset with (t := clock w (ticks w)). f_equal. lia.
Qed.

Lemma closure_of_schedulable (train : TrainSchedule) (w : world) :
  schedulable w train ->
  closure_of train w = (Ok (window_of train), advance 1 w).
Proof.
  intros (h & m & Hv & Hfit).
  destruct (hhmm_value_spec _ _ _ Hv) as (Hh & Hm & Hs).
  unfold window_of. rewrite Hv. cbn [default fst snd].
  apply closure_of_ok; [|done..].
  rewrite Hs. by apply hhmm_readback.
Qed.

Lemma replace_hm_raise (t : datetime) (h m : Z) :
  ~ (0 <= h <= 23 /\ 0 <= m <= 59) -> exists e, replace_hm t h m = Raise e.
Proof.
  intros Hbad. destruct (replace_hm t h m) as [a|e] eqn:E; [|by eexists].
  apply replace_hm_Ok_inv in E. tauto.
Qed.

Lemma closure_of_unreadable (train : TrainSchedule) (w : world) :
  unreadable (arrival_time train) ->
  exists e w', closure_of train w = (Raise e, w').
Proof.
  unfold unreadable, closure_of, bind, lift.
  destruct (parse_arrival (arrival_time train)) as [[h m]|e]; [|by eauto].
  intros Hbad. rewrite now_run. cbn [fst snd]. unfold closure_instants.
  destruct (replace_hm_raise (clock w (ticks w)) h m Hbad) as [e ->].
  cbn. eauto.
Qed.

Lemma collect_raise {A B} (body : A -> M B) (l : list A) (x : A) (w : world) :
  x ∈ l ->
  (forall w0, exists e w', body x w0 = (Raise e, w')) ->
  exists e w', collect l body w = (Raise e, w').
Proof.
  intros Hx Hbody. revert w.
  induction l as [|a l IH]; intros w; [by apply elem_of_nil in Hx|].
  cbn [collect]. unfold bind at 1.
  destruct (body a w) as [[b|e] w1] eqn:Ea; [|by eauto].
  apply elem_of_cons in Hx as [->|Hx].
  - destruct (Hbody w) as (e & w' & Hr). congruence.
  - destruct (IH Hx w1) as (e & w' & Hr). unfold bind. rewrite Hr. eauto.
Qed.

Lemma collect_closures (trains : list TrainSchedule) (w : world) :
  Forall (schedulable w) trains ->
  collect trains closure_of w
  = (Ok (map window_of trains), advance (length trains) w).
Proof.
  revert w. induction trains as [|train trains IH]; intros w Hall.
  - cbn. unfold ret, advance. by destruct w.
  - apply Forall_cons in Hall as [Ht Hall].
    cbn [collect]. unfold bind at 1. rewrite closure_of_schedulable by done.
    unfold bind at 1. rewrite IH by done. unfold ret.
    rewrite advance_advance. cbn [map length]. do 2 f_equal. lia.
Qed.

Lemma calculate_run (self : TrainDataProcessor) (w : world) :
  Forall (schedulable w) (sample_trains self) ->
  calculate_gate_closure_schedule self w
  = (Ok (sort_by String.ltb closure_start (map window_of (sample_trains self))),
     advance (length (sample_trains self)) w).
Proof.
  intros Hall. unfold calculate_gate_closure_schedule, bind.
  by rewrite collect_closures.
Qed.

Lemma calculate_Ok_inv (self : TrainDataProcessor) (w w' : world) (out : list Closure) :
  calculate_gate_closure_schedule self w = (Ok out, w') ->
  exists cs, out = sort_by String.ltb closure_start cs.
Proof.
  unfold calculate_gate_closure_schedule, bind.
  destruct (collect _ _ w) as [[cs|e] w1]; [|discriminate].
  unfold ret. intros [= <- <-]. by eexists.
Qed.

Lemma collect_prefix (pre : list TrainSchedule) (bad : TrainSchedule)
    (post : list TrainSchedule) (w w' : world) (e : exn) :
  Forall (schedulable w) pre ->
  closure_of bad (advance (length pre) w) = (Raise e, w') ->
  collect (pre ++ bad :: post) closure_of w = (Raise e, w').
Proof.
  revert w. induction pre as [|train pre IH]; intros w Hall Hbad.
  - cbn [app collect length] in *. unfold bind.
    replace (advance 0 w) with w in Hbad by (unfold advance; by destruct w).
    by rewrite Hbad.
  - apply Forall_cons in Hall as [Ht Hall].
    cbn [app collect]. unfold bind at 1. rewrite closure_of_schedulable by done.
    unfold bind at 1. rewrite (IH (advance 1 w)); [done|done|].
    rewrite advance_advance. cbn [length] in Hbad.
    by replace (length pre + 1)%nat with (S (length pre)) by lia.
Qed.

(** A well-formed time whose window leaves the range of [datetime] makes
    the arithmetic raise an [OverflowError]. *)
Lemma closure_instants_out_of_range (t : datetime) (h m d : Z) :
  0 <= h <= 23 -> 0 <= m <= 59 ->
  window_in_range t h m d = false ->
  closure_instants t h m d = Raise OverflowError.
Proof.
  intros Hh Hm Hout. unfold closure_instants.
  rewrite replace_hm_ok by done. cbn [rbind].
  replace (timedelta_minutes 5) with (Ok (A:=timedelta) (5 * US_PER_MINUTE))
    by (vm_compute; reflexivity).
  cbn [rbind]. unfold sub, add, checked.
  unfold window_in_range in Hout.
  replace (midnight t + (60 * h + m) * US_PER_MINUTE - 5 * US_PER_MINUTE)
    with (midnight t + (60 * h + m - 5) * US_PER_MINUTE) by (us_consts; lia).
  destruct (in_range (midnight t + (60 * h + m - 5) * US_PER_MINUTE)); [|done].
  cbn [rbind andb] in *. unfold timedelta_minutes. cbv zeta.
  destruct (_ && _); [|done]. cbn [rbind].
  replace (midnight t + (60 * h + m) * US_PER_MINUTE + d * US_PER_MINUTE)
    with (midnight t + (60 * h + m + d) * US_PER_MINUTE) by (us_consts; lia).
  by rewrite Hout.
Qed.

Lemma closure_of_out_of_range (train : TrainSchedule) (w : world) (h m : Z) :
  hhmm_value (arrival_time train) = Some (h, m) ->
  window_in_range (clock w (ticks w)) h m (gate_closure_duration train) = false ->
  closure_of train w = (Raise OverflowError, advance 1 w).
Proof.
  intros Hv Hout.
  destruct (hhmm_value_spec _ _ _ Hv) as (Hh & Hm & Hs).
  unfold closure_of, bind, lift.
  rewrite Hs, (proj1 (hhmm_readback h m Hh Hm)). rewrite now_run. cbn [fst snd].
  by rewrite closure_instants_out_of_range.
Qed.

(** ** Claims about the closure schedule *)

(** C1, as the code has it.  On a batch in which every arrival_time is a
    well-formed "HH:MM" string and every window lies within the range of
    [datetime] on the day of the clock, the closure schedule calculator
    returns a schedule that holds, for every record, a window whose
    closure_start is the "HH:MM" of the arrival instant minus 5 minutes, whose
    closure_end is the "HH:MM" of the arrival instant plus
    gate_closure_duration minutes, and whose duration_minutes is
    gate_closure_duration + 5.  A record arriving at 14:30 with
    gate_closure_duration = 8 gets 14:25, 14:38 and 13. *)
Theorem closure_window_of_arrival (self : TrainDataProcessor) (w : world) :
  Forall (schedulable w) (sample_trains self) ->
  exists out w',
    calculate_gate_closure_schedule self w = (Ok out, w')
    /\ (forall train h m,
          train ∈ sample_trains self ->
          hhmm_value (arrival_time train) = Some (h, m) ->
          exists c,
            c ∈ out
            /\ c_train_number c = train_number train
            /\ (forall t arrival,
                  replace_hm t h m = Ok arrival ->
                  closure_start c = strftime_HM (arrival - 5 * US_PER_MINUTE)
                  /\ closure_end c
                     = strftime_HM (arrival + gate_closure_duration train * US_PER_MINUTE))
            /\ duration_minutes c = gate_closure_duration train + 5)
    /\ (forall train,
          train ∈ sample_trains self ->
          arrival_time train = "14:30" -> gate_closure_duration train = 8 ->
          exists c,
            c ∈ out /\ c_train_number c = train_number train
            /\ closure_start c = "14:25" /\ closure_end c = "14:38"
            /\ duration_minutes c = 13).
Proof.
  intros Hall. eexists _, _. split; [by apply calculate_run|].
  assert (forall train, train ∈ sample_trains self ->
            window_of train
            ∈ sort_by String.ltb closure_start (map window_of (sample_trains self)))
    as Hin.
  { intros train Ht. rewrite sort_by_perm. apply list_elem_of_fmap. eauto. }
  split.
  - intros train h m Ht Hv. exists (window_of train).
    split; [by apply Hin|].
    unfold window_of. rewrite Hv. cbv [default from_option id fst snd].
    cbn [closure_window c_train_number closure_start closure_end duration_minutes].
    split; [done|]. split; [|done].
    intros t arrival Harr. apply replace_hm_Ok_inv in Harr as (_ & _ & ->).
    split; rewrite <- strftime_offset with (t := t); f_equal; us_consts; lia.
  - intros train Ht Harr Hd. exists (window_of train).
    split; [by apply Hin|].
    unfold window_of, closure_window. rewrite Harr, Hd. by vm_compute.
Qed.

(** C1 as stated fails: a record with a well-formed arrival time gets no
    window when its closure would end beyond the last day of [datetime] (the
    calculator raises an OverflowError), nor when another record of the batch
    cannot be read. *)
Lemma window_not_produced_counterexample :
  hhmm_value (arrival_time HUG_00000) = Some (14, 30)
  /\ (calculate_gate_closure_schedule (Sample.processor_of [HUG_00000])
        (Sample.frozen (Sample.at_time 12 0 0) (1 # 2))).1
     = Raise OverflowError
  /\ hhmm_value (arrival_time Sample.EXP_12345) = Some (14, 30)
  /\ gate_closure_duration Sample.EXP_12345 = 8
  /\ (calculate_gate_closure_schedule
        (Sample.processor_of [Sample.BAD_00000; Sample.EXP_12345])
        (Sample.frozen (Sample.at_time 12 0 0) (1 # 2))).1
     = Raise ValueError.
Proof. repeat split; vm_compute; reflexivity. Qed.

(** C6. The closure schedule is sorted in non-decreasing lexicographic order
    of the closure_start strings: whenever the calculator returns, and it
    does return on records with well-formed arrival times. *)
Theorem closure_schedule_sorted (self : TrainDataProcessor) (w : world) :
  (forall out w',
     calculate_gate_closure_schedule self w = (Ok out, w') ->
     StronglySorted (fun a b => String.le (closure_start a) (closure_start b)) out)
  /\ (Forall (schedulable w) (sample_trains self) ->
      exists out w', calculate_gate_closure_schedule self w = (Ok out, w')).
Proof.
  split.
  - intros out w' Hrun. apply calculate_Ok_inv in Hrun as [cs ->].
    apply (sort_by_sorted String.ltb String.le closure_start);
      eauto using string_ltb_le, string_nltb_le, string_le_trans.
  - intros Hall. eexists _, _. by apply calculate_run.
Qed.

(** C7, as the code has it.  For a record with a well-formed arrival time
    and a positive gate_closure_duration, the instants of the window satisfy
    closure_end > closure_start = arrival - 5 minutes (equality, not a strict
    inequality, on the right), the window holds their "HH:MM" renderings, and
    duration_minutes = gate_closure_duration + 5. *)
Theorem closure_window_chain (train : TrainSchedule) (w : world) (h m : Z) :
  hhmm_value (arrival_time train) = Some (h, m) ->
  window_in_range (clock w (ticks w)) h m (gate_closure_duration train) = true ->
  0 < gate_closure_duration train ->
  exists arrival c_start c_end c w',
    closure_instants (clock w (ticks w)) h m (gate_closure_duration train)
    = Ok (arrival, c_start, c_end)
    /\ closure_of train w = (Ok c, w')
    /\ closure_start c = strftime_HM c_start
    /\ closure_end c = strftime_HM c_end
    /\ c_end > c_start
    /\ c_start = arrival - 5 * US_PER_MINUTE
    /\ duration_minutes c = gate_closure_duration train + 5.
Proof.
  intros Hv Hfit Hd.
  destruct (hhmm_value_spec _ _ _ Hv) as (Hh & Hm & Hs).
  eexists _, _, _, _, _.
  split; [by apply closure_instants_ok|].
  split.
  { apply closure_of_ok; [|done..]. rewrite Hs. by apply hhmm_readback. }
  cbn [closure_window closure_start closure_end duration_minutes].
  split; [rewrite <- strftime_offset with (t := clock w (ticks w)); f_equal; lia|].
  split; [rewrite <- strftime_offset with (t := clock w (ticks w)); f_equal; lia|].
  split; [us_consts; lia|done].
Qed.

(** C8, as the code has it.  An arrival time that cannot be read makes the
    calculator raise: the whole batch is aborted and no window is returned.
    A well-formed record whose window leaves the range of [datetime], at the
    clock reading taken for it, aborts the batch in the same way, with an
    OverflowError.  On a batch in which every arrival time is well-formed and
    every window lies within the range of [datetime] there is no failure,
    and the schedule has one window per record. *)
Theorem closure_schedule_failure (self : TrainDataProcessor) (w : world) :
  ((exists train, train ∈ sample_trains self /\ unreadable (arrival_time train)) ->
   exists e w', calculate_gate_closure_schedule self w = (Raise e, w'))
  /\ (forall pre train post h m,
        sample_trains self = pre ++ train :: post ->
        Forall (fun train =>
                  exists h m,
                    hhmm_value (arrival_time train) = Some (h, m)
                    /\ forall n, window_in_range (clock w n) h m
                                   (gate_closure_duration train) = true) pre ->
        hhmm_value (arrival_time train) = Some (h, m) ->
        window_in_range (clock w (length pre + ticks w)) h m
                        (gate_closure_duration train) = false ->
        exists w', calculate_gate_closure_schedule self w = (Raise OverflowError, w'))
  /\ (Forall (fun train =>
                exists h m,
                  hhmm_value (arrival_time train) = Some (h, m)
                  /\ forall n, window_in_range (clock w n) h m
                                 (gate_closure_duration train) = true)
             (sample_trains self) ->
      exists out w',
        calculate_gate_closure_schedule self w = (Ok out, w')
        /\ length out = length (sample_trains self)).
Proof.
  split; [|split].
  - intros (train & Ht & Hbad).
    destruct (collect_raise closure_of (sample_trains self) train w Ht)
      as (e & w' & Hr).
    { intros w0. by apply closure_of_unreadable. }
    exists e, w'. unfold calculate_gate_closure_schedule, bind. by rewrite Hr.
  - intros pre train post h m Htrains Hpre Hv Hout.
    eexists. unfold calculate_gate_closure_schedule, bind. rewrite Htrains.
    erewrite collect_prefix; [done|exact Hpre|].
    by apply (closure_of_out_of_range train (advance (length pre) w) h m).
  - intros Hall. eexists _, _. split; [by apply calculate_run|].
    rewrite (sort_by_perm String.ltb closure_start). by rewrite length_map.
Qed.

Lemma closure_window_of_arrival_witness :
  exists out w',
    calculate_gate_closure_schedule Sample.processor
      (Sample.frozen (Sample.at_time 12 0 0) (1 # 2)) = (Ok out, w')
    /\ exists c, c ∈ out /\ c_train_number c = "EXP-12345"
         /\ closure_start c = "14:25" /\ closure_end c = "14:38"
         /\ duration_minutes c = 13.
Proof.
  destruct (closure_window_of_arrival Sample.processor
              (Sample.frozen (Sample.at_time 12 0 0) (1 # 2)))
    as (out & w' & Hrun & _ & Hex).
  { sample_schedulable. }
  exists out, w'. split; [exact Hrun|].
  destruct (Hex Sample.EXP_12345) as (c & Hc); [constructor|reflexivity|reflexivity|].
  exists c. exact Hc.
Defined.

Lemma closure_schedule_sorted_witness :
  exists out w',
    calculate_gate_closure_schedule Sample.processor
      (Sample.frozen (Sample.at_time 12 0 0) (1 # 2)) = (Ok out, w')
    /\ StronglySorted (fun a b => String.le (closure_start a) (closure_start b)) out.
Proof.
  destruct (closure_schedule_sorted Sample.processor
              (Sample.frozen (Sample.at_time 12 0 0) (1 # 2))) as [Hsorted Hruns].
  destruct Hruns as (out & w' & Hrun); [sample_schedulable|].
  exists out, w'. split; [exact Hrun|]. exact (Hsorted out w' Hrun).
Defined.

(** C7 as stated fails: closure_start is not strictly after arrival - 5
    minutes, it is that instant. *)
Lemma closure_chain_strict_counterexample :
  hhmm_value (arrival_time Sample.EXP_12345) = Some (14, 30)
  /\ exists arrival c_start c_end,
       closure_instants (Sample.at_time 12 0 0) 14 30
         (gate_closure_duration Sample.EXP_12345) = Ok (arrival, c_start, c_end)
       /\ ~ (c_end > c_start /\ c_start > arrival - 5 * US_PER_MINUTE).
Proof.
  split; [reflexivity|].
  eexists _, _, _. split; [vm_compute; reflexivity|].
  vm_compute. intros [_ H]. discriminate H.
Qed.

Lemma closure_window_chain_witness :
  exists arrival c_start c_end c w',
    closure_instants (Sample.at_time 12 0 0) 14 30 8 = Ok (arrival, c_start, c_end)
    /\ closure_of Sample.EXP_12345 (Sample.frozen (Sample.at_time 12 0 0) (1 # 2))
       = (Ok c, w')
    /\ closure_start c = strftime_HM c_start
    /\ closure_end c = strftime_HM c_end
    /\ c_end > c_start
    /\ c_start = arrival - 5 * US_PER_MINUTE
    /\ duration_minutes c = 13.
Proof.
  apply (closure_window_chain Sample.EXP_12345
           (Sample.frozen (Sample.at_time 12 0 0) (1 # 2)) 14 30).
  - reflexivity.
  - vm_compute; reflexivity.
  - vm_compute; reflexivity.
Defined.

(** C8 as stated fails: one arrival time that cannot be read aborts the
    batch, and the window of the well-formed record is not produced. *)
Lemma batch_abort_counterexample :
  well_formed (arrival_time Sample.EXP_12345)
  /\ ~ well_formed (arrival_time Sample.BAD_00000)
  /\ ~ exists out w',
         calculate_gate_closure_schedule
           (Sample.processor_of [Sample.EXP_12345; Sample.BAD_00000])
           (Sample.frozen (Sample.at_time 12 0 0) (1 # 2)) = (Ok out, w')
         /\ exists c, c ∈ out /\ c_train_number c = "EXP-12345".
Proof.
  split; [by eexists|]. split.
  - intros [x Hx]. vm_compute in Hx. discriminate Hx.
  - intros (out & w' & Hrun & _). vm_compute in Hrun. discriminate Hrun.
Qed.

(** A string that is not a well-formed "HH:MM" can still be read: [int]
    accepts a single digit. *)
Example lenient_arrival_accepted :
  ~ well_formed (arrival_time Sample.LAX_00000)
  /\ (calculate_gate_closure_schedule (Sample.processor_of [Sample.LAX_00000])
        (Sample.frozen (Sample.at_time 12 0 0) (1 # 2))).1
     = Ok [{| c_train_number := "LAX-00000"; closure_start := "07:00";
              closure_end := "07:13"; duration_minutes := 13;
              c_priority := "normal"; c_platform := "2" |}].
Proof.
  split; [|vm_compute; reflexivity].
  intros [x Hx]. vm_compute in Hx. discriminate Hx.
Qed.

Lemma closure_schedule_failure_witness :
  (exists e w',
     calculate_gate_closure_schedule
       (Sample.processor_of [Sample.EXP_12345; Sample.BAD_00000])
       (Sample.frozen (Sample.at_time 12 0 0) (1 # 2)) = (Raise e, w'))
  /\ (exists w',
        calculate_gate_closure_schedule
          (Sample.processor_of [Sample.EXP_12345; HUG_00000; Sample.LOC_67890])
          (Sample.frozen (Sample.at_time 12 0 0) (1 # 2)) = (Raise OverflowError, w'))
  /\ (exists out w',
        calculate_gate_closure_schedule Sample.processor
          (Sample.frozen (Sample.at_time 12 0 0) (1 # 2)) = (Ok out, w')
        /\ length out = 5%nat).
Proof.
  split; [|split].
  - apply (closure_schedule_failure
             (Sample.processor_of [Sample.EXP_12345; Sample.BAD_00000])).
    exists Sample.BAD_00000. split; [do 2 constructor|exact I].
  - apply (proj1 (proj2 (closure_schedule_failure
             (Sample.processor_of [Sample.EXP_12345; HUG_00000; Sample.LOC_67890])
             (Sample.frozen (Sample.at_time 12 0 0) (1 # 2))))
             [Sample.EXP_12345] HUG_00000 [Sample.LOC_67890] 14 30).
    + reflexivity.
    + sample_schedulable.
    + reflexivity.
    + vm_compute; reflexivity.
  - apply (closure_schedule_failure Sample.processor). sample_schedulable.
Defined.

(** ** Wait recommendation and traffic intensity *)

Lemma analyze_run (w : world) :
  analyze_traffic_patterns w
  = (Ok {| time := strftime_HM (clock w (2 + ticks w));
           traffic_intensity := _get_traffic_intensity (hour (clock w (ticks w)));
           next_hour_traffic := _get_traffic_intensity (hour (clock w (ticks w)) + 1);
           recommended_travel_window :=
             _get_recommended_window (hour (clock w (ticks w))) |},
     advance 3 w).
Proof. reflexivity. Qed.

(** C4. The recommended action is a function of (minutes_until_closure,
    duration_minutes) given by a first-match chain: at most 2 minutes is STOP;
    otherwise at most 5 minutes is CAUTION; otherwise a duration above 10 is
    PLAN; otherwise PROCEED.  So (2,20) is STOP, (4,20) is CAUTION, (8,15) is
    PLAN and (8,5) is PROCEED. *)
Theorem wait_recommendation_chain (minutes_until duration : Z) :
  (minutes_until <= 2 ->
   _get_wait_recommendation minutes_until duration = "STOP - Gate closing very soon")
  /\ (2 < minutes_until <= 5 ->
      _get_wait_recommendation minutes_until duration
      = "CAUTION - Consider alternative route")
  /\ (5 < minutes_until -> 10 < duration ->
      _get_wait_recommendation minutes_until duration
      = "PLAN - Long closure expected, use alternative route")
  /\ (5 < minutes_until -> duration <= 10 ->
      _get_wait_recommendation minutes_until duration
      = "PROCEED - Sufficient time to cross")
  /\ _get_wait_recommendation 2 20 = "STOP - Gate closing very soon"
  /\ _get_wait_recommendation 4 20 = "CAUTION - Consider alternative route"
  /\ _get_wait_recommendation 8 15
     = "PLAN - Long closure expected, use alternative route"
  /\ _get_wait_recommendation 8 5 = "PROCEED - Sufficient time to cross".
Proof.
  unfold _get_wait_recommendation.
  repeat split; try reflexivity; intros;
    repeat match goal with
           | |- context [?a <=? ?b] => destruct (Z.leb_spec a b); try lia
           | |- context [?a >? ?b] => destruct (Z.gtb_spec a b); try lia
           end; reflexivity.
Qed.

Lemma wait_recommendation_chain_witness :
  _get_wait_recommendation 1 3 = "STOP - Gate closing very soon"
  /\ _get_wait_recommendation 5 30 = "CAUTION - Consider alternative route"
  /\ _get_wait_recommendation 6 11
     = "PLAN - Long closure expected, use alternative route"
  /\ _get_wait_recommendation 6 10 = "PROCEED - Sufficient time to cross".
Proof.
  split; [apply (wait_recommendation_chain 1 3); lia|].
  split; [apply (wait_recommendation_chain 5 30); lia|].
  split; [apply (wait_recommendation_chain 6 11); lia|].
  apply (wait_recommendation_chain 6 10); lia.
Defined.

(** C9. Traffic intensity is defined for every integer hour: "high" for 7..9
    and 17..19; otherwise "medium" for 10..16 and 20..21 (hour 19 is "high",
    the first test wins); "low" for every other hour, hour 24 included, which
    is what the summarizer asks for as the next hour when the clock shows 23.
    Hour 8 is "high", hour 12 is "medium", hour 2 is "low". *)
Theorem traffic_intensity_bands (hour : Z) :
  (7 <= hour <= 9 \/ 17 <= hour <= 19 -> _get_traffic_intensity hour = "high")
  /\ (10 <= hour <= 16 \/ 19 <= hour <= 21 ->
      ~ (7 <= hour <= 9 \/ 17 <= hour <= 19) ->
      _get_traffic_intensity hour = "medium")
  /\ (~ (7 <= hour <= 9 \/ 17 <= hour <= 19) ->
      ~ (10 <= hour <= 16 \/ 19 <= hour <= 21) ->
      _get_traffic_intensity hour = "low")
  /\ _get_traffic_intensity 19 = "high"
  /\ _get_traffic_intensity 24 = "low"
  /\ (forall w, DateTime.hour (clock w (ticks w)) = 23 ->
        exists a w', analyze_traffic_patterns w = (Ok a, w')
                     /\ next_hour_traffic a = _get_traffic_intensity 24)
  /\ _get_traffic_intensity 8 = "high"
  /\ _get_traffic_intensity 12 = "medium"
  /\ _get_traffic_intensity 2 = "low".
Proof.
  assert (forall w, DateTime.hour (clock w (ticks w)) = 23 ->
            exists a w', analyze_traffic_patterns w = (Ok a, w')
                         /\ next_hour_traffic a = _get_traffic_intensity 24) as Hnext.
  { intros w Hw. eexists _, _. split; [apply analyze_run|].
    cbn [next_hour_traffic]. by rewrite Hw. }
  unfold _get_traffic_intensity in *.
  repeat split; try reflexivity; try exact Hnext; intros;
    repeat match goal with
           | |- context [?a <=? ?b] => destruct (Z.leb_spec a b); try lia
           end; reflexivity.
Qed.

Lemma traffic_intensity_bands_witness :
  _get_traffic_intensity 18 = "high"
  /\ _get_traffic_intensity 21 = "medium"
  /\ _get_traffic_intensity 23 = "low"
  /\ exists a w',
       analyze_traffic_patterns (Sample.frozen (Sample.at_time 23 10 0) (1 # 2))
       = (Ok a, w')
       /\ next_hour_traffic a = "low".
Proof.
  split; [apply (traffic_intensity_bands 18); lia|].
  split; [apply (traffic_intensity_bands 21); lia|].
  split; [apply (traffic_intensity_bands 23); lia|].
  destruct (traffic_intensity_bands 0) as (_ & _ & _ & _ & _ & Hnext & _).
  destruct (Hnext (Sample.frozen (Sample.at_time 23 10 0) (1 # 2)))
    as (a & w' & Hrun & Ha); [vm_compute; reflexivity|].
  exists a, w'. split; [exact Hrun|]. rewrite Ha. reflexivity.
Defined.

(** ** Alerts *)

Lemma map_result_Forall2 {A B} (f : A -> result B) (l : list A) (ys : list B) :
  map_result f l = Ok ys -> Forall2 (fun x y => f x = Ok y) l ys.
Proof.
  revert ys. induction l as [|x l IH]; intros ys; cbn [map_result].
  - intros [= <-]. constructor.
  - destruct (f x) as [y|] eqn:Hx; [|discriminate]. cbn [rbind].
    destruct (map_result f l) as [ys'|]; [|discriminate]. cbn [rbind].
    intros [= <-]. constructor; [done|by apply IH].
Qed.

Lemma map_result_total {A B} (f : A -> result B) (l : list A) :
  Forall (fun x => exists y, f x = Ok y) l -> exists ys, map_result f l = Ok ys.
Proof.
  induction 1 as [|x l [y Hy] _ [ys IH]]; cbn [map_result]; [by eexists|].
  rewrite Hy, IH. cbn [rbind]. by eexists.
Qed.

(** The loop appends the items of the selected elements, and stops at the
    first item that cannot be built. *)
Lemma append_when_spec {A} (cond : A -> bool) (mk : A -> result Alert)
    (l : list A) (alerts : list Alert) :
  append_when cond mk l alerts
  = let? news := map_result mk (List.filter cond l) in Ok (alerts ++ news).
Proof.
  unfold append_when. revert alerts.
  induction l as [|x l IH]; intros alerts; cbn [fold_result List.filter map_result rbind].
  - by rewrite app_nil_r.
  - destruct (cond x); cbn [map_result rbind]; [|by rewrite IH].
    destruct (mk x) as [a|e]; cbn [rbind]; [|done].
    rewrite IH. destruct (map_result mk _); cbn [rbind]; [|done].
    by rewrite <- app_assoc.
Qed.

Lemma filter_uniform {A} (p : A -> bool) (b : bool) (l : list A) :
  Forall (fun a => p a = b) l -> List.filter p l = if b then l else [].
Proof.
  induction 1 as [|a l Ha _ IH]; cbn [List.filter]; [by destruct b|].
  rewrite Ha, IH. by destruct b.
Qed.

Lemma of_int_renders (n : Z) :
  Z.abs n < PyStr.int_max_str -> PyStr.of_int n = Ok (pretty n).
Proof. intros Hn. unfold PyStr.of_int. by rewrite (proj2 (Z.ltb_lt _ _) Hn). Qed.

Lemma int_max_str_large : 10 ^ 13 <= PyStr.int_max_str.
Proof.
  unfold PyStr.int_max_str. apply Z.pow_le_mono_r; [lia|].
  apply (bool_decide_unpack _). vm_compute. exact I.
Qed.

Lemma delay_alert_fields (current_time : datetime) (train : TrainSchedule) (a : Alert) :
  delay_alert current_time train = Ok a ->
  a_type a = "delay_alert" /\ a_priority a = "high"
  /\ a_train_number a = Some (train_number train)
  /\ timestamp a = current_time
  /\ message a = "Train " +:+ train_number train +:+ " delayed by "
                 +:+ pretty (delay_minutes train) +:+ " minutes".
Proof.
  unfold delay_alert, PyStr.of_int. destruct (_ <? _); [|discriminate].
  cbn [rbind]. by intros [= <-].
Qed.

Lemma long_closure_alert_fields (current_time : datetime) (closure : Closure)
    (a : Alert) :
  long_closure_alert current_time closure = Ok a ->
  a_type a = "long_closure_alert" /\ a_priority a = "medium"
  /\ a_closure_start a = Some (closure_start closure)
  /\ timestamp a = current_time
  /\ message a = "Extended gate closure expected: "
                 +:+ pretty (duration_minutes closure) +:+ " minutes for "
                 +:+ c_train_number closure.
Proof.
  unfold long_closure_alert, PyStr.of_int. destruct (_ <? _); [|discriminate].
  cbn [rbind]. by intros [= <-].
Qed.

(** The duration of a window that fits the range of [datetime] is far below
    the limit of [str]. *)
Lemma window_in_range_renders (t : datetime) (h m d : Z) :
  0 <= h <= 23 -> 0 <= m <= 59 ->
  window_in_range t h m d = true ->
  Z.abs (d + 5) < PyStr.int_max_str.
Proof.
  intros Hh Hm Hfit. pose proof int_max_str_large as Hlarge.
  unfold window_in_range, in_range in Hfit.
  repeat (apply andb_true_iff in Hfit as [Hfit ?]).
  repeat match goal with
         | H : (_ <=? _) = true |- _ => apply Z.leb_le in H
         | H : (_ <? _) = true |- _ => apply Z.ltb_lt in H
         end.
  us_consts.
  change (10 ^ 13) with 10000000000000 in Hlarge. lia.
Qed.

Lemma schedulable_renders (w : world) (train : TrainSchedule) :
  schedulable w train ->
  exists a, forall current_time,
    long_closure_alert current_time (window_of train) = Ok (a current_time).
Proof.
  intros (h & m & Hv & Hfit).
  destruct (hhmm_value_spec _ _ _ Hv) as (Hh & Hm & _).
  pose proof (window_in_range_renders _ h m _ Hh Hm (Hfit 0%nat)) as Hr.
  eexists (fun current_time => _). intros current_time.
  unfold long_closure_alert, window_of. rewrite Hv.
  cbv [default from_option id fst snd].
  cbn [closure_window duration_minutes].
  rewrite of_int_renders by done. cbn [rbind]. reflexivity.
Qed.

(** Every run of [generate_alerts] that returns: the schedule it computed
    and the alerts it built. *)
Lemma generate_alerts_Ok_inv (self : TrainDataProcessor) (w w' : world)
    (alerts : list Alert) :
  generate_alerts self w = (Ok alerts, w') ->
  exists schedule w1 analysis delays longs,
    let current_time := clock w (ticks w) in
    calculate_gate_closure_schedule self (advance 1 w) = (Ok schedule, w1)
    /\ analyze_traffic_patterns w1 = (Ok analysis, w')
    /\ map_result (delay_alert current_time)
                  (List.filter is_delayed (sample_trains self)) = Ok delays
    /\ map_result (long_closure_alert current_time)
                  (List.filter is_long schedule) = Ok longs
    /\ alerts = delays ++ longs
                ++ (if String.eqb (traffic_intensity analysis) "high"
                    then [traffic_alert current_time] else []).
Proof.
  unfold generate_alerts, bind. rewrite now_run. unfold lift.
  rewrite append_when_spec. fold is_delayed.
  change (fun train => String.eqb (status train) "delayed" && (delay_minutes train >? 10))
    with is_delayed.
  destruct (map_result _ (List.filter is_delayed _)) as [delays|] eqn:Hd;
    cbn [rbind]; [|discriminate].
  destruct (calculate_gate_closure_schedule self _) as [[schedule|] w1] eqn:Hs;
    [|discriminate].
  rewrite append_when_spec.
  change (fun closure => duration_minutes closure >? 10) with is_long.
  destruct (map_result _ (List.filter is_long _)) as [longs|] eqn:Hl;
    cbn [rbind]; [|discriminate].
  rewrite analyze_run. unfold ret. cbn [traffic_intensity].
  intros [= <- <-].
  eexists schedule, w1, _, delays, longs. cbv zeta.
  split; [done|]. split; [apply analyze_run|]. split; [done|]. split; [done|].
  cbn [traffic_intensity app].
  destruct (String.eqb _ "high"); by rewrite <- ?app_assoc, ?app_nil_r.
Qed.

(** A run of [generate_alerts] whose delay messages and closure messages
    can be built. *)
Lemma generate_alerts_run (self : TrainDataProcessor) (w w1 w' : world)
    (schedule : list Closure) (analysis : TrafficAnalysis) (delays longs : list Alert) :
  let current_time := clock w (ticks w) in
  map_result (delay_alert current_time)
             (List.filter is_delayed (sample_trains self)) = Ok delays ->
  calculate_gate_closure_schedule self (advance 1 w) = (Ok schedule, w1) ->
  map_result (long_closure_alert current_time) (List.filter is_long schedule)
  = Ok longs ->
  analyze_traffic_patterns w1 = (Ok analysis, w') ->
  generate_alerts self w
  = (Ok (delays ++ longs
         ++ (if String.eqb (traffic_intensity analysis) "high"
             then [traffic_alert current_time] else [])), w').
Proof.
  intros current_time Hd Hs Hl Ha.
  unfold generate_alerts, bind. rewrite now_run. unfold lift.
  rewrite append_when_spec.
  change (fun train => String.eqb (status train) "delayed" && (delay_minutes train >? 10))
    with is_delayed.
  fold current_time. rewrite Hd. cbn [rbind]. rewrite Hs.
  rewrite append_when_spec.
  change (fun closure => duration_minutes closure >? 10) with is_long.
  rewrite Hl. cbn [rbind]. rewrite Ha. unfold ret. cbn [app].
  destruct (String.eqb _ "high"); by rewrite <- ?app_assoc, ?app_nil_r.
Qed.

Lemma map_result_fields {A} (f : A -> result Alert) (P : Alert -> Prop)
    (l : list A) (ys : list Alert) :
  (forall x a, f x = Ok a -> P a) ->
  map_result f l = Ok ys -> Forall P ys.
Proof.
  intros Hf Hrun. apply map_result_Forall2 in Hrun.
  induction Hrun; constructor; eauto.
Qed.

(** In a list of alerts built as [generate_alerts] builds it, the alerts of
    type delay_alert are those of the first part, and the alerts of type
    long_closure_alert those of the second. *)
Lemma alerts_by_type (current_time : datetime) (trains : list TrainSchedule)
    (schedule : list Closure) (delays longs : list Alert) (traffic : bool) :
  map_result (delay_alert current_time) trains = Ok delays ->
  map_result (long_closure_alert current_time) schedule = Ok longs ->
  let alerts := delays ++ longs
                ++ (if traffic then [traffic_alert current_time] else []) in
  List.filter (fun a => String.eqb (a_type a) "delay_alert") alerts = delays
  /\ List.filter (fun a => String.eqb (a_type a) "long_closure_alert") alerts = longs
  /\ List.filter (fun a => String.eqb (a_type a) "traffic_alert") alerts
     = if traffic then [traffic_alert current_time] else [].
Proof.
  intros Hd Hl alerts. subst alerts.
  assert (Forall (fun a => a_type a = "delay_alert") delays) as Hdt.
  { eapply map_result_fields; [|exact Hd]. intros x a Hx.
    by apply delay_alert_fields in Hx as (-> & _). }
  assert (Forall (fun a => a_type a = "long_closure_alert") longs) as Hlt.
  { eapply map_result_fields; [|exact Hl]. intros x a Hx.
    by apply long_closure_alert_fields in Hx as (-> & _). }
  rewrite !List.filter_app.
  rewrite (filter_uniform _ true delays), (filter_uniform _ false delays),
    (filter_uniform (fun a => String.eqb (a_type a) "traffic_alert") false delays),
    (filter_uniform _ false longs), (filter_uniform _ true longs),
    (filter_uniform (fun a => String.eqb (a_type a) "traffic_alert") false longs);
    try (eapply Forall_impl; [eassumption|]; by intros a ->).
  destruct traffic; cbn; by rewrite ?app_nil_r.
Qed.

(** C10, as the code has it.  On a batch in which every arrival time is
    well-formed, every window lies within the range of [datetime] and the
    delay of every delayed train has no more digits than [str] converts (it
    is below 10^4300), the alert list is, in this order: one delay_alert of
    priority "high" per train with status "delayed" and delay_minutes > 10,
    in input order; one long_closure_alert of priority "medium" per window of
    the closure schedule with duration_minutes > 10, in schedule order; one
    traffic_alert of priority "medium" exactly when the current traffic
    intensity is "high"; nothing else.  The delay alerts of the list are
    those of the delayed trains, each with its train_number: a single train
    delayed by 15 minutes gives exactly one. *)
Theorem alerts_in_order (self : TrainDataProcessor) (w : world) :
  Forall (schedulable w) (sample_trains self) ->
  Forall (fun train => is_delayed train = true ->
                       delay_minutes train < PyStr.int_max_str)
         (sample_trains self) ->
  exists schedule w1 analysis delays longs alerts w',
    let current_time := clock w (ticks w) in
    calculate_gate_closure_schedule self (advance 1 w) = (Ok schedule, w1)
    /\ analyze_traffic_patterns w1 = (Ok analysis, w')
    /\ generate_alerts self w = (Ok alerts, w')
    /\ Forall2 (fun train a => delay_alert current_time train = Ok a)
               (List.filter is_delayed (sample_trains self)) delays
    /\ Forall2 (fun closure a => long_closure_alert current_time closure = Ok a)
               (List.filter is_long schedule) longs
    /\ alerts
       = delays ++ longs
         ++ (if String.eqb (traffic_intensity analysis) "high"
             then [traffic_alert current_time] else [])
    /\ (forall train a,
          delay_alert current_time train = Ok a ->
          a_type a = "delay_alert" /\ a_priority a = "high"
          /\ a_train_number a = Some (train_number train))
    /\ (forall closure a,
          long_closure_alert current_time closure = Ok a ->
          a_type a = "long_closure_alert" /\ a_priority a = "medium")
    /\ (a_type (traffic_alert current_time) = "traffic_alert"
        /\ a_priority (traffic_alert current_time) = "medium")
    /\ List.filter (fun a => String.eqb (a_type a) "delay_alert") alerts = delays
    /\ length delays = length (List.filter is_delayed (sample_trains self)).
Proof.
  intros Hall Hdelays.
  set (current_time := clock w (ticks w)).
  destruct (map_result_total (delay_alert current_time)
              (List.filter is_delayed (sample_trains self))) as [delays Hd].
  { apply Forall_forall. intros train Ht.
    apply list_elem_of_In, filter_In in Ht as [Ht Hcond].
    apply list_elem_of_In in Ht.
    rewrite Forall_forall in Hdelays. specialize (Hdelays train Ht Hcond).
    unfold delay_alert. rewrite of_int_renders; [by eexists|].
    unfold is_delayed in Hcond. apply andb_true_iff in Hcond as [_ Hpos%Z.gtb_gt].
    lia. }
  pose proof (calculate_run self (advance 1 w) Hall) as Hs.
  set (schedule := sort_by String.ltb closure_start (map window_of (sample_trains self)))
    in Hs.
  destruct (map_result_total (long_closure_alert current_time)
              (List.filter is_long schedule)) as [longs Hl].
  { apply Forall_forall. intros c Hc.
    apply list_elem_of_In, filter_In in Hc as [Hc _]. apply list_elem_of_In in Hc.
    subst schedule. rewrite (sort_by_perm String.ltb closure_start) in Hc.
    apply list_elem_of_fmap in Hc as (train & -> & Ht).
    rewrite Forall_forall in Hall.
    destruct (schedulable_renders w train (Hall train Ht)) as [a Ha].
    by eexists. }
  pose proof (generate_alerts_run self w _ _ schedule _ delays longs
                Hd Hs Hl (analyze_run _)) as Hrun.
  eexists schedule, _, _, delays, longs, _, _. intros current_time'.
  subst current_time'.
  split; [exact Hs|]. split; [apply analyze_run|]. split; [exact Hrun|].
  split; [by apply map_result_Forall2|]. split; [by apply map_result_Forall2|].
  split; [done|].
  split. { intros train a Ha. apply delay_alert_fields in Ha. tauto. }
  split. { intros closure a Ha. apply long_closure_alert_fields in Ha. tauto. }
  split; [done|].
  split.
  - apply (alerts_by_type current_time _ _ delays longs _ Hd Hl).
  - apply map_result_Forall2 in Hd. symmetry. by eapply Forall2_length.
Qed.

(** C10 as stated fails: a train delayed by 15 minutes whose arrival time
    cannot be read gets no delay_alert, because the closure schedule that
    [generate_alerts] computes next raises and no alert list is returned; and
    a delayed train with a well-formed arrival time gets none when its delay
    has more digits than [str] converts, because building the message
    raises. *)
Lemma delayed_train_without_alert_counterexample :
  status LATE_00000 = "delayed" /\ delay_minutes LATE_00000 = 15
  /\ (generate_alerts (Sample.processor_of [LATE_00000])
        (Sample.frozen (Sample.at_time 12 0 0) (1 # 2))).1
     = Raise ValueError
  /\ is_delayed AGES_00000 = true
  /\ hhmm_value (arrival_time AGES_00000) = Some (14, 45)
  /\ (generate_alerts (Sample.processor_of [AGES_00000])
        (Sample.frozen (Sample.at_time 12 0 0) (1 # 2))).1
     = Raise ValueError.
Proof.
  repeat match goal with |- _ /\ _ => split end; vm_compute; reflexivity.
Qed.

Lemma alerts_in_order_witness :
  exists alerts a w',
    generate_alerts (Sample.processor_of [Sample.LOC_67890])
      (Sample.frozen (Sample.at_time 12 0 0) (1 # 2)) = (Ok alerts, w')
    /\ List.filter (fun a => String.eqb (a_type a) "delay_alert") alerts = [a]
    /\ a_priority a = "high"
    /\ a_train_number a = Some "LOC-67890".
Proof.
  destruct (alerts_in_order (Sample.processor_of [Sample.LOC_67890])
              (Sample.frozen (Sample.at_time 12 0 0) (1 # 2)))
    as (schedule & w1 & analysis & delays & longs & alerts & w'
        & _ & _ & Hrun & Hd & _ & _ & Hfields & _ & _ & Hf & _).
  { sample_schedulable. }
  { constructor; [|constructor]. intros _. vm_compute. reflexivity. }
  cbv zeta in Hd, Hfields, Hf.
  change (List.filter is_delayed (sample_trains (Sample.processor_of [Sample.LOC_67890])))
    with [Sample.LOC_67890] in Hd.
  apply Forall2_cons_inv_l in Hd as (a & delays' & Ha & Hrest & ->).
  apply Forall2_nil_inv_l in Hrest as ->.
  exists alerts, a, w'. split; [exact Hrun|]. split; [exact Hf|].
  destruct (Hfields _ _ Ha) as (_ & Hp & Hn). split; [exact Hp|exact Hn].
Defined.

(** ** Wait-time predictions *)

Lemma minutes_of_delta (d : timedelta) :
  PyFloat.to_int (total_seconds d / 60)%Q = d ÷ (60 * US_PER_SECOND).
Proof.
  unfold PyFloat.to_int, total_seconds. us_consts. cbn. by rewrite Z.mul_1_r.
Qed.

Lemma predict_one_run (current_time start : datetime)
    (d : gmap string WaitPrediction) (closure : Closure) :
  closure_start_instant current_time closure = Ok start ->
  predict_one current_time d closure
  = Ok (if start >? current_time
        then <[c_train_number closure := prediction_for current_time start closure]> d
        else d).
Proof.
  intros Hs. unfold predict_one. rewrite Hs. cbn [rbind].
  destruct (start >? current_time); [|done].
  unfold prediction_for, diff. by rewrite minutes_of_delta.
Qed.

Lemma fold_predict (current_time : datetime) (cs : list Closure)
    (d0 : gmap string WaitPrediction) :
  NoDup (map c_train_number cs) ->
  Forall (fun c => exists s, closure_start_instant current_time c = Ok s) cs ->
  exists d,
    fold_result (predict_one current_time) cs d0 = Ok d
    /\ (forall c s, c ∈ cs -> closure_start_instant current_time c = Ok s ->
          d !! c_train_number c
          = if s >? current_time then Some (prediction_for current_time s c)
            else d0 !! c_train_number c)
    /\ (forall k, k ∉ map c_train_number cs -> d !! k = d0 !! k).
Proof.
  revert d0. induction cs as [|c cs IH]; intros d0 Hnd Hall.
  - exists d0. split; [done|]. split; [|done]. intros c s Hc. by apply elem_of_nil in Hc.
  - cbn [map] in Hnd. apply NoDup_cons in Hnd as [Hc Hnd].
    apply Forall_cons in Hall as [[s0 Hs0] Hall].
    cbn [fold_result]. rewrite (predict_one_run _ s0) by done. cbn [rbind].
    destruct (IH (if s0 >? current_time
                  then <[c_train_number c := prediction_for current_time s0 c]> d0
                  else d0) Hnd Hall) as (d & Hrun & Hin & Hout).
    exists d. split; [done|]. split.
    + intros c' s Hc' Hs. apply elem_of_cons in Hc' as [->|Hc'].
      * rewrite Hout by done. assert (s = s0) as -> by congruence.
        destruct (s0 >? current_time); [by rewrite lookup_insert_eq|done].
      * rewrite (Hin c' s) by done.
        destruct (s >? current_time); [done|].
        assert (c_train_number c ≠ c_train_number c') as Hne.
        { intros Heq. apply Hc. rewrite Heq. apply list_elem_of_fmap. eauto. }
        destruct (s0 >? current_time); [by rewrite lookup_insert_ne|done].
    + intros k Hk. cbn [map] in Hk. apply not_elem_of_cons in Hk as [Hk1 Hk2].
      rewrite Hout by done.
      destruct (s0 >? current_time); [by rewrite lookup_insert_ne|done].
Qed.

Lemma clock_string_hhmm (k : Z) :
  exists h m, 0 <= h <= 23 /\ 0 <= m <= 59 /\ clock_string k = hhmm h m.
Proof.
  exists ((k / 60) mod 24), (k mod 60).
  pose proof (Z.mod_pos_bound (k / 60) 24). pose proof (Z.mod_pos_bound k 60).
  split; [lia|]. split; [lia|done].
Qed.

Lemma window_start_instant (current_time : datetime) (train : TrainSchedule) :
  exists s, closure_start_instant current_time (window_of train) = Ok s.
Proof.
  unfold closure_start_instant, window_of, closure_window. cbn [closure_start].
  destruct (clock_string_hhmm
              (60 * (default (0, 0) (hhmm_value (arrival_time train))).1
               + (default (0, 0) (hhmm_value (arrival_time train))).2 - 5))
    as (h & m & Hh & Hm & ->).
  destruct (hhmm_readback h m Hh Hm) as (_ & -> & _). cbn [rbind fst snd].
  rewrite replace_hm_ok by done. by eexists.
Qed.

(** C5. With distinct train numbers, the wait-time predictor has an entry for
    a window of the closure schedule exactly when the instant rebuilt from
    its closure_start "HH:MM" on the date of [now] is strictly after [now];
    the entry's minutes_until_closure is the delta in seconds divided by 60
    and truncated (the floor, the delta being positive); and the predictor
    has no other entries. *)
Theorem wait_predictions_upcoming (self : TrainDataProcessor) (w : world) :
  Forall (schedulable w) (sample_trains self) ->
  NoDup (map train_number (sample_trains self)) ->
  exists schedule predictions w',
    let current_time := clock w (ticks w) in
    calculate_gate_closure_schedule self (advance 1 w) = (Ok schedule, w')
    /\ predict_wait_times self w = (Ok predictions, w')
    /\ (forall closure,
          closure ∈ schedule ->
          exists closure_start_time,
            closure_start_instant current_time closure = Ok closure_start_time
            /\ (is_Some (predictions !! c_train_number closure)
                <-> current_time < closure_start_time)
            /\ (forall p,
                  predictions !! c_train_number closure = Some p ->
                  minutes_until_closure p
                  = (closure_start_time - current_time) ÷ (60 * US_PER_SECOND)
                  /\ 60 * US_PER_SECOND * minutes_until_closure p
                     <= closure_start_time - current_time
                     < 60 * US_PER_SECOND * (minutes_until_closure p + 1)))
    /\ (forall k,
          is_Some (predictions !! k) ->
          exists closure, closure ∈ schedule /\ c_train_number closure = k).
Proof.
  intros Hall Hnd.
  set (schedule := sort_by String.ltb closure_start (map window_of (sample_trains self))).
  set (current_time := clock w (ticks w)).
  assert (NoDup (map c_train_number schedule)) as Hkeys.
  { unfold schedule. rewrite (sort_by_perm String.ltb closure_start).
    rewrite map_map. exact Hnd. }
  assert (Forall (fun c => exists s, closure_start_instant current_time c = Ok s) schedule)
    as Hstarts.
  { apply Forall_forall. intros c Hc. unfold schedule in Hc.
    rewrite (sort_by_perm String.ltb closure_start) in Hc.
    apply list_elem_of_fmap in Hc as (train & -> & _). apply window_start_instant. }
  destruct (fold_predict current_time schedule ∅ Hkeys Hstarts) as (d & Hfold & Hin & Hout).
  exists schedule, d, (advance (length (sample_trains self)) (advance 1 w)).
  cbv zeta. fold current_time.
  split; [by apply calculate_run|]. split.
  { unfold predict_wait_times, bind. rewrite now_run.
    rewrite calculate_run by done. unfold lift. fold schedule current_time.
    by rewrite Hfold. }
  split.
  - intros c Hc. rewrite Forall_forall in Hstarts.
    destruct (Hstarts c Hc) as [s Hs]. exists s. split; [done|].
    rewrite (Hin c s Hc Hs), lookup_empty.
    destruct (Z.gtb_spec s current_time) as [Hgt|Hle].
    + split; [split; [lia|by eauto]|].
      intros p [= <-]. cbn [prediction_for minutes_until_closure]. split; [done|].
      rewrite Z.quot_div_nonneg by (us_consts; lia).
      pose proof (Z.mul_div_le (s - current_time) (60 * US_PER_SECOND)).
      pose proof (Z.mul_succ_div_gt (s - current_time) (60 * US_PER_SECOND)).
      us_consts. lia.
    + split; [split; [by intros [? ?]|lia]|done].
  - intros k Hk. destruct (decide (k ∈ map c_train_number schedule)) as [Hmem|Hnot].
    + apply list_elem_of_fmap in Hmem as (c & -> & Hc). eauto.
    + rewrite (Hout k Hnot), lookup_empty in Hk. by destruct Hk.
Qed.

Lemma wait_predictions_upcoming_witness :
  exists predictions w',
    predict_wait_times Sample.processor
      (Sample.frozen (Sample.at_time 14 25 0) (1 # 2)) = (Ok predictions, w')
    /\ predictions !! "EXP-12345" = None
    /\ exists p, predictions !! "LOC-67890" = Some p /\ minutes_until_closure p = 15.
Proof.
  destruct (wait_predictions_upcoming Sample.processor
              (Sample.frozen (Sample.at_time 14 25 0) (1 # 2)))
    as (schedule & predictions & w' & Hsched & Hrun & Hwin & _).
  { sample_schedulable. }
  { apply (bool_decide_unpack _). vm_compute. exact I. }
  exists predictions, w'. split; [exact Hrun|].
  assert (schedule = map window_of (sample_trains Sample.processor)) as ->.
  { vm_compute in Hsched. injection Hsched as <- _. vm_compute. reflexivity. }
  split.
  - destruct (Hwin (window_of Sample.EXP_12345)) as (s & Hs & Hiff & _); [constructor|].
    vm_compute in Hs. injection Hs as <-.
    destruct (predictions !! c_train_number (window_of Sample.EXP_12345)) as [p|] eqn:E;
      [|exact E].
    assert (Sample.at_time 14 25 0 < Sample.at_time 14 25 0) as Habs
      by (apply Hiff; eexists; reflexivity).
    vm_compute in Habs. discriminate Habs.
  - destruct (Hwin (window_of Sample.LOC_67890)) as (s & Hs & Hiff & Hmin);
      [do 2 constructor|].
    vm_compute in Hs. injection Hs as <-.
    destruct Hiff as [_ Hfuture]. destruct Hfuture as [p Hp]; [vm_compute; reflexivity|].
    exists p. split; [exact Hp|].
    destruct (Hmin p Hp) as [-> _]. vm_compute. reflexivity.
Defined.

(** ** Doubles *)

Section DoubleFacts.

Lemma digits2_pos_size (p : positive) : digits2_pos p = Pos.size p.
Proof. induction p; cbn; congruence. Qed.

Lemma Zdigits2_nonneg (m : Z) : 0 <= Zdigits2 m.
Proof. destruct m; cbn; lia. Qed.

Lemma Zdigits2_log2 (p : positive) : Zdigits2 (Z.pos p) = Z.log2 (Z.pos p) + 1.
Proof.
  cbn [Zdigits2]. destruct p as [p|p|]; cbn [digits2_pos Z.log2];
    rewrite ?digits2_pos_size; lia.
Qed.

(** [Zdigits2 m] is the number of binary digits of [m]. *)
Lemma Zdigits2_above (m : Z) : 0 <= m -> m < 2 ^ Zdigits2 m.
Proof.
  intros Hm. destruct m as [|p|p]; [done| |lia].
  rewrite Zdigits2_log2. apply Z.log2_spec. lia.
Qed.

Lemma Zdigits2_le (m k : Z) : 0 <= m -> 0 <= k -> m < 2 ^ k -> Zdigits2 m <= k.
Proof.
  intros Hm Hk Hlt. destruct m as [|p|p]; [done| |lia].
  rewrite Zdigits2_log2. apply Z.log2_lt_pow2 in Hlt; lia.
Qed.

Lemma div_pow2_lt (m a b : Z) :
  0 <= m -> 0 <= b <= a -> m < 2 ^ a -> m / 2 ^ b < 2 ^ (a - b).
Proof.
  intros Hm Hab Hlt. apply Z.div_lt_upper_bound; [apply Z.pow_pos_nonneg; lia|].
  rewrite <- Z.pow_add_r by lia. by replace (b + (a - b)) with a by lia.
Qed.

Lemma div_pow2_zero (m a b : Z) :
  0 <= m -> 0 <= a <= b -> m < 2 ^ a -> m / 2 ^ b = 0.
Proof.
  intros Hm Hab Hlt. apply Z.div_small. split; [done|].
  eapply Z.lt_le_trans; [exact Hlt|]. apply Z.pow_le_mono_r; lia.
Qed.

Lemma shr_1_m (mrs : shr_record) :
  0 <= shr_m mrs -> shr_m (shr_1 mrs) = shr_m mrs / 2.
Proof.
  destruct mrs as [m r s]. cbn [shr_m]. intros Hm.
  destruct m as [|[p|p|]|p]; cbn [shr_1 shr_m]; [done| | |done|lia].
  - rewrite (Pos2Z.inj_xI p). apply Z.div_unique with 1; lia.
  - rewrite (Pos2Z.inj_xO p). apply Z.div_unique with 0; lia.
Qed.

Lemma iter_shr_m (p : positive) (mrs : shr_record) :
  0 <= shr_m mrs ->
  shr_m (SpecFloat.iter_pos shr_1 p mrs) = shr_m mrs / 2 ^ Z.pos p.
Proof.
  revert mrs. induction p as [p IH|p IH|]; intros mrs Hm; cbn [SpecFloat.iter_pos].
  - assert (0 <= shr_m (shr_1 mrs)) by (rewrite shr_1_m by done; by apply Z.div_pos).
    assert (0 <= shr_m (SpecFloat.iter_pos shr_1 p (shr_1 mrs)))
      by (rewrite IH by done; apply Z.div_pos; [done|by apply Z.pow_pos_nonneg]).
    rewrite !IH, shr_1_m by done.
    rewrite !Z.div_div by (try apply Z.pow_pos_nonneg; lia).
    f_equal. rewrite (Pos2Z.inj_xI p).
    replace (2 * Z.pos p + 1) with (1 + Z.pos p + Z.pos p) by lia.
    repeat rewrite Z.pow_add_r by lia. rewrite ?Z.pow_1_r.
    generalize (2 ^ Z.pos p). intros. ring.
  - assert (0 <= shr_m (SpecFloat.iter_pos shr_1 p mrs))
      by (rewrite IH by done; apply Z.div_pos; [done|by apply Z.pow_pos_nonneg]).
    rewrite !IH by done.
    rewrite !Z.div_div by (try apply Z.pow_pos_nonneg; lia).
    f_equal. rewrite (Pos2Z.inj_xO p).
    replace (2 * Z.pos p) with (Z.pos p + Z.pos p) by lia.
    by repeat rewrite Z.pow_add_r by lia.
  - by rewrite shr_1_m.
Qed.

(** One step of the rounding: the mantissa is shifted right by [n] places
    when [n] is positive, to reach the exponent that its number of digits
    asks for. *)
Lemma shr_fexp_spec (m e : Z) (l : location) :
  0 <= m ->
  let n := Z.max (Zdigits2 m + e - 53) (- 1074) - e in
  exists mrs e',
    shr_fexp PyDouble.prec PyDouble.emax m e l = (mrs, e')
    /\ 0 <= shr_m mrs
    /\ ((n <= 0 /\ shr_m mrs = m /\ e' = e)
        \/ (0 < n /\ shr_m mrs = m / 2 ^ n /\ e' = e + n)).
Proof.
  intros Hm n. unfold shr_fexp, shr.
  change (fexp PyDouble.prec PyDouble.emax (Zdigits2 m + e) - e) with n.
  assert (shr_m (shr_record_of_loc m l) = m) as Hrec by (by destruct l as [|[]]).
  destruct n as [|p|p] eqn:Hn.
  - eexists _, _. split; [done|]. rewrite Hrec. split; [done|]. left. done.
  - eexists _, _. split; [done|]. rewrite iter_shr_m, Hrec by (by rewrite Hrec).
    split; [apply Z.div_pos; [done|by apply Z.pow_pos_nonneg]|]. right. done.
  - eexists _, _. split; [done|]. rewrite Hrec. split; [done|]. left. split; [lia|done].
Qed.

Lemma round_nearest_even_bounds (m : Z) (l : location) :
  m <= round_nearest_even m l <= m + 1.
Proof. destruct l as [|[]]; cbn; try destruct (Z.even m); lia. Qed.

(** What the rounding returns: a mantissa below 2^53 with an exponent at
    most one above the largest of [ex], [ex + digits - 53] and the least
    exponent, turned into an infinity when that exponent is above 971. *)
Lemma binary_round_aux_spec (sx : bool) (mx ex : Z) (lx : location) :
  0 <= mx ->
  exists m2 e2,
    0 <= m2 < 2 ^ 53
    /\ e2 <= Z.max (Z.max ex (ex + Zdigits2 mx - 53)) (- 1074) + 1
    /\ binary_round_aux PyDouble.prec PyDouble.emax sx mx ex lx
       = match m2 with
         | Z0 => S754_zero sx
         | Z.pos m => if e2 <=? 971 then S754_finite sx m e2 else S754_infinity sx
         | Z.neg _ => S754_nan
         end.
Proof.
  intros Hmx. unfold binary_round_aux.
  destruct (shr_fexp_spec mx ex lx Hmx) as (mrs1 & e1 & -> & Hm1 & Hcase1).
  pose proof (round_nearest_even_bounds (shr_m mrs1) (loc_of_shr_record mrs1)) as Hrne.
  set (m1 := round_nearest_even (shr_m mrs1) (loc_of_shr_record mrs1)) in *.
  assert (0 <= m1) as Hm1' by lia.
  destruct (shr_fexp_spec m1 e1 loc_Exact Hm1') as (mrs2 & e2 & -> & Hm2 & Hcase2).
  pose proof (Zdigits2_above mx Hmx) as Hdx.
  pose proof (Zdigits2_nonneg mx) as Hdx0.
  pose proof (Zdigits2_above m1 Hm1') as Hd1.
  pose proof (Zdigits2_nonneg m1) as Hd10.
  set (d := Zdigits2 mx) in *. set (d1 := Zdigits2 m1) in *.
  assert (d1 + e1 - 53 <= Z.max (Z.max ex (ex + d - 53)) (- 1074) + 1) as Hd1e1.
  { destruct Hcase1 as [(Hn & Heq & ->)|(Hn & Heq & ->)].
    - assert (d1 <= d + 1); [|lia].
      apply Zdigits2_le; [done|lia|].
      rewrite Z.pow_add_r, Z.pow_1_r by lia. lia.
    - set (n := Z.max (d + ex - 53) (- 1074) - ex) in *.
      destruct (Z.le_gt_cases n d) as [Hnd|Hnd].
      + assert (d1 <= d - n + 1); [|lia].
        apply Zdigits2_le; [done|lia|].
        pose proof (div_pow2_lt mx d n Hmx ltac:(lia) Hdx).
        rewrite Z.pow_add_r, Z.pow_1_r by lia. lia.
      + assert (d1 <= 1); [|lia].
        apply Zdigits2_le; [done|lia|].
        rewrite (div_pow2_zero mx d n) in Heq by lia. change (2 ^ 1) with 2. lia. }
  assert (e1 <= Z.max (Z.max ex (ex + d - 53)) (- 1074)) as He1.
  { destruct Hcase1 as [(Hn & Heq & ->)|(Hn & Heq & ->)]; lia. }
  exists (shr_m mrs2), e2. split; [|split; [|done]].
  - split; [done|].
    destruct Hcase2 as [(Hn & -> & ->)|(Hn & -> & ->)].
    + eapply Z.lt_le_trans; [exact Hd1|]. apply Z.pow_le_mono_r; lia.
    + set (n := Z.max (d1 + e1 - 53) (- 1074) - e1) in *.
      apply Z.div_lt_upper_bound; [apply Z.pow_pos_nonneg; lia|].
      rewrite <- Z.pow_add_r by lia.
      eapply Z.lt_le_trans; [exact Hd1|]. apply Z.pow_le_mono_r; lia.
  - destruct Hcase2 as [(Hn & _ & ->)|(Hn & _ & ->)]; lia.
Qed.

Lemma small_mono (E E' : Z) (x : PyDouble.double) : E <= E' -> small E x -> small E' x.
Proof. destruct x; cbn; lia. Qed.

Lemma binary_round_aux_small (sx : bool) (mx ex : Z) (lx : location) (E : Z) :
  0 <= mx -> ex <= E -> ex + Zdigits2 mx - 53 <= E -> - 1074 <= E -> E < 971 ->
  small (E + 1) (binary_round_aux PyDouble.prec PyDouble.emax sx mx ex lx).
Proof.
  intros Hmx He Hd Hmin Hmax.
  destruct (binary_round_aux_spec sx mx ex lx Hmx) as (m2 & e2 & Hm2 & He2 & ->).
  destruct m2 as [|m|m]; [done| |lia].
  rewrite (Zle_imp_le_bool e2 971) by lia. cbn. lia.
Qed.

Lemma mul_small (Ex Ey E : Z) (x y : PyDouble.double) :
  small Ex x -> small Ey y ->
  Ex + Ey + 53 <= E -> - 1074 <= E -> E < 971 ->
  small (E + 1) (PyDouble.mul x y).
Proof.
  unfold PyDouble.mul.
  destruct x as [sx|sx| |sx mx ex], y as [sy|sy| |sy my ey]; cbn [small SFmul]; try done.
  intros [Hmx Hex] [Hmy Hey] HE Hmin Hmax.
  apply binary_round_aux_small; [lia|lia| |done|done].
  assert (Zdigits2 (Z.pos (mx * my)) <= 106); [|lia].
  apply Zdigits2_le; [lia|lia|]. rewrite Pos2Z.inj_mul.
  change (2 ^ 106) with (2 ^ 53 * 2 ^ 53). nia.
Qed.

(** A finite product has a mantissa below 2^53 and an exponent of at most
    971, so that its integer part is below 2^1024. *)
Lemma mul_to_int_bound (x y : PyDouble.double) (v : Z) :
  PyDouble.to_int (PyDouble.mul x y) = Ok v -> Z.abs v < 2 ^ 1024.
Proof.
  assert (forall s m e, Z.pos m < 2 ^ 53 -> e <= 971 ->
            PyDouble.to_int (S754_finite s m e) = Ok v -> Z.abs v < 2 ^ 1024) as Hfin.
  { intros s m e Hm He. cbn [PyDouble.to_int]. intros [= <-].
    assert (0 <= (if 0 <=? e then Z.shiftl (Z.pos m) e else Z.shiftr (Z.pos m) (- e))
            < 2 ^ 1024) as Ha.
    { destruct (Z.leb_spec 0 e).
      - rewrite Z.shiftl_mul_pow2 by done.
        split; [apply Z.mul_nonneg_nonneg; [lia|apply Z.pow_nonneg; lia]|].
        eapply Z.lt_le_trans.
        + apply Z.mul_lt_mono_pos_r; [apply Z.pow_pos_nonneg; lia|exact Hm].
        + rewrite <- Z.pow_add_r by lia. apply Z.pow_le_mono_r; lia.
      - rewrite Z.shiftr_div_pow2 by lia.
        split; [apply Z.div_pos; [lia|apply Z.pow_pos_nonneg; lia]|].
        eapply Z.le_lt_trans;
          [apply Z.div_le_upper_bound with (q := Z.pos m);
           [apply Z.pow_pos_nonneg; lia|]|].
        + assert (1 <= 2 ^ (- e)) by (apply (Z.pow_le_mono_r 2 0); lia). nia.
        + eapply Z.lt_le_trans; [exact Hm|]. apply Z.pow_le_mono_r; lia. }
    destruct s; lia. }
  unfold PyDouble.mul.
  destruct x as [sx|sx| |sx mx ex], y as [sy|sy| |sy my ey]; cbn [SFmul PyDouble.to_int];
    try discriminate; try (intros [= <-]; done).
  destruct (binary_round_aux_spec (xorb sx sy) (Z.pos (mx * my)) (ex + ey) loc_Exact)
    as (m2 & e2 & Hm2 & _ & ->); [lia|].
  destruct m2 as [|m|m]; [by intros [= <-]| |lia].
  destruct (Z.leb_spec e2 971); [|discriminate].
  apply Hfin; lia.
Qed.

Lemma iter_xO (m d : positive) : Z.pos (Pos.iter xO m d) = Z.pos m * 2 ^ Z.pos d.
Proof.
  induction d as [|d IH] using Pos.peano_ind.
  - cbn [Pos.iter]. rewrite (Pos2Z.inj_xO m). change (2 ^ 1) with 2. lia.
  - rewrite Pos.iter_succ, (Pos2Z.inj_xO (Pos.iter xO m d)), IH, Pos2Z.inj_succ,
      Z.pow_succ_r by lia. lia.
Qed.

Lemma shl_align_spec (mx : positive) (ex ez : Z) :
  exists m' e',
    shl_align mx ex ez = (m', e')
    /\ e' = Z.min ex ez
    /\ Z.pos m' = Z.pos mx * 2 ^ (ex - e').
Proof.
  unfold shl_align. destruct (ez - ex) as [|d|d] eqn:Hd.
  - eexists _, _. split; [done|]. split; [lia|].
    replace (ex - ex) with 0 by lia. lia.
  - eexists _, _. split; [done|]. split; [lia|].
    replace (ex - ex) with 0 by lia. lia.
  - eexists _, _. split; [done|]. split; [lia|].
    rewrite iter_xO. f_equal. f_equal. lia.
Qed.

Lemma binary_round_small (s : bool) (m : positive) (e k E : Z) :
  Z.pos m < 2 ^ k -> 0 <= k ->
  k + e - 53 <= E -> - 1074 <= E -> E < 971 ->
  small (E + 1) (binary_round PyDouble.prec PyDouble.emax s m e).
Proof.
  intros Hm Hk HE Hmin Hmax. unfold binary_round.
  pose proof (Zdigits2_le (Z.pos m) k ltac:(lia) Hk Hm) as Hd.
  pose proof (Zdigits2_nonneg (Z.pos m)) as Hd0.
  cbn [Zdigits2] in Hd, Hd0.
  destruct (shl_align_spec m e
              (fexp PyDouble.prec PyDouble.emax (Z.pos (digits2_pos m) + e)))
    as (mz & ez & -> & Hez & Hmz).
  change (fexp PyDouble.prec PyDouble.emax (Z.pos (digits2_pos m) + e))
    with (Z.max (Z.pos (digits2_pos m) + e - 53) (- 1074)) in Hez.
  apply binary_round_aux_small; [lia|lia| |done|done].
  assert (Zdigits2 (Z.pos mz) <= k + (e - ez)); [|lia].
  apply Zdigits2_le; [lia|lia|].
  rewrite Hmz, Z.pow_add_r by lia.
  apply Z.mul_lt_mono_pos_r; [apply Z.pow_pos_nonneg; lia|done].
Qed.

Lemma binary_normalize_small (z e k E : Z) :
  Z.abs z < 2 ^ k -> 0 <= k ->
  k + e - 53 <= E -> - 1074 <= E -> E < 971 ->
  small (E + 1) (binary_normalize PyDouble.prec PyDouble.emax z e false).
Proof.
  intros Hz Hk HE Hmin Hmax. destruct z as [|m|m]; cbn [binary_normalize]; [done|..];
    by apply binary_round_small with k.
Qed.

(** The sum of two aligned mantissas, with signs. *)
Lemma aligned_sum_bound (mx my : positive) (ex ey : Z) (a b : Z) :
  Z.pos mx < 2 ^ 53 -> Z.pos my < 2 ^ 53 ->
  let ez := Z.min ex ey in
  Z.abs a = Z.pos (shl_align mx ex ez).1 ->
  Z.abs b = Z.pos (shl_align my ey ez).1 ->
  Z.abs (a + b) < 2 ^ (54 + Z.max ex ey - ez).
Proof.
  intros Hmx Hmy ez Ha Hb.
  destruct (shl_align_spec mx ex ez) as (mx' & ex' & Hx & Hex & Hmx').
  destruct (shl_align_spec my ey ez) as (my' & ey' & Hy & Hey & Hmy').
  rewrite Hx in Ha. rewrite Hy in Hb. cbn [fst] in Ha, Hb.
  assert (ex' = ez) as -> by lia. assert (ey' = ez) as -> by lia.
  assert (Z.pos mx' < 2 ^ (53 + Z.max ex ey - ez)) as Hbx.
  { rewrite Hmx'. eapply Z.lt_le_trans.
    - apply Z.mul_lt_mono_pos_r; [apply Z.pow_pos_nonneg; lia|exact Hmx].
    - rewrite <- Z.pow_add_r by lia. apply Z.pow_le_mono_r; lia. }
  assert (Z.pos my' < 2 ^ (53 + Z.max ex ey - ez)) as Hby.
  { rewrite Hmy'. eapply Z.lt_le_trans.
    - apply Z.mul_lt_mono_pos_r; [apply Z.pow_pos_nonneg; lia|exact Hmy].
    - rewrite <- Z.pow_add_r by lia. apply Z.pow_le_mono_r; lia. }
  replace (54 + Z.max ex ey - ez) with (Z.succ (53 + Z.max ex ey - ez)) by lia.
  rewrite Z.pow_succ_r by lia. lia.
Qed.

Lemma cond_Zopp_abs (s : bool) (p : positive) : Z.abs (cond_Zopp s (Z.pos p)) = Z.pos p.
Proof. by destruct s. Qed.

Lemma add_small (Ex Ey E : Z) (x y : PyDouble.double) :
  small Ex x -> small Ey y ->
  Ex + 1 <= E -> Ey + 1 <= E -> - 1074 <= E -> E < 971 ->
  small (E + 1) (PyDouble.add x y).
Proof.
  unfold PyDouble.add.
  destruct x as [sx|sx| |sx mx ex], y as [sy|sy| |sy my ey]; cbn [small SFadd]; try done.
  - intros _ _ _ _ _ _. by destruct sx, sy.
  - intros _ [Hmy Hey] ? ? ? ?. cbn. lia.
  - intros [Hmx Hex] _ ? ? ? ?. cbn. lia.
  - intros [Hmx Hex] [Hmy Hey] HEx HEy Hmin Hmax. cbv zeta.
    apply binary_normalize_small with (54 + Z.max ex ey - Z.min ex ey); [|lia|lia|done|done].
    apply (aligned_sum_bound mx my ex ey); [done|done|apply cond_Zopp_abs..].
Qed.

Lemma sub_small (Ex Ey E : Z) (x y : PyDouble.double) :
  small Ex x -> small Ey y ->
  Ex + 1 <= E -> Ey + 1 <= E -> - 1074 <= E -> E < 971 ->
  small (E + 1) (PyDouble.sub x y).
Proof.
  unfold PyDouble.sub.
  destruct x as [sx|sx| |sx mx ex], y as [sy|sy| |sy my ey]; cbn [small SFsub]; try done.
  - intros _ _ _ _ _ _. by destruct sx, sy.
  - intros _ [Hmy Hey] ? ? ? ?. cbn. lia.
  - intros [Hmx Hex] _ ? ? ? ?. cbn. lia.
  - intros [Hmx Hex] [Hmy Hey] HEx HEy Hmin Hmax. cbv zeta.
    apply binary_normalize_small with (54 + Z.max ex ey - Z.min ex ey); [|lia|lia|done|done].
    rewrite <- Z.add_opp_r.
    apply (aligned_sum_bound mx my ex ey); [done|done|apply cond_Zopp_abs|].
    rewrite Z.abs_opp. apply cond_Zopp_abs.
Qed.

Lemma in_unit_interval_small (x : PyDouble.double) :
  in_unit_interval x = true -> small (- 53) x.
Proof.
  destruct x as [s|s| |[] m e]; cbn [in_unit_interval small]; try done.
  intros [?%Z.ltb_lt ?%Z.leb_le]%andb_true_iff. done.
Qed.

(** The value of [random.uniform(a, b)] for bounds below 2 in absolute value
    and a draw in the unit interval. *)
Lemma uniform_value_small (a b u : Q) :
  small (- 52) (PyDouble.of_Q a) -> small (- 52) (PyDouble.of_Q b) ->
  in_unit_interval (PyDouble.of_Q u) = true ->
  small (- 47) (uniform_value a b u).
Proof.
  intros Ha Hb Hu%in_unit_interval_small. unfold uniform_value.
  apply (add_small (- 52) (- 49) (- 48)); [done| |lia..].
  apply (mul_small (- 50) (- 53) (- 50)); [|done|lia..].
  by apply (sub_small (- 52) (- 52) (- 51)); [..|lia|lia|lia|lia].
Qed.

Lemma multiplier_small (level : string) (u_low u_medium u_high : Q) :
  in_unit_interval (PyDouble.of_Q u_low) = true ->
  in_unit_interval (PyDouble.of_Q u_medium) = true ->
  in_unit_interval (PyDouble.of_Q u_high) = true ->
  small (- 47) (multiplier_for level u_low u_medium u_high).
Proof.
  intros Hl Hm Hh. unfold multiplier_for.
  assert (Forall (fun q => small (- 52) (PyDouble.of_Q q))
                 [8 # 10; 10 # 10; 11 # 10; 12 # 10; 13 # 10; 18 # 10]) as Hlit
    by (repeat (apply Forall_cons_2; [vm_compute; split; [reflexivity|discriminate]|]);
        apply Forall_nil_2).
  repeat (apply Forall_cons in Hlit as [? Hlit]).
  repeat case_match; try (apply uniform_value_small; assumption).
  apply small_mono with (- 52); [lia|assumption].
Qed.

(** The adjusted time is defined whenever the time is below 2^1000 in
    absolute value and the multiplier comes from draws in the unit
    interval. *)
Lemma scaled_total (minutes : Z) (multiplier : PyDouble.double) :
  Z.abs minutes < 2 ^ 1000 -> small (- 47) multiplier ->
  exists v, scaled minutes multiplier = Ok v.
Proof.
  intros Hminutes Hmul. unfold scaled, PyDouble.int_mul, PyDouble.of_int.
  pose proof (binary_normalize_small minutes 0 1000 947 Hminutes
                ltac:(lia) ltac:(lia) ltac:(lia) ltac:(lia)) as Hf.
  fold (PyDouble.of_Z minutes) in Hf.
  pose proof (mul_small 948 (- 47) 954 (PyDouble.of_Z minutes) multiplier Hf Hmul
                ltac:(lia) ltac:(lia) ltac:(lia)) as Hp.
  destruct (PyDouble.of_Z minutes) as [s|s| |s m e]; cbn [small rbind] in *; try done;
    destruct (PyDouble.mul _ _); cbn [small PyDouble.to_int] in *; try done;
    by eexists.
Qed.

End DoubleFacts.

(** ** Route ranking *)

(** One iteration of the first loop: three draws, then either the route is
    rewritten and the clock is read, or [int(...)] raises and nothing is
    written. *)
Lemma adjust_route_run (l : loc) (w : world) :
  match scaled (additional_time_minutes (heap w l))
               (multiplier_for (traffic_level (heap w l)) (rand w (draws w))
                               (rand w (1 + draws w)) (rand w (2 + draws w))) with
  | Ok v =>
      exists w',
        adjust_route l w = (Ok tt, w')
        /\ clock w' = clock w /\ rand w' = rand w
        /\ ticks w' = S (ticks w) /\ draws w' = (3 + draws w)%nat
        /\ heap w' l = adjusted_to v (heap w l) (clock w (ticks w))
        /\ forall l', l' <> l -> heap w' l' = heap w l'
  | Raise e =>
      exists w',
        adjust_route l w = (Raise e, w')
        /\ clock w' = clock w /\ rand w' = rand w
        /\ ticks w' = ticks w /\ draws w' = (3 + draws w)%nat
        /\ heap w' = heap w
  end.
Proof.
  unfold adjust_route, bind, uniform, bind, random, ret, read, lift.
  cbn [heap clock ticks rand draws]. cbv beta zeta.
  unfold scaled, multiplier_for, uniform_value.
  change (1 + draws w)%nat with (S (draws w)).
  change (2 + draws w)%nat with (S (S (draws w))).
  destruct (heap w l) as [rid nm dist tm lvl cond rec toll] eqn:Hl.
  cbn [traffic_level additional_time_minutes].
  match goal with |- match ?s with _ => _ end => destruct s as [v|e] end.
  - unfold update, now. cbn [heap clock ticks rand draws].
    unfold adjusted_to, escalate.
    destruct (is_rush_hour (hour (clock w (ticks w)))); cbv beta;
      cbn [heap clock ticks rand draws]; rewrite ?fn_lookup_alter, ?Hl;
      cbn [traffic_level additional_time_minutes route_id name distance_km
           road_conditions recommended toll_cost set_additional_time_minutes];
      destruct (String.eqb lvl "low"); try destruct (String.eqb lvl "medium");
      (eexists; split; [reflexivity|]);
      cbn [heap clock ticks rand draws];
      (split; [done|]); (split; [done|]); (split; [done|]); (split; [done|]);
      (split; [rewrite ?fn_lookup_alter, ?Hl; reflexivity
              |intros l' Hne; by rewrite ?fn_lookup_alter_ne by done]).
  - eexists. split; [reflexivity|]. done.
Qed.

Lemma adjusted_to_same_identity (v : Z) (r : Route) (t : datetime) :
  same_identity r (adjusted_to v r t).
Proof. by repeat split. Qed.

Lemma same_identity_trans (r1 r2 r3 : Route) :
  same_identity r1 r2 -> same_identity r2 r3 -> same_identity r1 r3.
Proof.
  intros (? & ? & ? & ? & ?) (? & ? & ? & ? & ?). repeat split; congruence.
Qed.

(** The first loop of the ranker on any list of references, whether it runs
    to its end or stops at an exception. *)
Lemma adjust_loop_frame (ls : list loc) (w w' : world) (r : result unit) :
  for_each ls adjust_route w = (r, w') ->
  framed ls w w'
  /\ (forall l, recommended (heap w' l) = recommended (heap w l))
  /\ (r = Ok tt ->
      ticks w' = (length ls + ticks w)%nat
      /\ draws w' = (3 * length ls + draws w)%nat).
Proof.
  revert w. induction ls as [|a ls IH]; intros w; cbn [for_each].
  - unfold ret. intros [= <- <-]. split; [by repeat split|]. done.
  - unfold bind. pose proof (adjust_route_run a w) as Hstep.
    destruct (scaled _ _) as [v|e].
    + destruct Hstep as (w1 & -> & Hc1 & Hr1 & Ht1 & Hd1 & Ha1 & Ho1).
      intros Hrest. destruct (IH _ Hrest) as ((Hc & Hr & Hid & Hout) & Hrec & Hcount).
      split; [|split].
      * split; [congruence|]. split; [congruence|]. split.
        -- intros l. eapply same_identity_trans; [|apply Hid].
           destruct (decide (l = a)) as [->|Hne].
           ++ rewrite Ha1. apply adjusted_to_same_identity.
           ++ rewrite Ho1 by done. by repeat split.
        -- intros l Hl. apply not_elem_of_cons in Hl as [Hne Hl].
           rewrite Hout by done. by apply Ho1.
      * intros l. rewrite Hrec. destruct (decide (l = a)) as [->|Hne].
        -- by rewrite Ha1.
        -- by rewrite Ho1.
      * intros Hok. destruct (Hcount Hok). cbn [length]. lia.
    + destruct Hstep as (w1 & -> & Hc1 & Hr1 & Ht1 & Hd1 & Hh1).
      intros [= <- <-]. split; [|split; [|done]].
      * split; [done|]. split; [done|]. rewrite Hh1. split; [|done].
        intros l. by repeat split.
      * intros l. by rewrite Hh1.
Qed.

(** The first loop of the ranker on distinct references: the route at
    position [i] is adjusted once, with the draws [3i], [3i+1], [3i+2] and
    the clock reading [i]. *)
Lemma adjust_loop_run (ls : list loc) (w w' : world) :
  NoDup ls ->
  for_each ls adjust_route w = (Ok tt, w') ->
  forall i l,
    ls !! i = Some l ->
    adjusted (heap w l) (rand w (3 * i + draws w)) (rand w (1 + 3 * i + draws w))
             (rand w (2 + 3 * i + draws w)) (clock w (i + ticks w))
    = Ok (heap w' l).
Proof.
  intros Hnd. revert w. induction Hnd as [|a ls Ha Hnd IH]; intros w; cbn [for_each].
  - intros _ i l Hl. by rewrite lookup_nil in Hl.
  - unfold bind. pose proof (adjust_route_run a w) as Hstep.
    destruct (scaled _ _) as [v|e] eqn:Hv.
    + destruct Hstep as (w1 & -> & Hc1 & Hr1 & Ht1 & Hd1 & Ha1 & Ho1).
      intros Hrest.
      destruct (adjust_loop_frame _ _ _ _ Hrest) as ((_ & _ & _ & Hout) & _).
      intros [|i] l Hl; cbn in Hl.
      * injection Hl as <-. rewrite Hout by done. rewrite Ha1.
        replace (3 * 0 + draws w)%nat with (draws w) by lia.
        replace (1 + 3 * 0 + draws w)%nat with (1 + draws w)%nat by lia.
        replace (2 + 3 * 0 + draws w)%nat with (2 + draws w)%nat by lia.
        unfold adjusted. by rewrite Hv.
      * rewrite <- (IH w1 Hrest i l Hl). rewrite Hc1, Hr1, Ht1, Hd1.
        assert (l <> a) as Hne.
        { intros ->. apply Ha. by eapply list_elem_of_lookup_2. }
        rewrite (Ho1 l Hne).
        replace (3 * i + (3 + draws w))%nat with (3 * S i + draws w)%nat by lia.
        replace (1 + 3 * i + (3 + draws w))%nat with (1 + 3 * S i + draws w)%nat by lia.
        replace (2 + 3 * i + (3 + draws w))%nat with (2 + 3 * S i + draws w)%nat by lia.
        by replace (i + S (ticks w))%nat with (S i + ticks w)%nat by lia.
    + destruct Hstep as (w1 & -> & _). discriminate.
Qed.

(** The first loop runs to its end on distinct routes whose times are below
    2^1000 in absolute value, when the generator yields doubles of the unit
    interval. *)
Lemma adjust_loop_total (ls : list loc) (w : world) :
  NoDup ls ->
  (forall l, l ∈ ls -> Z.abs (additional_time_minutes (heap w l)) < 2 ^ 1000) ->
  (forall n, in_unit_interval (PyDouble.of_Q (rand w n)) = true) ->
  exists w', for_each ls adjust_route w = (Ok tt, w').
Proof.
  intros Hnd. revert w. induction Hnd as [|a ls Ha Hnd IH]; intros w Htime Hrand;
    cbn [for_each]; [by eexists|].
  unfold bind. pose proof (adjust_route_run a w) as Hstep.
  destruct (scaled_total (additional_time_minutes (heap w a))
              (multiplier_for (traffic_level (heap w a)) (rand w (draws w))
                              (rand w (1 + draws w)) (rand w (2 + draws w))))
    as [v Hv].
  { apply Htime. by left. }
  { by apply multiplier_small. }
  rewrite Hv in Hstep. destruct Hstep as (w1 & -> & Hc1 & Hr1 & Ht1 & Hd1 & Ha1 & Ho1).
  apply IH.
  - intros l Hl. rewrite Ho1 by (intros ->; done). apply Htime. by right.
  - intros n. by rewrite Hr1.
Qed.

(** After the first loop every route of the list holds the integer part of
    a finite double. *)
Lemma adjust_loop_bound (ls : list loc) (w w' : world) :
  for_each ls adjust_route w = (Ok tt, w') ->
  forall l, l ∈ ls -> Z.abs (additional_time_minutes (heap w' l)) < 2 ^ 1024.
Proof.
  revert w. induction ls as [|a ls IH]; intros w; cbn [for_each].
  - intros _ l Hl. by apply elem_of_nil in Hl.
  - unfold bind. pose proof (adjust_route_run a w) as Hstep.
    destruct (scaled _ _) as [v|e] eqn:Hv.
    + destruct Hstep as (w1 & -> & Hc1 & Hr1 & Ht1 & Hd1 & Ha1 & Ho1).
      intros Hrest l Hl.
      destruct (decide (l ∈ ls)) as [Hls|Hls]; [by apply (IH w1)|].
      apply elem_of_cons in Hl as [->|Hl]; [|done].
      destruct (adjust_loop_frame _ _ _ _ Hrest) as ((_ & _ & _ & Hout) & _).
      rewrite Hout, Ha1 by done. cbn [adjusted_to additional_time_minutes].
      unfold scaled, PyDouble.int_mul in Hv.
      destruct (PyDouble.of_int _); cbn [rbind] in Hv; [|discriminate].
      by apply mul_to_int_bound in Hv.
    + destruct Hstep as (w1 & -> & _). discriminate.
Qed.

(** The loop [for route in optimized_routes: route.recommended = False]. *)
Lemma clear_loop_run (ls : list loc) (w : world) :
  exists w',
    for_each ls (fun l => update l (set_recommended false)) w = (Ok tt, w')
    /\ clock w' = clock w /\ rand w' = rand w
    /\ ticks w' = ticks w /\ draws w' = draws w
    /\ forall l,
         heap w' l = if decide (l ∈ ls) then set_recommended false (heap w l)
                     else heap w l.
Proof.
  revert w. induction ls as [|a ls IH]; intros w; cbn [for_each].
  - exists w. repeat (split; [done|]). intros l.
    destruct (decide (l ∈ [])) as [Hl|]; [by apply elem_of_nil in Hl|done].
  - unfold bind, update at 1.
    match goal with |- context [for_each ls _ ?w1] =>
      destruct (IH w1) as (w' & Hrun & Hc & Hr & Ht & Hd & Hheap) end.
    exists w'. split; [done|]. cbn [clock rand ticks draws heap] in *.
    repeat (split; [done|]). intros l. rewrite Hheap.
    destruct (decide (a = l)) as [->|Hne].
    + rewrite fn_lookup_alter.
      rewrite (decide_True (P := l ∈ l :: ls)) by (by left).
      by destruct (decide (l ∈ ls)).
    + rewrite fn_lookup_alter_ne by done.
      destruct (decide (l ∈ ls)) as [Hl|Hl].
      * by rewrite decide_True by (by right).
      * rewrite decide_False; [done|]. by intros [->|?]%elem_of_cons.
Qed.

Lemma optimize_inv (self : TrainDataProcessor) (w w' : world) (out : list loc) :
  optimize_routes self w = (Ok out, w') ->
  exists w1 w2,
    for_each (alternative_routes self) adjust_route w = (Ok tt, w1)
    /\ out = sort_by Z.ltb (fun l => additional_time_minutes (heap w1 l))
                     (alternative_routes self)
    /\ for_each out (fun l => update l (set_recommended false)) w1 = (Ok tt, w2)
    /\ clock w' = clock w2 /\ rand w' = rand w2
    /\ ticks w' = ticks w2 /\ draws w' = draws w2
    /\ heap w' = match out with
                 | first :: _ => alter (set_recommended true) first (heap w2)
                 | [] => heap w2
                 end.
Proof.
  unfold optimize_routes, bind.
  destruct (for_each (alternative_routes self) adjust_route w) as [[[]|] w1];
    [|discriminate].
  set (sorted := sort_by Z.ltb _ _).
  destruct (for_each sorted _ w1) as [[[]|] w2] eqn:Hclear; [|discriminate].
  destruct sorted as [|first rest] eqn:Hsorted; unfold update, ret;
    intros [= <- <-]; exists w1, w2; by repeat split.
Qed.

(** The pass returns exactly when its first loop runs to its end, and
    raises what that loop raises. *)
Lemma optimize_returns (self : TrainDataProcessor) (w w1 : world) :
  for_each (alternative_routes self) adjust_route w = (Ok tt, w1) ->
  exists out w', optimize_routes self w = (Ok out, w').
Proof.
  intros Hadj. unfold optimize_routes, bind. rewrite Hadj.
  set (sorted := sort_by Z.ltb _ _).
  destruct (clear_loop_run sorted w1) as (w2 & -> & _).
  destruct sorted; unfold update, ret; by eexists _, _.
Qed.

Lemma optimize_raises (self : TrainDataProcessor) (w w1 : world) (e : exn) :
  for_each (alternative_routes self) adjust_route w = (Raise e, w1) ->
  optimize_routes self w = (Raise e, w1).
Proof. intros Hadj. unfold optimize_routes, bind. by rewrite Hadj. Qed.

Lemma Z_ltb_le (a b : Z) : Z.ltb a b = true -> a <= b.
Proof. intros ?%Z.ltb_lt. lia. Qed.

Lemma Z_nltb_le (a b : Z) : Z.ltb a b = false -> b <= a.
Proof. intros ?%Z.ltb_ge. lia. Qed.

(** C2, as the code has it.  For a non-empty list of distinct route
    candidates, every ranking pass that returns has returned the candidates
    sorted by additional_time_minutes as adjusted by the traffic simulation;
    exactly one candidate is marked recommended (the first of the returned
    list is, the others are not); its adjusted time is minimal; among
    candidates with that minimal time it is the first in input order; and
    candidates with equal adjusted times come out in their input order.  The
    pass returns when every additional_time_minutes is below 2^1000 in
    absolute value and the generator yields doubles of [0, 1).  When the
    adjustment of a route raises (an OverflowError for a time beyond the
    range of a double), the pass raises the same exception and marks
    nothing. *)
Theorem ranking_recommends_fastest (self : TrainDataProcessor) (w : world) :
  alternative_routes self <> [] ->
  NoDup (alternative_routes self) ->
  (forall out w',
     optimize_routes self w = (Ok out, w') ->
     exists best rest w_adjusted,
       let adjusted l := additional_time_minutes (heap w' l) in
       out = best :: rest
       /\ for_each (alternative_routes self) adjust_route w = (Ok tt, w_adjusted)
       /\ (forall l, adjusted l = additional_time_minutes (heap w_adjusted l))
       /\ best :: rest ≡ₚ alternative_routes self
       /\ StronglySorted (fun a b => adjusted a <= adjusted b) (best :: rest)
       /\ recommended (heap w' best) = true
       /\ (forall l, l ∈ rest -> recommended (heap w' l) = false)
       /\ (forall l, l ∈ alternative_routes self -> adjusted best <= adjusted l)
       /\ (exists pre post,
             alternative_routes self = pre ++ best :: post
             /\ forall l, l ∈ pre -> adjusted best < adjusted l)
       /\ (forall v,
             List.filter (fun l => adjusted l =? v) (best :: rest)
             = List.filter (fun l => adjusted l =? v) (alternative_routes self)))
  /\ ((forall l, l ∈ alternative_routes self ->
                 Z.abs (additional_time_minutes (heap w l)) < 2 ^ 1000) ->
      (forall n, in_unit_interval (PyDouble.of_Q (rand w n)) = true) ->
      exists out w', optimize_routes self w = (Ok out, w'))
  /\ (forall e w',
        for_each (alternative_routes self) adjust_route w = (Raise e, w') ->
        optimize_routes self w = (Raise e, w')
        /\ forall l, recommended (heap w' l) = recommended (heap w l)).
Proof.
  intros Hne Hnd. split; [|split].
  - intros out w3 (w1 & w2 & Hadj & Hsort & Hclear & _ & _ & _ & _ & Hheap)%optimize_inv.
    set (key := fun l => additional_time_minutes (heap w1 l)) in *.
    destruct out as [|best rest].
    { exfalso. apply Hne. apply Permutation_nil.
      by rewrite Hsort, (sort_by_perm Z.ltb key). }
    assert (best :: rest ≡ₚ alternative_routes self) as Hperm
      by (by rewrite Hsort, (sort_by_perm Z.ltb key)).
    destruct (clear_loop_run (best :: rest) w1) as (w2' & Hclear' & _ & _ & _ & _ & Hh2).
    rewrite Hclear in Hclear'. injection Hclear' as <-.
    assert (forall l, additional_time_minutes (heap w3 l) = key l) as Hkey.
    { intros l. unfold key. rewrite Hheap.
      destruct (decide (best = l)) as [->|Hbl].
      - rewrite fn_lookup_alter, Hh2. by destruct (decide _).
      - rewrite fn_lookup_alter_ne, Hh2 by done. by destruct (decide _). }
    exists best, rest, w1. cbv zeta.
    split; [done|]. split; [done|]. split; [done|]. split; [done|].
    pose proof (sort_by_sorted Z.ltb Z.le key Z_ltb_le Z_nltb_le Z.le_trans
                  (alternative_routes self)) as Hsorted.
    rewrite <- Hsort in Hsorted.
    split.
    { eapply (Sorting.Sorted.StronglySorted_ind
                (fun l => StronglySorted
                            (fun a b => additional_time_minutes (heap w3 a)
                                        <= additional_time_minutes (heap w3 b)) l));
        [constructor| |exact Hsorted].
      intros a l _ IH Ha. constructor; [exact IH|].
      eapply Forall_impl; [exact Ha|]. intros b Hb. by rewrite !Hkey. }
    split; [by rewrite Hheap, fn_lookup_alter|].
    split.
    { intros l Hl. rewrite <- Hperm in Hnd. apply NoDup_cons in Hnd as [Hfresh _].
      rewrite Hheap, fn_lookup_alter_ne by (intros ->; done).
      rewrite Hh2, decide_True by (by right). done. }
    split.
    { intros l Hl. rewrite <- Hperm in Hl. rewrite !Hkey.
      apply StronglySorted_cons in Hsorted as [Hall _].
      apply elem_of_cons in Hl as [->|Hl]; [lia|].
      rewrite Forall_forall in Hall. by apply Hall. }
    split.
    { destruct (sort_by_head Z.ltb Z.le key Z_ltb_le Z_nltb_le Z.le_trans _ _ _
                  (eq_sym Hsort)) as (pre & post & Heq & Hpre & _).
      exists pre, post. split; [done|].
      intros l Hl. rewrite !Hkey. rewrite Forall_forall in Hpre.
      by apply Z.ltb_lt, Hpre. }
    intros v. rewrite Hsort.
    rewrite (List.filter_ext _ (fun l => (fun k => k =? v) (key l)))
      by (intros l; by rewrite Hkey).
    rewrite (List.filter_ext (fun l => additional_time_minutes (heap w3 l) =? v)
                             (fun l => (fun k => k =? v) (key l)))
      by (intros l; by rewrite Hkey).
    apply (sort_by_stable Z.ltb key (fun k => k =? v)).
    intros a b Hlt Ha Hb. apply Z.ltb_lt in Hlt. apply Z.eqb_eq in Ha, Hb. lia.
  - intros Htime Hrand.
    destruct (adjust_loop_total _ w Hnd Htime Hrand) as [w1 Hadj].
    by eapply optimize_returns.
  - intros e w' Hadj. split; [by apply optimize_raises|].
    by destruct (adjust_loop_frame _ _ _ _ Hadj) as (_ & Hrec & _).
Qed.

Lemma ranking_recommends_fastest_witness :
  exists best rest w',
    optimize_routes Sample.processor
      (Sample.frozen (Sample.at_time 12 0 0) (1 # 2)) = (Ok (best :: rest), w')
    /\ recommended (heap w' best) = true
    /\ (forall l, l ∈ rest -> recommended (heap w' l) = false)
    /\ (forall l, l ∈ alternative_routes Sample.processor ->
          additional_time_minutes (heap w' best) <= additional_time_minutes (heap w' l)).
Proof.
  destruct (ranking_recommends_fastest Sample.processor
              (Sample.frozen (Sample.at_time 12 0 0) (1 # 2)))
    as (Hranked & Hreturns & _).
  { discriminate. }
  { apply (bool_decide_unpack _). vm_compute. exact I. }
  destruct Hreturns as (out & w' & Hrun).
  { intros l _. destruct l as [|[|[|l]]]; vm_compute; reflexivity. }
  { intros n. vm_compute. reflexivity. }
  destruct (Hranked out w' Hrun)
    as (best & rest & w1 & -> & _ & _ & _ & _ & Hbest & Hrest & Hmin & _ & _).
  exists best, rest, w'. split; [exact Hrun|]. split; [exact Hbest|].
  split; [exact Hrest|exact Hmin].
Defined.

(** C2 as stated fails: a list that holds one route whose time is beyond the
    range of a double is not empty, and the pass raises an OverflowError
    without marking a route; and when the list holds the same route twice,
    both entries of the returned list are recommended. *)
Lemma ranking_marks_none_or_two_counterexample :
  alternative_routes single_route <> []
  /\ (optimize_routes single_route
        (lone_route (route_taking (2 ^ 1100) "low") (Sample.at_time 12 0 0) (1 # 2))).1
     = Raise OverflowError
  /\ exists w',
       optimize_routes twice_listed (at_clock 12 0) = (Ok [3; 3]%nat, w')
       /\ Forall (fun l => recommended (heap w' l) = true) [3; 3]%nat.
Proof.
  split; [discriminate|]. split; [vm_compute; reflexivity|].
  eexists. split; [vm_compute; reflexivity|].
  repeat constructor.
Qed.

(** C3 fails on the code.  [optimize_routes] copies the list of references
    and then writes to the objects, which are those of the canonical list:
    one call at 08:20 changes additional_time_minutes and traffic_level of
    the canonical routes, and a second call compounds the change. *)
Lemma canonical_routes_mutated :
  exists out1 w1 out2 w2,
    optimize_routes Sample.processor
      (Sample.frozen (Sample.at_time 8 20 0) (1 # 2)) = (Ok out1, w1)
    /\ optimize_routes Sample.processor w1 = (Ok out2, w2)
    /\ map (fun l => (additional_time_minutes (Sample.routes_heap l),
                      traffic_level (Sample.routes_heap l),
                      recommended (Sample.routes_heap l)))
           (alternative_routes Sample.processor)
       = [(15, "medium", false); (12, "high", false);
          (18, "low", false); (8, "low", true)]
    /\ map (fun l => (additional_time_minutes (heap w1 l),
                      traffic_level (heap w1 l), recommended (heap w1 l)))
           (alternative_routes Sample.processor)
       = [(17, "high", false); (18, "high", false);
          (17, "medium", false); (7, "medium", true)]
    /\ map (fun l => (additional_time_minutes (heap w2 l),
                      traffic_level (heap w2 l), recommended (heap w2 l)))
           (alternative_routes Sample.processor)
       = [(25, "high", false); (27, "high", false);
          (19, "high", false); (8, "high", true)].
Proof.
  eexists _, _, _, _.
  split; [vm_compute; reflexivity|].
  split; [vm_compute; reflexivity|].
  split; [reflexivity|].
  split; vm_compute; reflexivity.
Qed.

(** * Further properties of the pipeline *)

(** ** The closure schedule as a function of the records *)

Lemma closure_instants_Ok_inv (t : datetime) (h m d : Z) (a s e : datetime) :
  closure_instants t h m d = Ok (a, s, e) ->
  0 <= h <= 23 /\ 0 <= m <= 59
  /\ a = midnight t + (60 * h + m) * US_PER_MINUTE
  /\ s = a - 5 * US_PER_MINUTE
  /\ e = a + d * US_PER_MINUTE.
Proof.
  unfold closure_instants.
  destruct (replace_hm t h m) as [a0|] eqn:Hrep; [|discriminate].
  apply replace_hm_Ok_inv in Hrep as (Hh & Hm & ->). cbn [rbind].
  replace (timedelta_minutes 5) with (Ok (A:=timedelta) (5 * US_PER_MINUTE))
    by (vm_compute; reflexivity).
  cbn [rbind]. unfold sub, add, checked.
  destruct (in_range _); [|discriminate]. cbn [rbind].
  unfold timedelta_minutes. cbv zeta.
  destruct (_ && _); [|discriminate]. cbn [rbind].
  destruct (in_range _); [|discriminate].
  intros [= <- <- <-]. done.
Qed.

Lemma closure_of_Ok_inv (train : TrainSchedule) (w w' : world) (c : Closure) :
  closure_of train w = (Ok c, w') ->
  c = parsed_window train /\ w' = advance 1 w.
Proof.
  unfold closure_of, parsed_window, bind, lift.
  destruct (parse_arrival (arrival_time train)) as [[h m]|]; [|discriminate].
  rewrite now_run. cbn [fst snd].
  destruct (closure_instants _ h m _) as [[[a s] e]|] eqn:Hi; [|discriminate].
  apply closure_instants_Ok_inv in Hi as (_ & _ & -> & -> & ->).
  unfold ret. intros [= <- <-]. split; [|done].
  unfold closure_window. cbn [fst snd]. f_equal.
  - rewrite <- strftime_offset with (t := clock w (ticks w)). f_equal. us_consts. lia.
  - rewrite <- strftime_offset with (t := clock w (ticks w)). f_equal. us_consts. lia.
Qed.

Lemma collect_closures_inv (trains : list TrainSchedule) (w w' : world)
    (cs : list Closure) :
  collect trains closure_of w = (Ok cs, w') ->
  cs = map parsed_window trains /\ w' = advance (length trains) w.
Proof.
  revert w w' cs. induction trains as [|train trains IH]; intros w w' cs; cbn [collect].
  - unfold ret. intros [= <- <-]. split; [done|]. unfold advance. by destruct w.
  - unfold bind at 1.
    destruct (closure_of train w) as [[c|] w1] eqn:Hc; [|discriminate].
    apply closure_of_Ok_inv in Hc as [-> ->].
    unfold bind at 1.
    destruct (collect trains closure_of _) as [[cs'|] w2] eqn:Hcs; [|discriminate].
    apply IH in Hcs as [-> ->]. unfold ret. intros [= <- <-].
    split; [done|]. rewrite advance_advance. cbn [length]. f_equal. lia.
Qed.

Lemma calculate_inv (self : TrainDataProcessor) (w w' : world) (out : list Closure) :
  calculate_gate_closure_schedule self w = (Ok out, w') ->
  out = sort_by String.ltb closure_start (map parsed_window (sample_trains self))
  /\ w' = advance (length (sample_trains self)) w.
Proof.
  unfold calculate_gate_closure_schedule, bind.
  destruct (collect _ _ w) as [[cs|] w1] eqn:Hcs; [|discriminate].
  apply collect_closures_inv in Hcs as [-> ->].
  unfold ret. by intros [= <- <-].
Qed.

(** X1. Whenever the calculator returns, its schedule is a function of the
    train records alone: two runs on the same records give the same schedule
    whatever the clock, the generator and the routes are; and a run only
    reads the clock, once per record. *)
Theorem closure_schedule_ignores_the_world (self : TrainDataProcessor)
    (w1 w2 w1' w2' : world) (out1 out2 : list Closure) :
  calculate_gate_closure_schedule self w1 = (Ok out1, w1') ->
  calculate_gate_closure_schedule self w2 = (Ok out2, w2') ->
  out1 = out2
  /\ clock w1' = clock w1 /\ rand w1' = rand w1 /\ draws w1' = draws w1
  /\ heap w1' = heap w1
  /\ ticks w1' = (length (sample_trains self) + ticks w1)%nat.
Proof.
  intros [-> ->]%calculate_inv [-> ->]%calculate_inv. done.
Qed.

Lemma closure_schedule_ignores_the_world_witness :
  exists out w1' w2',
    calculate_gate_closure_schedule Sample.processor
      (at_clock 3 0) = (Ok out, w1')
    /\ calculate_gate_closure_schedule Sample.processor
         (Sample.frozen (Sample.at_time 22 0 0) (1 # 3)) = (Ok out, w2')
    /\ ticks w1' = 5%nat.
Proof.
  pose proof (calculate_run Sample.processor
                (at_clock 3 0)) as Hrun1.
  pose proof (calculate_run Sample.processor
                (Sample.frozen (Sample.at_time 22 0 0) (1 # 3))) as Hrun2.
  specialize (Hrun1 ltac:(sample_schedulable)).
  specialize (Hrun2 ltac:(sample_schedulable)).
  destruct (closure_schedule_ignores_the_world _ _ _ _ _ _ _ Hrun1 Hrun2)
    as (Heq & _ & _ & _ & _ & Hticks).
  eexists _, _, _. split; [exact Hrun1|]. split; [exact Hrun2|].
  exact Hticks.
Defined.

Lemma parsed_window_fields (train : TrainSchedule) :
  c_train_number (parsed_window train) = train_number train
  /\ c_priority (parsed_window train) = priority train
  /\ c_platform (parsed_window train) = platform train
  /\ duration_minutes (parsed_window train) = gate_closure_duration train + 5.
Proof.
  unfold parsed_window.
  by destruct (parse_arrival (arrival_time train)) as [[h m]|].
Qed.

(** X2. A returned schedule has exactly one window per record: its train
    numbers are those of the records, up to order, and every window carries
    the train number, priority and platform of one record, with that
    record's gate_closure_duration + 5 as its duration. *)
Theorem closure_schedule_one_window_per_record (self : TrainDataProcessor)
    (w w' : world) (out : list Closure) :
  calculate_gate_closure_schedule self w = (Ok out, w') ->
  map c_train_number out ≡ₚ map train_number (sample_trains self)
  /\ Forall (fun c =>
               exists train,
                 train ∈ sample_trains self
                 /\ c_train_number c = train_number train
                 /\ c_priority c = priority train
                 /\ c_platform c = platform train
                 /\ duration_minutes c = gate_closure_duration train + 5) out.
Proof.
  intros [-> _]%calculate_inv. split.
  - rewrite (sort_by_perm String.ltb closure_start), map_map.
    erewrite map_ext; [reflexivity|]. intros train.
    apply parsed_window_fields.
  - apply Forall_forall. intros c Hc.
    rewrite (sort_by_perm String.ltb closure_start) in Hc.
    apply list_elem_of_fmap in Hc as (train & -> & Ht).
    exists train. split; [done|]. apply parsed_window_fields.
Qed.

Lemma closure_schedule_one_window_per_record_witness :
  exists out w',
    calculate_gate_closure_schedule Sample.processor
      (at_clock 12 0) = (Ok out, w')
    /\ map c_train_number out
       ≡ₚ ["EXP-12345"; "LOC-67890"; "FRT-11111"; "EXP-22222"; "PSG-33333"].
Proof.
  pose proof (calculate_run Sample.processor
                (at_clock 12 0)
                ltac:(sample_schedulable)) as Hrun.
  eexists _, _. split; [exact Hrun|].
  exact (proj1 (closure_schedule_one_window_per_record _ _ _ _ Hrun)).
Defined.

Lemma string_ltb_irrefl (s : string) : String.ltb s s = false.
Proof.
  unfold String.ltb. pose proof (String.compare_antisym s s) as H.
  by destruct (String.compare s s).
Qed.

(** X3. The sort of the schedule is stable: windows with the same
    closure_start come out in the order of their records. *)
Theorem closure_schedule_stable (self : TrainDataProcessor)
    (w w' : world) (out : list Closure) (start : string) :
  calculate_gate_closure_schedule self w = (Ok out, w') ->
  List.filter (fun c => String.eqb (closure_start c) start) out
  = List.filter (fun c => String.eqb (closure_start c) start)
                (map parsed_window (sample_trains self)).
Proof.
  intros [-> _]%calculate_inv.
  apply (sort_by_stable String.ltb closure_start (fun k => String.eqb k start)).
  intros a b Hlt Ha%String.eqb_eq Hb%String.eqb_eq. subst.
  by rewrite string_ltb_irrefl in Hlt.
Qed.

Lemma closure_schedule_stable_witness :
  exists out w',
    calculate_gate_closure_schedule
      (Sample.processor_of [Sample.LOC_67890; Sample.EXP_12345;
                            DUP_00001])
      (at_clock 12 0) = (Ok out, w')
    /\ map c_train_number
           (List.filter (fun c => String.eqb (closure_start c) "14:40") out)
       = ["LOC-67890"; "DUP-00001"].
Proof.
  pose proof (calculate_run
                (Sample.processor_of [Sample.LOC_67890; Sample.EXP_12345;
                   DUP_00001])
                (at_clock 12 0)
                ltac:(sample_schedulable)) as Hrun.
  eexists _, _. split; [exact Hrun|].
  rewrite (closure_schedule_stable _ _ _ _ "14:40" Hrun).
  vm_compute. reflexivity.
Defined.

(** ** Failures of the closure schedule *)





Lemma split_length (sep : ascii) (s : string) :
  length (PyStr.split sep s) = S (occurrences sep s).
Proof.
  induction s as [|c s IH]; cbn [PyStr.split occurrences]; [done|].
  destruct (Ascii.eqb c sep); cbn [length]; [by rewrite IH|].
  destruct (PyStr.split sep s) as [|x r]; cbn [length] in *; lia.
Qed.

(** X5. An arrival time that does not hold exactly one colon, such as a time
    with seconds or a time without separator, is rejected with a ValueError,
    and a batch that holds such a record has no schedule. *)
Theorem arrival_needs_one_colon (self : TrainDataProcessor) (w : world)
    (train : TrainSchedule) :
  occurrences ":" (arrival_time train) <> 1%nat ->
  parse_arrival (arrival_time train) = Raise ValueError
  /\ (train ∈ sample_trains self ->
      exists e w', calculate_gate_closure_schedule self w = (Raise e, w')).
Proof.
  intros Hcolons.
  assert (parse_arrival (arrival_time train) = Raise ValueError) as Hparse.
  { unfold parse_arrival. pose proof (split_length ":" (arrival_time train)) as Hlen.
    destruct (PyStr.split ":" (arrival_time train)) as [|a [|b [|]]]; try done.
    cbn [length] in Hlen. lia. }
  split; [done|]. intros Hin.
  destruct (collect_raise closure_of (sample_trains self) train w Hin) as (e & w' & Hr).
  { intros w0. apply closure_of_unreadable. unfold unreadable. by rewrite Hparse. }
  exists e, w'. unfold calculate_gate_closure_schedule, bind. by rewrite Hr.
Qed.

Lemma arrival_needs_one_colon_witness :
  parse_arrival "14:30:00" = Raise ValueError
  /\ exists e w',
       calculate_gate_closure_schedule
         (Sample.processor_of
            [Sample.EXP_12345;
             SEC_00001])
         (at_clock 12 0) = (Raise e, w').
Proof.
  destruct (arrival_needs_one_colon
              (Sample.processor_of
                 [Sample.EXP_12345;
                  SEC_00001])
              (at_clock 12 0)
              SEC_00001) as [Hparse Hrun].
  { vm_compute. discriminate. }
  split; [exact Hparse|]. apply Hrun. do 2 constructor.
Defined.

(** X6. The arrival time need not be zero-padded: the plain decimal
    renderings of an hour of 0..23 and a minute of 0..59, with or without
    blanks around them, are read as that hour and minute, and the record gets
    the window of the padded time. *)
Theorem unpadded_arrival_accepted (train : TrainSchedule) (w : world) (h m : Z) :
  0 <= h <= 23 -> 0 <= m <= 59 ->
  arrival_time train = pretty h +:+ ":" +:+ pretty m
  \/ arrival_time train = " " +:+ pretty h +:+ " : " +:+ pretty m +:+ " " ->
  window_in_range (clock w (ticks w)) h m (gate_closure_duration train) = true ->
  parse_arrival (arrival_time train) = Ok (h, m)
  /\ closure_of train w = (Ok (closure_window train h m), advance 1 w).
Proof.
  intros Hh Hm Hform Hfit.
  assert (parse_arrival (arrival_time train) = Ok (h, m)) as Hparse.
  { pose (P := fun h m =>
      bool_decide (parse_arrival (pretty h +:+ ":" +:+ pretty m) = Ok (h, m))
      && bool_decide (parse_arrival (" " +:+ pretty h +:+ " : " +:+ pretty m +:+ " ")
                      = Ok (h, m))).
    assert (P h m = true) as HP.
    { apply (forallb_range2 P 24 60); [vm_compute; reflexivity|lia|lia]. }
    apply andb_true_iff in HP as [H1%bool_decide_eq_true H2%bool_decide_eq_true].
    by destruct Hform as [-> | ->]. }
  split; [done|]. by apply closure_of_ok.
Qed.

Lemma unpadded_arrival_accepted_witness :
  parse_arrival "7:5" = Ok (7, 5)
  /\ closure_of Sample.LAX_00000 (at_clock 12 0)
     = (Ok (closure_window Sample.LAX_00000 7 5),
        advance 1 (at_clock 12 0)).
Proof.
  apply (unpadded_arrival_accepted Sample.LAX_00000
           (at_clock 12 0) 7 5).
  - lia.
  - lia.
  - left. reflexivity.
  - vm_compute. reflexivity.
Defined.

(** ** Windows around midnight *)

(** X7. For a train that arrives in the first five minutes of the day the
    closure starts on the previous day, and the window only keeps "23:55" to
    "23:59": the instant that the predictor rebuilds from it lies 23 hours
    and 55 minutes after the arrival on that date, not 5 minutes before. *)
Theorem early_arrival_wraps (train : TrainSchedule) (w : world) (m : Z) :
  hhmm_value (arrival_time train) = Some (0, m) ->
  m < 5 ->
  window_in_range (clock w (ticks w)) 0 m (gate_closure_duration train) = true ->
  exists c,
    closure_of train w = (Ok c, advance 1 w)
    /\ closure_start c = hhmm 23 (55 + m)
    /\ forall current_time arrival,
         replace_hm current_time 0 m = Ok arrival ->
         closure_start_instant current_time c = Ok (arrival + 1435 * US_PER_MINUTE).
Proof.
  intros Hv Hm5 Hfit.
  destruct (hhmm_value_spec _ _ _ Hv) as (_ & Hm & Hs).
  exists (closure_window train 0 m).
  split.
  { apply closure_of_ok; [|lia|done|done]. rewrite Hs. apply hhmm_readback; lia. }
  assert (clock_string (60 * 0 + m - 5) = hhmm 23 (55 + m)) as Hstart.
  { unfold clock_string.
    replace ((60 * 0 + m - 5) / 60) with (-1) by (apply Z.div_unique with (m + 55); lia).
    replace ((60 * 0 + m - 5) mod 60) with (55 + m)
      by (apply Z.mod_unique with (-1); lia).
    done. }
  cbn [closure_window closure_start]. split; [done|].
  intros current_time arrival Harr.
  apply replace_hm_Ok_inv in Harr as (_ & _ & ->).
  unfold closure_start_instant. cbn [closure_window closure_start]. rewrite Hstart.
  destruct (hhmm_readback 23 (55 + m)) as (_ & -> & _); [lia|lia|].
  cbn [rbind fst snd]. rewrite replace_hm_ok by lia. f_equal. us_consts. lia.
Qed.

Lemma early_arrival_wraps_witness :
  exists c,
    closure_of NGT_00002
      (at_clock 12 0)
    = (Ok c, advance 1 (at_clock 12 0))
    /\ closure_start c = "23:57".
Proof.
  destruct (early_arrival_wraps
              NGT_00002
              (at_clock 12 0) 2)
    as (c & Hrun & Hstart & _).
  - reflexivity.
  - lia.
  - vm_compute. reflexivity.
  - exists c. split; [exact Hrun|]. rewrite Hstart. reflexivity.
Defined.

(** ** Wait-time predictions in general *)

Lemma parsed_window_readable (current_time : datetime) (train : TrainSchedule) :
  exists s,
    closure_start_instant current_time (parsed_window train) = Ok s
    /\ midnight current_time <= s < midnight current_time + US_PER_DAY.
Proof.
  assert (exists k, closure_start (parsed_window train) = clock_string k) as [k Hk].
  { unfold parsed_window.
    destruct (parse_arrival (arrival_time train)) as [[h m]|]; by eexists. }
  destruct (clock_string_hhmm k) as (h & m & Hh & Hm & Hhm).
  unfold closure_start_instant. rewrite Hk, Hhm.
  destruct (hhmm_readback h m Hh Hm) as (_ & -> & _). cbn [rbind fst snd].
  rewrite replace_hm_ok by done. eexists. split; [done|]. us_consts. lia.
Qed.

Lemma schedule_readable (current_time : datetime) (trains : list TrainSchedule) :
  Forall (fun c => exists s, closure_start_instant current_time c = Ok s)
         (sort_by String.ltb closure_start (map parsed_window trains)).
Proof.
  apply Forall_forall. intros c Hc.
  rewrite (sort_by_perm String.ltb closure_start) in Hc.
  apply list_elem_of_fmap in Hc as (train & -> & _).
  destruct (parsed_window_readable current_time train) as (s & Hs & _). eauto.
Qed.

(** The dictionary after the loop: for each key, the entry of the last
    upcoming window of that train number. *)
Lemma fold_predict_last (current_time : datetime) (cs : list Closure)
    (d0 : gmap string WaitPrediction) :
  Forall (fun c => exists s, closure_start_instant current_time c = Ok s) cs ->
  exists d,
    fold_result (predict_one current_time) cs d0 = Ok d
    /\ forall k,
         d !! k
         = match last (List.filter (upcoming current_time k) cs) with
           | Some c => Some (prediction_for current_time (start_of current_time c) c)
           | None => d0 !! k
           end.
Proof.
  revert d0. induction cs as [|c cs IH]; intros d0 Hall.
  - exists d0. by split.
  - apply Forall_cons in Hall as [[s0 Hs0] Hall].
    cbn [fold_result]. rewrite (predict_one_run _ s0) by done. cbn [rbind].
    destruct (IH (if s0 >? current_time
                  then <[c_train_number c := prediction_for current_time s0 c]> d0
                  else d0) Hall) as (d & Hrun & Hd).
    exists d. split; [done|]. intros k. rewrite Hd. cbn [List.filter].
    unfold upcoming at 2, start_of at 2. rewrite Hs0.
    destruct (String.eqb_spec (c_train_number c) k) as [->|Hne]; cbn [andb].
    + destruct (s0 >? current_time) eqn:Hfut.
      * rewrite last_cons. destruct (last _); [done|].
        unfold start_of. by rewrite Hs0, lookup_insert_eq.
      * done.
    + destruct (last _); [done|].
      destruct (s0 >? current_time); [by rewrite lookup_insert_ne|done].
Qed.

Lemma predict_run_general (self : TrainDataProcessor) (w w' : world)
    (schedule : list Closure) :
  calculate_gate_closure_schedule self (advance 1 w) = (Ok schedule, w') ->
  exists predictions,
    predict_wait_times self w = (Ok predictions, w')
    /\ forall k,
         predictions !! k
         = (fun c => prediction_for (clock w (ticks w))
                                    (start_of (clock w (ticks w)) c) c)
             <$> last (List.filter (upcoming (clock w (ticks w)) k) schedule).
Proof.
  intros Hcalc. pose proof Hcalc as [-> _]%calculate_inv.
  destruct (fold_predict_last (clock w (ticks w)) _ ∅
              (schedule_readable (clock w (ticks w)) (sample_trains self)))
    as (d & Hfold & Hd).
  exists d. split.
  - unfold predict_wait_times, bind. rewrite now_run, Hcalc. unfold lift.
    by rewrite Hfold.
  - intros k. rewrite Hd, lookup_empty. by destruct (last _).
Qed.

Lemma predict_inv (self : TrainDataProcessor) (w w' : world)
    (predictions : gmap string WaitPrediction) :
  predict_wait_times self w = (Ok predictions, w') ->
  exists schedule,
    calculate_gate_closure_schedule self (advance 1 w) = (Ok schedule, w')
    /\ forall k,
         predictions !! k
         = (fun c => prediction_for (clock w (ticks w))
                                    (start_of (clock w (ticks w)) c) c)
             <$> last (List.filter (upcoming (clock w (ticks w)) k) schedule).
Proof.
  intros Hrun.
  destruct (calculate_gate_closure_schedule self (advance 1 w))
    as [[schedule|e] w1] eqn:Hcalc.
  - destruct (predict_run_general _ _ _ _ Hcalc) as (d & Hd & Hlook).
    rewrite Hd in Hrun. injection Hrun as <- <-. eauto.
  - unfold predict_wait_times, bind in Hrun. rewrite now_run, Hcalc in Hrun.
    discriminate Hrun.
Qed.

(** X8. The predictor adds no failure of its own: every closure_start that
    the calculator writes is read back, so the predictor returns whenever
    the calculator does, in the same world, and otherwise raises the
    calculator's exception. *)
Theorem predictions_fail_only_with_schedule (self : TrainDataProcessor) (w : world) :
  (forall schedule w',
     calculate_gate_closure_schedule self (advance 1 w) = (Ok schedule, w') ->
     exists predictions, predict_wait_times self w = (Ok predictions, w'))
  /\ (forall e w',
        calculate_gate_closure_schedule self (advance 1 w) = (Raise e, w') ->
        predict_wait_times self w = (Raise e, w')).
Proof.
  split.
  - intros schedule w' Hcalc.
    destruct (predict_run_general _ _ _ _ Hcalc) as (d & Hd & _). eauto.
  - intros e w' Hcalc. unfold predict_wait_times, bind.
    by rewrite now_run, Hcalc.
Qed.

Lemma predictions_fail_only_with_schedule_witness :
  (exists predictions w',
     predict_wait_times Sample.processor
       (at_clock 12 0) = (Ok predictions, w'))
  /\ exists w',
       predict_wait_times
         (Sample.processor_of [Sample.EXP_12345; Sample.BAD_00000])
         (at_clock 12 0) = (Raise ValueError, w').
Proof.
  split.
  - destruct (predictions_fail_only_with_schedule Sample.processor
                (at_clock 12 0)) as [Hok _].
    edestruct Hok as [predictions Hrun].
    { apply calculate_run. sample_schedulable. }
    eexists _, _. exact Hrun.
  - destruct (predictions_fail_only_with_schedule
                (Sample.processor_of [Sample.EXP_12345; Sample.BAD_00000])
                (at_clock 12 0)) as [_ Hraise].
    eexists. apply Hraise. vm_compute. reflexivity.
Defined.

Lemma filter_elem_of {A} (f : A -> bool) (l : list A) (x : A) :
  x ∈ List.filter f l -> x ∈ l /\ f x = true.
Proof. rewrite !list_elem_of_In. apply List.filter_In. Qed.

Lemma prediction_entry_origin (self : TrainDataProcessor) (w w' : world)
    (predictions : gmap string WaitPrediction) (k : string) (p : WaitPrediction) :
  predict_wait_times self w = (Ok predictions, w') ->
  predictions !! k = Some p ->
  exists train s,
    train ∈ sample_trains self
    /\ train_number train = k
    /\ closure_start_instant (clock w (ticks w)) (parsed_window train) = Ok s
    /\ clock w (ticks w) < s < midnight (clock w (ticks w)) + US_PER_DAY
    /\ p = prediction_for (clock w (ticks w)) s (parsed_window train).
Proof.
  intros Hrun Hp.
  destruct (predict_inv _ _ _ _ Hrun) as (schedule & Hcalc & Hlook).
  apply calculate_inv in Hcalc as [-> _].
  rewrite Hlook in Hp.
  destruct (last _) as [c|] eqn:Hlast; [|discriminate]. injection Hp as <-.
  apply last_Some_elem_of, filter_elem_of in Hlast as [Hc Hup].
  rewrite (sort_by_perm String.ltb closure_start) in Hc.
  apply list_elem_of_fmap in Hc as (train & -> & Ht).
  apply andb_true_iff in Hup as [Hk%String.eqb_eq Hfut%Z.gtb_lt].
  destruct (parsed_window_readable (clock w (ticks w)) train) as (s & Hs & Hday).
  unfold start_of in *. rewrite Hs in *.
  exists train, s. split; [done|]. split.
  { rewrite <- Hk. symmetry. apply parsed_window_fields. }
  split; [done|]. split; [lia|done].
Qed.

(** X9. Every entry of the predictions belongs to a train of the batch, has
    minutes_until_closure between 0 and 1439 (the rebuilt start is on the
    date of [now]), repeats that train's gate_closure_duration + 5 as
    closure_duration and as total_wait_if_caught, and carries the
    recommendation computed from these two numbers. *)
Theorem prediction_entries_bounded (self : TrainDataProcessor) (w w' : world)
    (predictions : gmap string WaitPrediction) (k : string) (p : WaitPrediction) :
  predict_wait_times self w = (Ok predictions, w') ->
  predictions !! k = Some p ->
  0 <= minutes_until_closure p < 1440
  /\ total_wait_if_caught p = closure_duration p
  /\ recommended_action p
     = _get_wait_recommendation (minutes_until_closure p) (closure_duration p)
  /\ exists train,
       train ∈ sample_trains self
       /\ train_number train = k
       /\ closure_duration p = gate_closure_duration train + 5.
Proof.
  intros Hrun Hp.
  destruct (prediction_entry_origin _ _ _ _ _ _ Hrun Hp)
    as (train & s & Ht & Hk & Hs & Hfut & ->).
  cbn [prediction_for minutes_until_closure total_wait_if_caught closure_duration
       recommended_action].
  split.
  { destruct (midnight_spec (clock w (ticks w))) as (_ & _ & Hnow).
    rewrite Z.quot_div_nonneg by (us_consts; lia). us_consts. split.
    - apply Z.div_pos; lia.
    - apply Z.div_lt_upper_bound; lia. }
  split; [done|]. split; [done|].
  exists train. split; [done|]. split; [done|]. apply parsed_window_fields.
Qed.

Lemma prediction_entries_bounded_witness :
  exists predictions w' p,
    predict_wait_times Sample.processor
      (at_clock 12 0) = (Ok predictions, w')
    /\ predictions !! "FRT-11111" = Some p
    /\ 0 <= minutes_until_closure p < 1440.
Proof.
  destruct (predict_run_general Sample.processor
              (at_clock 12 0) _ _
              (calculate_run Sample.processor
                 (advance 1 (at_clock 12 0))
                 ltac:(sample_schedulable)))
    as (predictions & Hrun & Hlook).
  eexists predictions, _, _. split; [exact Hrun|].
  assert (predictions !! "FRT-11111"
          = Some (prediction_for (Sample.at_time 12 0 0) (Sample.at_time 15 10 0)
                                 (window_of Sample.FRT_11111))) as Hp.
  { rewrite Hlook. vm_compute. reflexivity. }
  split; [exact Hp|].
  exact (proj1 (prediction_entries_bounded _ _ _ _ _ _ Hrun Hp)).
Defined.

(** X10. Train numbers need not be distinct: the dictionary then keeps, for
    each number, the entry of the last window of the schedule that has this
    number and lies ahead; earlier windows of the same number are
    overwritten. *)
Theorem duplicate_train_numbers_last_wins (self : TrainDataProcessor) (w w' : world)
    (predictions : gmap string WaitPrediction) :
  predict_wait_times self w = (Ok predictions, w') ->
  exists schedule,
    let current_time := clock w (ticks w) in
    calculate_gate_closure_schedule self (advance 1 w) = (Ok schedule, w')
    /\ forall k,
         predictions !! k
         = (fun c => prediction_for current_time (start_of current_time c) c)
             <$> last (List.filter (upcoming current_time k) schedule).
Proof. apply predict_inv. Qed.

Lemma duplicate_train_numbers_last_wins_witness :
  exists predictions w' p,
    predict_wait_times
      duplicate_numbers
      (at_clock 12 0) = (Ok predictions, w')
    /\ predictions !! "DUP-00002" = Some p
    /\ minutes_until_closure p = 175 /\ closure_duration p = 13.
Proof.
  destruct (predict_run_general
              duplicate_numbers
              (at_clock 12 0) _ _
              (calculate_run duplicate_numbers
                 (advance 1 (at_clock 12 0))
                 ltac:(sample_schedulable)))
    as (predictions & Hrun & _).
  destruct (duplicate_train_numbers_last_wins _ _ _ _ Hrun) as (schedule & Hcalc & Hlook).
  vm_compute in Hcalc. injection Hcalc as <-.
  eexists predictions, _, _. split; [exact Hrun|].
  split; [rewrite Hlook; vm_compute; reflexivity|].
  split; reflexivity.
Defined.

(** X11. A train whose gate_closure_duration exceeds 5 minutes, as the
    default of 8 does, is never told to proceed: its window lasts more than
    10 minutes, so the action is STOP, CAUTION or PLAN. *)
Theorem long_closures_never_proceed (self : TrainDataProcessor) (w w' : world)
    (predictions : gmap string WaitPrediction) (k : string) (p : WaitPrediction) :
  Forall (fun train => 5 < gate_closure_duration train) (sample_trains self) ->
  predict_wait_times self w = (Ok predictions, w') ->
  predictions !! k = Some p ->
  recommended_action p = "STOP - Gate closing very soon"
  \/ recommended_action p = "CAUTION - Consider alternative route"
  \/ recommended_action p = "PLAN - Long closure expected, use alternative route".
Proof.
  intros Hlong Hrun Hp.
  destruct (prediction_entry_origin _ _ _ _ _ _ Hrun Hp)
    as (train & s & Ht & Hk & Hs & Hfut & ->).
  rewrite Forall_forall in Hlong. specialize (Hlong train Ht).
  cbn [prediction_for recommended_action].
  destruct (parsed_window_fields train) as (_ & _ & _ & ->).
  unfold _get_wait_recommendation.
  destruct (_ <=? 2); [by left|]. destruct (_ <=? 5); [by right; left|].
  destruct (Z.gtb_spec (gate_closure_duration train + 5) 10); [by right; right|lia].
Qed.

Lemma long_closures_never_proceed_witness :
  exists predictions w' p,
    predict_wait_times Sample.processor
      (at_clock 12 0) = (Ok predictions, w')
    /\ predictions !! "PSG-33333" = Some p
    /\ recommended_action p = "PLAN - Long closure expected, use alternative route".
Proof.
  destruct (predict_run_general Sample.processor
              (at_clock 12 0) _ _
              (calculate_run Sample.processor
                 (advance 1 (at_clock 12 0))
                 ltac:(sample_schedulable)))
    as (predictions & Hrun & Hlook).
  assert (predictions !! "PSG-33333"
          = Some (prediction_for (Sample.at_time 12 0 0) (Sample.at_time 16 15 0)
                                 (window_of Sample.PSG_33333))) as Hp.
  { rewrite Hlook. vm_compute. reflexivity. }
  eexists predictions, _, _. split; [exact Hrun|]. split; [exact Hp|].
  destruct (long_closures_never_proceed Sample.processor _ _ _ _ _
              ltac:(repeat constructor) Hrun Hp) as [H|[H|H]];
    [vm_compute in H; discriminate H|vm_compute in H; discriminate H|exact H].
Defined.

(** ** Traffic bands *)

Lemma intensity_high_iff_rush (h : Z) :
  String.eqb (_get_traffic_intensity h) "high" = is_rush_hour h.
Proof.
  unfold _get_traffic_intensity, is_rush_hour.
  destruct (_ || _); [done|]. by destruct (_ || _).
Qed.

(** X12. The rush-hour test of the route ranker, the "high" band of the
    traffic intensity and the travel-window advice agree on every hour: the
    intensity is "high" exactly in the ranker's rush hours, and exactly then
    the advice names a later window instead of "Now". *)
Theorem rush_hour_bands_agree (h : Z) :
  (is_rush_hour h = true <-> _get_traffic_intensity h = "high")
  /\ (is_rush_hour h = true <->
      _get_recommended_window h = "10:00-11:00 (After morning rush)"
      \/ _get_recommended_window h = "20:00-21:00 (After evening rush)")
  /\ (is_rush_hour h = false <->
      _get_recommended_window h = "07:00-07:30 (Before morning rush)"
      \/ _get_recommended_window h = "Now - Good time to travel"
      \/ _get_recommended_window h = "Now - Light traffic period").
Proof.
  split.
  { rewrite <- intensity_high_iff_rush. apply String.eqb_eq. }
  unfold is_rush_hour, _get_recommended_window.
  repeat match goal with
         | |- context [?a <? ?b] => destruct (Z.ltb_spec a b); try lia
         | |- context [?a <=? ?b] => destruct (Z.leb_spec a b); try lia
         end; cbn;
    (split; split; intros Hx; destruct_or?; try discriminate Hx; auto).
Qed.

(** X13. Asking for the intensity of hour + 1 without wrapping at midnight is
    harmless: for every hour of the day it is the intensity of the hour of
    the clock one hour later, so next_hour_traffic is right at 23 too. *)
Theorem next_hour_traffic_wraps (w : world) :
  exists a w',
    analyze_traffic_patterns w = (Ok a, w')
    /\ next_hour_traffic a
       = _get_traffic_intensity (hour (clock w (ticks w) + US_PER_HOUR))
    /\ traffic_intensity a = _get_traffic_intensity (hour (clock w (ticks w))).
Proof.
  eexists _, _. split; [apply analyze_run|]. split; [|done].
  cbn [next_hour_traffic].
  set (t := clock w (ticks w)).
  assert (hour (t + US_PER_HOUR) = (hour t + 1) mod 24) as ->.
  { unfold hour. us_consts.
    replace (t + 3600000000) with (t + 1 * 3600000000) by lia.
    rewrite Z.div_add by lia. by rewrite Zplus_mod_idemp_l. }
  assert (0 <= hour t < 24) as Hh by (apply Z.mod_pos_bound; lia).
  destruct (decide (hour t = 23)) as [->|Hne]; [done|].
  by rewrite Z.mod_small by lia.
Qed.

(** ** Alerts in general *)

Lemma delay_alert_raises (current_time : datetime) (train : TrainSchedule) (e : exn) :
  delay_alert current_time train = Raise e ->
  e = ValueError /\ PyStr.int_max_str <= Z.abs (delay_minutes train).
Proof.
  unfold delay_alert, PyStr.of_int.
  destruct (Z.ltb_spec (Z.abs (delay_minutes train)) PyStr.int_max_str);
    cbn [rbind]; [discriminate|]. by intros [= <-].
Qed.

(** A list comprehension raises what its first failing item raises. *)
Lemma map_result_raise {A B} (f : A -> result B) (l : list A) (x : A) (e0 : exn) :
  x ∈ l -> (exists e, f x = Raise e) ->
  (forall y e, f y = Raise e -> e = e0) ->
  map_result f l = Raise e0.
Proof.
  intros Hx Hfx Hall. induction l as [|a l IH]; [by apply elem_of_nil in Hx|].
  cbn [map_result]. destruct (f a) as [b|e] eqn:Ha; cbn [rbind].
  - apply elem_of_cons in Hx as [->|Hx].
    + destruct Hfx as [e Hfx]. congruence.
    + by rewrite IH.
  - by rewrite (Hall a e Ha).
Qed.

Lemma generate_alerts_delay_raise (self : TrainDataProcessor) (w : world) (e : exn) :
  map_result (delay_alert (clock w (ticks w)))
             (List.filter is_delayed (sample_trains self)) = Raise e ->
  generate_alerts self w = (Raise e, advance 1 w).
Proof.
  intros Hd. unfold generate_alerts, bind. rewrite now_run. unfold lift.
  rewrite append_when_spec.
  change (fun train => String.eqb (status train) "delayed" && (delay_minutes train >? 10))
    with is_delayed.
  by rewrite Hd.
Qed.

Lemma generate_alerts_schedule_raise (self : TrainDataProcessor) (w w' : world)
    (delays : list Alert) (e : exn) :
  map_result (delay_alert (clock w (ticks w)))
             (List.filter is_delayed (sample_trains self)) = Ok delays ->
  calculate_gate_closure_schedule self (advance 1 w) = (Raise e, w') ->
  generate_alerts self w = (Raise e, w').
Proof.
  intros Hd Hcalc. unfold generate_alerts, bind. rewrite now_run. unfold lift.
  rewrite append_when_spec.
  change (fun train => String.eqb (status train) "delayed" && (delay_minutes train >? 10))
    with is_delayed.
  rewrite Hd. cbn [rbind]. by rewrite Hcalc.
Qed.

(** X14. The alert generator has no handler either.  When the delay alerts
    have been built and the calculator raises, the generator raises the same
    exception and returns no alert, the delay alerts included, although
    these do not depend on the schedule.  When the delay of a delayed train
    has more digits than [str] converts, the generator raises a ValueError
    before the calculator is called, whatever the arrival times are.  Either
    way, one unreadable arrival time is enough to make the generator
    raise. *)
Theorem alerts_lost_with_schedule (self : TrainDataProcessor) (w : world) :
  (forall delays e w',
     map_result (delay_alert (clock w (ticks w)))
                (List.filter is_delayed (sample_trains self)) = Ok delays ->
     calculate_gate_closure_schedule self (advance 1 w) = (Raise e, w') ->
     generate_alerts self w = (Raise e, w'))
  /\ (forall train,
        train ∈ sample_trains self -> is_delayed train = true ->
        PyStr.int_max_str <= delay_minutes train ->
        generate_alerts self w = (Raise ValueError, advance 1 w))
  /\ (forall train,
        train ∈ sample_trains self -> unreadable (arrival_time train) ->
        exists e w', generate_alerts self w = (Raise e, w')).
Proof.
  split; [|split].
  - intros delays e w' Hd Hcalc. by eapply generate_alerts_schedule_raise.
  - intros train Ht Hdelayed Hlarge. apply generate_alerts_delay_raise.
    apply (map_result_raise _ _ train).
    + apply list_elem_of_In, filter_In. by rewrite <- list_elem_of_In.
    + unfold delay_alert, PyStr.of_int.
      destruct (Z.ltb_spec (Z.abs (delay_minutes train)) PyStr.int_max_str); [lia|].
      by eexists.
    + intros y e Hy. by apply delay_alert_raises in Hy as [-> _].
  - intros train Ht Hbad.
    destruct (map_result (delay_alert (clock w (ticks w)))
                (List.filter is_delayed (sample_trains self))) as [delays|e] eqn:Hd.
    + destruct (collect_raise closure_of (sample_trains self) train (advance 1 w) Ht)
        as (e & w' & Hr).
      { intros w0. by apply closure_of_unreadable. }
      exists e, w'. eapply generate_alerts_schedule_raise; [done|].
      unfold calculate_gate_closure_schedule, bind. by rewrite Hr.
    + eexists _, _. by apply generate_alerts_delay_raise.
Qed.

Lemma alerts_lost_with_schedule_witness :
  (exists e w',
     generate_alerts (Sample.processor_of [Sample.LOC_67890; Sample.BAD_00000])
       (at_clock 12 0) = (Raise e, w'))
  /\ generate_alerts (Sample.processor_of [Sample.LOC_67890; SLOW_00000])
       (at_clock 12 0) = (Raise ValueError, advance 1 (at_clock 12 0)).
Proof.
  split.
  - apply (alerts_lost_with_schedule
             (Sample.processor_of [Sample.LOC_67890; Sample.BAD_00000])
             (at_clock 12 0)) with Sample.BAD_00000.
    + do 2 constructor.
    + exact I.
  - apply (alerts_lost_with_schedule
             (Sample.processor_of [Sample.LOC_67890; SLOW_00000])
             (at_clock 12 0)) with SLOW_00000.
    + do 2 constructor.
    + vm_compute. reflexivity.
    + vm_compute. discriminate.
Defined.

Lemma rush_hour_bands_agree_witness :
  _get_traffic_intensity 8 = "high"
  /\ _get_recommended_window 8 = "10:00-11:00 (After morning rush)".
Proof.
  destruct (rush_hour_bands_agree 8) as (Hhigh & Hlater & _).
  split; [apply Hhigh; reflexivity|].
  destruct (proj1 Hlater eq_refl) as [H|H]; [exact H|vm_compute in H; discriminate H].
Defined.

Lemma filter_perm {A} (f : A -> bool) (l l' : list A) :
  l ≡ₚ l' -> List.filter f l ≡ₚ List.filter f l'.
Proof.
  induction 1 as [|x l l' _ IH|x y l|l l' l'' _ IH1 _ IH2]; cbn.
  - done.
  - destruct (f x); [by constructor|done].
  - destruct (f x), (f y); try done. apply Permutation_swap.
  - by etrans.
Qed.

Lemma map_result_length {A B} (f : A -> result B) (l : list A) (ys : list B) :
  map_result f l = Ok ys -> length ys = length l.
Proof. intros H%map_result_Forall2. symmetry. by eapply Forall2_length. Qed.

(** Every run of the generator that returns: its alerts and its final
    state, in terms of the records. *)
Lemma alerts_of_run (self : TrainDataProcessor) (w w' : world) (alerts : list Alert) :
  generate_alerts self w = (Ok alerts, w') ->
  let n := length (sample_trains self) in
  let current_time := clock w (ticks w) in
  exists delays longs,
    map_result (delay_alert current_time)
               (List.filter is_delayed (sample_trains self)) = Ok delays
    /\ map_result (long_closure_alert current_time)
         (List.filter is_long
            (sort_by String.ltb closure_start (map parsed_window (sample_trains self))))
       = Ok longs
    /\ alerts
       = delays ++ longs
         ++ (if is_rush_hour (hour (clock w (S n + ticks w)))
             then [traffic_alert current_time] else [])
    /\ w' = advance (n + 4) w.
Proof.
  intros Hrun n current_time.
  destruct (generate_alerts_Ok_inv _ _ _ _ Hrun)
    as (schedule & w1 & analysis & delays & longs & Hcalc & Han & Hd & Hl & ->).
  apply calculate_inv in Hcalc as [-> ->].
  rewrite analyze_run in Han. injection Han as <- <-.
  exists delays, longs. split; [done|]. split; [done|]. split.
  - cbn [traffic_intensity]. rewrite intensity_high_iff_rush.
    cbn [advance clock ticks]. fold n.
    by replace (n + S (ticks w))%nat with (S n + ticks w)%nat by lia.
  - rewrite !advance_advance. f_equal. lia.
Qed.

(** X15. Whenever the generator returns, it has emitted one
    long_closure_alert per train whose gate_closure_duration exceeds 5
    minutes: the window lasts 5 minutes more than that duration, so a train
    with the default duration of 8 always gets one. *)
Theorem long_closure_alert_per_train (self : TrainDataProcessor) (w w' : world)
    (alerts : list Alert) :
  generate_alerts self w = (Ok alerts, w') ->
  length (List.filter (fun a => String.eqb (a_type a) "long_closure_alert") alerts)
  = length (List.filter (fun train => 5 <? gate_closure_duration train)
                        (sample_trains self)).
Proof.
  intros (delays & longs & Hd & Hl & -> & _)%alerts_of_run.
  destruct (alerts_by_type _ _ _ _ _
              (is_rush_hour (hour (clock w (S (length (sample_trains self)) + ticks w))))
              Hd Hl) as (_ & -> & _).
  rewrite (map_result_length _ _ _ Hl). clear Hd Hl.
  rewrite (Permutation_length
             (filter_perm is_long _ _
                (sort_by_perm String.ltb closure_start
                   (map parsed_window (sample_trains self))))).
  induction (sample_trains self) as [|train trains IH]; [done|].
  cbn [map List.filter]. unfold is_long at 1.
  destruct (parsed_window_fields train) as (_ & _ & _ & ->).
  destruct (Z.gtb_spec (gate_closure_duration train + 5) 10),
    (Z.ltb_spec 5 (gate_closure_duration train)); try lia; cbn [length]; by rewrite IH.
Qed.

Lemma long_closure_alert_per_train_witness :
  exists alerts w',
    generate_alerts Sample.processor (at_clock 12 0) = (Ok alerts, w')
    /\ length (List.filter (fun a => String.eqb (a_type a) "long_closure_alert") alerts)
       = 5%nat.
Proof.
  destruct (generate_alerts Sample.processor (at_clock 12 0))
    as [[alerts|e] w'] eqn:Hrun; [|vm_compute in Hrun; discriminate Hrun].
  exists alerts, w'. split; [reflexivity|].
  rewrite (long_closure_alert_per_train _ _ _ _ Hrun). reflexivity.
Defined.

(** X16. Whenever the generator returns, every alert carries the same
    timestamp, the first reading of the clock; there are at most two alerts
    per train and one more; and the clock has been read once per train and
    four more times. *)
Theorem alerts_share_first_reading (self : TrainDataProcessor) (w w' : world)
    (alerts : list Alert) :
  generate_alerts self w = (Ok alerts, w') ->
  Forall (fun a => timestamp a = clock w (ticks w)) alerts
  /\ (length alerts <= 2 * length (sample_trains self) + 1)%nat
  /\ ticks w' = (length (sample_trains self) + 4 + ticks w)%nat
  /\ heap w' = heap w.
Proof.
  intros (delays & longs & Hd & Hl & -> & ->)%alerts_of_run. split; [|split; [|done]].
  - rewrite !Forall_app. split; [|split].
    + eapply map_result_fields; [|exact Hd]. intros train a Ha.
      apply delay_alert_fields in Ha. tauto.
    + eapply map_result_fields; [|exact Hl]. intros c a Ha.
      apply long_closure_alert_fields in Ha. tauto.
    + destruct (is_rush_hour _); by repeat constructor.
  - rewrite !length_app.
    rewrite (map_result_length _ _ _ Hd), (map_result_length _ _ _ Hl).
    pose proof (List.filter_length_le is_delayed (sample_trains self)).
    pose proof (List.filter_length_le is_long
                  (sort_by String.ltb closure_start
                     (map parsed_window (sample_trains self)))) as Hlong.
    rewrite (Permutation_length (sort_by_perm String.ltb closure_start _)) in Hlong.
    rewrite length_map in Hlong.
    destruct (is_rush_hour _); cbn [length]; lia.
Qed.

Lemma alerts_share_first_reading_witness :
  exists alerts w',
    generate_alerts Sample.processor (at_clock 8 20) = (Ok alerts, w')
    /\ Forall (fun a => timestamp a = Sample.at_time 8 20 0) alerts
    /\ (length alerts <= 11)%nat.
Proof.
  destruct (generate_alerts Sample.processor (at_clock 8 20))
    as [[alerts|e] w'] eqn:Hrun; [|vm_compute in Hrun; discriminate Hrun].
  exists alerts, w'. split; [reflexivity|].
  destruct (alerts_share_first_reading _ _ _ _ Hrun) as (Hts & Hlen & _).
  split; [exact Hts|exact Hlen].
Defined.

(** X17. Whenever the generator returns, the list holds a traffic_alert
    exactly when the clock shows a rush hour (7..9 or 17..19) at the reading
    taken by the traffic analysis, which comes after the reading of the
    timestamp and one reading per train. *)
Theorem traffic_alert_at_rush_hour (self : TrainDataProcessor) (w w' : world)
    (alerts : list Alert) :
  generate_alerts self w = (Ok alerts, w') ->
  (exists a, a ∈ alerts /\ a_type a = "traffic_alert")
  <-> is_rush_hour (hour (clock w (S (length (sample_trains self)) + ticks w))) = true.
Proof.
  intros (delays & longs & Hd & Hl & -> & _)%alerts_of_run. split.
  - intros (a & Ha & Htype). rewrite !elem_of_app in Ha.
    destruct Ha as [Ha|[Ha|Ha]].
    + exfalso.
      assert (Forall (fun a => a_type a = "delay_alert") delays) as Hall.
      { eapply map_result_fields; [|exact Hd]. intros train b Hb.
        apply delay_alert_fields in Hb. tauto. }
      rewrite Forall_forall in Hall. rewrite (Hall a Ha) in Htype. discriminate Htype.
    + exfalso.
      assert (Forall (fun a => a_type a = "long_closure_alert") longs) as Hall.
      { eapply map_result_fields; [|exact Hl]. intros c b Hb.
        apply long_closure_alert_fields in Hb. tauto. }
      rewrite Forall_forall in Hall. rewrite (Hall a Ha) in Htype. discriminate Htype.
    + destruct (is_rush_hour _); [done|by apply elem_of_nil in Ha].
  - intros ->. exists (traffic_alert (clock w (ticks w))). split; [|done].
    rewrite !elem_of_app. right; right. constructor.
Qed.

Lemma traffic_alert_at_rush_hour_witness :
  exists alerts w' a,
    generate_alerts Sample.processor (at_clock 18 5) = (Ok alerts, w')
    /\ a ∈ alerts /\ a_type a = "traffic_alert".
Proof.
  destruct (generate_alerts Sample.processor (at_clock 18 5))
    as [[alerts|e] w'] eqn:Hrun; [|vm_compute in Hrun; discriminate Hrun].
  destruct (proj2 (traffic_alert_at_rush_hour _ _ _ _ Hrun)) as (a & Ha & Htype);
    [vm_compute; reflexivity|].
  exists alerts, w', a. split; [reflexivity|]. split; [exact Ha|exact Htype].
Defined.

(** ** Route ranking in general *)

Lemma adjusted_Ok_inv (r r' : Route) (u1 u2 u3 : Q) (t : datetime) :
  adjusted r u1 u2 u3 t = Ok r' ->
  scaled (additional_time_minutes r) (multiplier_for (traffic_level r) u1 u2 u3)
  = Ok (additional_time_minutes r')
  /\ traffic_level r'
     = (if is_rush_hour (hour t) then escalate (traffic_level r) else traffic_level r)
  /\ recommended r' = recommended r
  /\ same_identity r r'.
Proof.
  unfold adjusted. destruct (scaled _ _) as [v|]; cbn [rbind]; [|discriminate].
  intros [= <-]. by repeat split.
Qed.

Lemma set_recommended_twice (a b : bool) (r : Route) :
  set_recommended a (set_recommended b r) = set_recommended a r.
Proof. done. Qed.

Lemma ranking_frame_general (self : TrainDataProcessor) (w w' : world) (out : list loc) :
  optimize_routes self w = (Ok out, w') ->
  framed (alternative_routes self) w w'
  /\ ticks w' = (length (alternative_routes self) + ticks w)%nat
  /\ draws w' = (3 * length (alternative_routes self) + draws w)%nat.
Proof.
  intros (w1 & w2 & Hadj & Hout & Hclear & Hc & Hr & Ht & Hd & Hheap)%optimize_inv.
  destruct (adjust_loop_frame _ _ _ _ Hadj) as ((Hc1 & Hr1 & Hid1 & Ho1) & _ & Hcount).
  destruct (Hcount eq_refl) as [Ht1 Hd1].
  destruct (clear_loop_run out w1) as (w2' & Hclear' & Hc2 & Hr2 & Ht2 & Hd2 & Hh2).
  rewrite Hclear in Hclear'. injection Hclear' as <-.
  assert (forall l, l ∈ out <-> l ∈ alternative_routes self) as Hmem.
  { intros l. by rewrite Hout, (sort_by_perm Z.ltb). }
  split; [|split; congruence].
  split; [congruence|]. split; [congruence|]. split.
  - intros l. eapply same_identity_trans; [apply Hid1|].
    rewrite Hheap.
    assert (same_identity (heap w1 l) (heap w2 l)) as H12.
    { rewrite Hh2. by destruct (decide (l ∈ out)). }
    destruct out as [|first rest]; [done|].
    destruct (decide (first = l)) as [->|Hne].
    + rewrite fn_lookup_alter. eapply same_identity_trans; [exact H12|]. by repeat split.
    + by rewrite fn_lookup_alter_ne.
  - intros l Hl. rewrite <- Ho1 by done. rewrite Hheap.
    assert (heap w2 l = heap w1 l) as H12.
    { rewrite Hh2. rewrite decide_False; [done|]. by rewrite Hmem. }
    destruct out as [|first rest]; [done|].
    rewrite fn_lookup_alter_ne; [done|].
    intros ->. apply Hl, Hmem. by left.
Qed.

Lemma ranking_run_distinct (self : TrainDataProcessor) (w w' : world) (out : list loc)
    (i : nat) (l : loc) :
  NoDup (alternative_routes self) ->
  optimize_routes self w = (Ok out, w') ->
  alternative_routes self !! i = Some l ->
  exists r',
    adjusted (heap w l) (rand w (3 * i + draws w)) (rand w (1 + 3 * i + draws w))
             (rand w (2 + 3 * i + draws w)) (clock w (i + ticks w)) = Ok r'
    /\ heap w' l = set_recommended (bool_decide (head out = Some l)) r'.
Proof.
  intros Hnd (w1 & w2 & Hadj & Hout & Hclear & _ & _ & _ & _ & Hheap)%optimize_inv Hl.
  pose proof (adjust_loop_run _ _ _ Hnd Hadj i l Hl) as Hidx.
  destruct (clear_loop_run out w1) as (w2' & Hclear' & _ & _ & _ & _ & Hh2).
  rewrite Hclear in Hclear'. injection Hclear' as <-.
  assert (l ∈ out) as Hin.
  { rewrite Hout, (sort_by_perm Z.ltb). by eapply list_elem_of_lookup_2. }
  exists (heap w1 l). split; [done|]. rewrite Hheap.
  assert (heap w2 l = set_recommended false (heap w1 l)) as H12.
  { rewrite Hh2. by rewrite decide_True. }
  destruct out as [|first rest]; [by apply elem_of_nil in Hin|]. cbn [head].
  destruct (decide (first = l)) as [->|Hne].
  - rewrite fn_lookup_alter, H12, bool_decide_eq_true_2 by done.
    apply set_recommended_twice.
  - rewrite fn_lookup_alter_ne, H12 by done.
    rewrite bool_decide_eq_false_2; [done|]. by intros [= ->].
Qed.

(** X18. Whenever a ranking pass returns, it has left the clock's and the
    generator's sequences as they were, has read the clock once and drawn
    three numbers per list entry, has kept route_id, name, distance_km,
    road_conditions and toll_cost of every route, and has not touched any
    route outside the list. *)
Theorem ranking_frame (self : TrainDataProcessor) (w w' : world) (out : list loc) :
  optimize_routes self w = (Ok out, w') ->
  clock w' = clock w /\ rand w' = rand w
  /\ ticks w' = (length (alternative_routes self) + ticks w)%nat
  /\ draws w' = (3 * length (alternative_routes self) + draws w)%nat
  /\ (forall l,
        route_id (heap w' l) = route_id (heap w l)
        /\ name (heap w' l) = name (heap w l)
        /\ distance_km (heap w' l) = distance_km (heap w l)
        /\ road_conditions (heap w' l) = road_conditions (heap w l)
        /\ toll_cost (heap w' l) = toll_cost (heap w l))
  /\ (forall l, l ∉ alternative_routes self -> heap w' l = heap w l).
Proof.
  intros ((Hc & Hr & Hid & Ho) & Ht & Hd)%ranking_frame_general.
  split; [done|]. split; [done|]. split; [done|]. split; [done|].
  split; [intros l; apply Hid|done].
Qed.

Lemma ranking_frame_witness :
  exists out w',
    optimize_routes Sample.processor (at_clock 8 20) = (Ok out, w')
    /\ ticks w' = 4%nat /\ draws w' = 12%nat
    /\ name (heap w' 2%nat) = "Industrial Zone"
    /\ heap w' 7%nat = Sample.R004.
Proof.
  destruct (optimize_routes Sample.processor (at_clock 8 20)) as [[out|e] w'] eqn:Hrun;
    [|vm_compute in Hrun; discriminate Hrun].
  destruct (ranking_frame _ _ _ _ Hrun) as (_ & _ & Ht & Hd & Hid & Hout).
  exists out, w'. split; [reflexivity|]. split; [exact Ht|]. split; [exact Hd|].
  split.
  - destruct (Hid 2%nat) as (_ & Hname & _). rewrite Hname. reflexivity.
  - rewrite Hout; [reflexivity|].
    intros Hin. apply list_elem_of_In in Hin. cbn in Hin.
    repeat (destruct Hin as [Hin|Hin]; [discriminate Hin|]). exact Hin.
Defined.

(** X19. With distinct routes, a ranking pass that returns has adjusted
    every route once: the route at position i of the canonical list holds
    int(additional_time_minutes * multiplier), computed in double
    arithmetic, where the multiplier is random.uniform on the range of the
    route's level with the draw 3i, 3i+1 or 3i+2 (1.0 for another level);
    its level is escalated by one step when the i-th reading of the clock is
    in a rush hour; and its recommended flag is set exactly when it is the
    head of the returned list. *)
Theorem ranking_adjusts_each_route_once (self : TrainDataProcessor) (w w' : world)
    (out : list loc) (i : nat) (l : loc) :
  NoDup (alternative_routes self) ->
  optimize_routes self w = (Ok out, w') ->
  alternative_routes self !! i = Some l ->
  let before := heap w l in
  let multiplier :=
    multiplier_for (traffic_level before) (rand w (3 * i + draws w))
                   (rand w (1 + 3 * i + draws w)) (rand w (2 + 3 * i + draws w)) in
  (let? x := PyDouble.int_mul (additional_time_minutes before) multiplier in
   PyDouble.to_int x)
  = Ok (additional_time_minutes (heap w' l))
  /\ traffic_level (heap w' l)
     = (if is_rush_hour (hour (clock w (i + ticks w)))
        then escalate (traffic_level before) else traffic_level before)
  /\ (recommended (heap w' l) = true <-> head out = Some l).
Proof.
  intros Hnd Hrun Hl before multiplier.
  destruct (ranking_run_distinct self w w' out i l Hnd Hrun Hl) as (r' & Hadj & ->).
  apply adjusted_Ok_inv in Hadj as (Htime & Hlevel & _ & _).
  cbn [set_recommended additional_time_minutes traffic_level recommended].
  split; [exact Htime|]. split; [exact Hlevel|]. apply bool_decide_eq_true.
Qed.

Lemma ranking_adjusts_each_route_once_witness :
  exists out w',
    optimize_routes single_route
      (lone_route (route_taking 100 "medium") (Sample.at_time 8 20 0) (1 # 2))
    = (Ok out, w')
    /\ additional_time_minutes (heap w' 0%nat) = 114
    /\ traffic_level (heap w' 0%nat) = "high".
Proof.
  destruct (optimize_routes single_route
              (lone_route (route_taking 100 "medium") (Sample.at_time 8 20 0) (1 # 2)))
    as [[out|e] w'] eqn:Hrun; [|vm_compute in Hrun; discriminate Hrun].
  destruct (ranking_adjusts_each_route_once single_route _ _ _ 0%nat 0%nat
              ltac:(apply (bool_decide_unpack _); vm_compute; exact I) Hrun eq_refl)
    as (Htime & Hlevel & _).
  exists out, w'. split; [reflexivity|].
  split; [|rewrite Hlevel; vm_compute; reflexivity].
  cbv zeta in Htime.
  match type of Htime with
  | ?lhs = _ => assert (lhs = Ok 114) as Hv by (vm_compute; reflexivity)
  end.
  rewrite Hv in Htime. by injection Htime as <-.
Defined.

(** The adjusted time is the truncation of the rounded product: 100 minutes
    at level "medium" with the draw 0.5 become 114 (the double nearest to
    1.15 is below 1.15); a time above 2^53 is rounded even by the multiplier
    1.0; and a time beyond the range of a double raises. *)
Example adjusted_time_in_double_arithmetic :
  scaled 100 (multiplier_for "medium" (1 # 2) (1 # 2) (1 # 2)) = Ok 114
  /\ scaled (2 ^ 60 + 1) (multiplier_for "closed" (1 # 2) (1 # 2) (1 # 2)) = Ok (2 ^ 60)
  /\ scaled (2 ^ 1100) (multiplier_for "low" (1 # 2) (1 # 2) (1 # 2))
     = Raise OverflowError.
Proof. repeat split; vm_compute; reflexivity. Qed.



(** X21. The list is a list of references: when it holds the same route
    twice, a ranking pass that returns has adjusted that route twice, the
    second time from the result of the first, with the draws and the clock
    readings of both positions; and both entries of the returned list are
    that route with recommended set, so the result does not mark exactly one
    entry. *)
Theorem duplicate_route_adjusted_twice (self : TrainDataProcessor) (w w' : world)
    (out : list loc) (l : loc) :
  alternative_routes self = [l; l] ->
  optimize_routes self w = (Ok out, w') ->
  out = [l; l]
  /\ Forall (fun x => recommended (heap w' x) = true) out
  /\ exists once twice,
       adjusted (heap w l) (rand w (draws w)) (rand w (1 + draws w))
                (rand w (2 + draws w)) (clock w (ticks w)) = Ok once
       /\ adjusted once (rand w (3 + draws w)) (rand w (4 + draws w))
                   (rand w (5 + draws w)) (clock w (1 + ticks w)) = Ok twice
       /\ heap w' l = set_recommended true twice.
Proof.
  intros Hls (w1 & w2 & Hadj & Hout & Hclear & _ & _ & _ & _ & Hheap)%optimize_inv.
  rewrite Hls in Hadj, Hout. cbn [sort_by insert_by] in Hout.
  rewrite Z.ltb_irrefl in Hout. subst out.
  destruct (clear_loop_run [l; l] w1) as (w2' & Hclear' & _ & _ & _ & _ & Hh2).
  rewrite Hclear in Hclear'. injection Hclear' as <-.
  assert (heap w' l = set_recommended true (heap w1 l)) as Hfinal.
  { rewrite Hheap, fn_lookup_alter, Hh2.
    rewrite decide_True by (by left). apply set_recommended_twice. }
  split; [done|]. split.
  { repeat constructor; by rewrite Hfinal. }
  cbn [for_each] in Hadj. unfold bind in Hadj.
  pose proof (adjust_route_run l w) as Ha.
  destruct (scaled _ _) as [v1|] eqn:Hv1.
  2:{ destruct Ha as (wx & Hx & Hrest). rewrite Hx in Hadj. discriminate Hadj. }
  destruct Ha as (wa & Ha & Hca & Hra & Hta & Hda & Hla & _).
  rewrite Ha in Hadj.
  pose proof (adjust_route_run l wa) as Hb.
  match type of Hb with
  | match ?s with _ => _ end => destruct s as [v2|] eqn:Hv2
  end.
  2:{ destruct Hb as (wx & Hx & Hrest). rewrite Hx in Hadj. discriminate Hadj. }
  destruct Hb as (wb & Hb & _ & _ & _ & _ & Hlb & _).
  rewrite Hb in Hadj. unfold ret in Hadj. injection Hadj as <-.
  exists (heap wa l), (heap wb l). split; [|split; [|done]].
  - unfold adjusted. by rewrite Hv1, Hla.
  - unfold adjusted. rewrite Hra, Hda in Hv2.
    change (4 + draws w)%nat with (1 + (3 + draws w))%nat.
    change (5 + draws w)%nat with (2 + (3 + draws w))%nat.
    rewrite Hv2, Hlb, Hca, Hta. done.
Qed.

Lemma duplicate_route_adjusted_twice_witness :
  exists w',
    optimize_routes twice_listed
      (at_clock 12 0) = (Ok [3; 3]%nat, w')
    /\ recommended (heap w' 3%nat) = true
    /\ additional_time_minutes (heap w' 3%nat) = 6.
Proof.
  destruct (optimize_routes twice_listed
              (at_clock 12 0)) as [[out|e] w'] eqn:Hrun;
    [|vm_compute in Hrun; discriminate Hrun].
  destruct (duplicate_route_adjusted_twice twice_listed _ _ _ 3%nat eq_refl Hrun)
    as (-> & _ & once & twice & Honce & Htwice & Hheap).
  exists w'. split; [reflexivity|]. rewrite Hheap.
  vm_compute in Honce. injection Honce as <-.
  vm_compute in Htwice. injection Htwice as <-.
  split; reflexivity.
Defined.

(** ** Writing the snapshot *)

Lemma schedulable_same_clock (w w' : world) (train : TrainSchedule) :
  clock w' = clock w -> schedulable w train -> schedulable w' train.
Proof.
  intros Hc (h & m & Hv & Hfit). exists h, m. split; [done|]. by rewrite Hc.
Qed.

Lemma closure_of_frame (train : TrainSchedule) (w w' : world) (r : result Closure) :
  closure_of train w = (r, w') -> heap w' = heap w /\ draws w' = draws w.
Proof.
  unfold closure_of, bind, lift.
  destruct (parse_arrival _); [|by intros [= <- <-]].
  rewrite now_run. destruct (closure_instants _ _ _ _); unfold ret; by intros [= <- <-].
Qed.

Lemma collect_closures_frame (trains : list TrainSchedule) (w w' : world)
    (r : result (list Closure)) :
  collect trains closure_of w = (r, w') -> heap w' = heap w /\ draws w' = draws w.
Proof.
  revert w w' r. induction trains as [|x xs IH]; intros w w' r; cbn [collect].
  - unfold ret. by intros [= <- <-].
  - unfold bind at 1. destruct (closure_of x w) as [[c|e] w1] eqn:Hx;
      apply closure_of_frame in Hx as [Hh Hd].
    + unfold bind at 1. destruct (collect xs closure_of w1) as [[cs|e] w2] eqn:Hxs;
        apply IH in Hxs as [Hh2 Hd2]; unfold ret; intros [= <- <-]; split; congruence.
    + intros [= <- <-]. done.
Qed.

(** X22. A batch with an unreadable arrival time makes the synchronization
    return False without raising: the file keeps what it held, and the
    failure comes before the route ranking, so the routes and the generator
    are untouched. *)
Theorem sync_fails_before_ranking (self : TrainDataProcessor) (outcome : write_outcome)
    (file : option Snapshot) (w : world) (train : TrainSchedule) :
  train ∈ sample_trains self ->
  unreadable (arrival_time train) ->
  exists w',
    sync_with_backend self outcome file w = ((false, file), w')
    /\ heap w' = heap w /\ draws w' = draws w.
Proof.
  intros Ht Hbad.
  destruct (collect_raise closure_of (sample_trains self) train (advance 1 w) Ht)
    as (e & w' & Hr).
  { intros w0. by apply closure_of_unreadable. }
  exists w'. split; [|by apply collect_closures_frame in Hr].
  unfold sync_with_backend, build_snapshot, bind. rewrite now_run.
  unfold calculate_gate_closure_schedule, bind. by rewrite Hr.
Qed.

Lemma sync_fails_before_ranking_witness :
  exists w',
    sync_with_backend (Sample.processor_of [Sample.EXP_12345; Sample.BAD_00000])
      written (Some stale_snapshot) (at_clock 8 20) = ((false, Some stale_snapshot), w')
    /\ heap w' = heap (at_clock 8 20) /\ draws w' = 0%nat.
Proof.
  apply (sync_fails_before_ranking
           (Sample.processor_of [Sample.EXP_12345; Sample.BAD_00000])
           written (Some stale_snapshot) (at_clock 8 20) Sample.BAD_00000).
  - do 2 constructor.
  - exact I.
Defined.

Lemma int_max_str_above_doubles : 2 ^ 1024 <= PyStr.int_max_str.
Proof.
  unfold PyStr.int_max_str. etrans; [apply (Z.pow_le_mono_l 2 10 1024); lia|].
  apply Z.pow_le_mono_r; [lia|]. apply (bool_decide_unpack _). vm_compute. exact I.
Qed.

(** After a ranking pass every route of the returned list can be rendered:
    its time is the integer part of a finite double. *)
Lemma ranked_routes_render (self : TrainDataProcessor) (w w' : world) (out : list loc) :
  optimize_routes self w = (Ok out, w') ->
  exists entries, map_result (fun l => route_entry (heap w' l)) out = Ok entries.
Proof.
  intros Hrun. pose proof Hrun as Hinv.
  apply optimize_inv in Hinv
    as (w1 & w2 & Hadj & Hout & Hclear & _ & _ & _ & _ & Hheap).
  pose proof (adjust_loop_bound _ _ _ Hadj) as Hbound.
  destruct (clear_loop_run out w1) as (w2' & Hclear' & _ & _ & _ & _ & Hh2).
  rewrite Hclear in Hclear'. injection Hclear' as <-.
  assert (forall l, additional_time_minutes (heap w' l)
                    = additional_time_minutes (heap w1 l)) as Htime.
  { intros l. rewrite Hheap. destruct out as [|first rest].
    - rewrite Hh2. by destruct (decide _).
    - destruct (decide (first = l)) as [->|Hne].
      + rewrite fn_lookup_alter, Hh2. by destruct (decide _).
      + rewrite fn_lookup_alter_ne, Hh2 by done. by destruct (decide _). }
  apply map_result_total, Forall_forall. intros l Hl.
  unfold route_entry. rewrite of_int_renders; [by eexists|].
  rewrite Htime. pose proof int_max_str_above_doubles.
  assert (l ∈ alternative_routes self) as Hin
    by (by rewrite Hout, (sort_by_perm Z.ltb) in Hl).
  specialize (Hbound l Hin). lia.
Qed.

(** X23. On a batch in which every arrival time is well-formed and every
    window lies within the range of [datetime], the synchronization raises
    nothing and depends on the ranking pass and on the file system.  When the
    ranking pass raises, the result is False and the file is as it was.
    When the ranking pass returns, the document is built, in this order:
    timestamp (the first reading of the clock), closure schedule, route
    ranking, wait-time predictions, traffic analysis; its closure schedule
    is also the schedule from which its predictions were derived, although
    the calculator ran twice; the ranking has rewritten the canonical
    routes; and the result is True with the document in the file when it is
    written, False with the file as it was when it cannot be opened, and
    False with the previous document lost when it is opened and the writing
    fails. *)
Theorem sync_returns_write_outcome (self : TrainDataProcessor) (outcome : write_outcome)
    (file : option Snapshot) (w : world) :
  Forall (schedulable w) (sample_trains self) ->
  let w0 := advance (length (sample_trains self)) (advance 1 w) in
  (forall e w1,
     optimize_routes self w0 = (Raise e, w1) ->
     sync_with_backend self outcome file w = ((false, file), w1))
  /\ (forall out w1,
        optimize_routes self w0 = (Ok out, w1) ->
        exists doc w2 w',
          sync_with_backend self outcome file w
          = (match outcome with
             | written => (true, Some doc)
             | dump_fails => (false, None)
             | open_fails => (false, file)
             end, w')
          /\ s_timestamp doc = clock w (ticks w)
          /\ calculate_gate_closure_schedule self (advance 1 w)
             = (Ok (s_gate_closure_schedule doc), w0)
          /\ map_result (fun l => route_entry (heap w1 l)) out
             = Ok (s_optimized_routes doc)
          /\ calculate_gate_closure_schedule self (advance 1 w1)
             = (Ok (s_gate_closure_schedule doc), w2)
          /\ predict_wait_times self w1 = (Ok (s_wait_predictions doc), w2)
          /\ analyze_traffic_patterns w2 = (Ok (s_traffic_analysis doc), w')
          /\ heap w' = heap w1).
Proof.
  intros Hall w0.
  pose proof (calculate_run self (advance 1 w) Hall) as Hcalc.
  set (schedule := sort_by String.ltb closure_start (map window_of (sample_trains self)))
    in Hcalc.
  fold w0 in Hcalc. split.
  - intros e w1 Hopt. unfold sync_with_backend, build_snapshot, bind.
    by rewrite now_run, Hcalc, Hopt.
  - intros out w1 Hopt.
    destruct (ranking_frame_general _ _ _ _ Hopt) as ((Hc1 & _) & _).
    destruct (ranked_routes_render _ _ _ _ Hopt) as [entries Hentries].
    assert (Forall (schedulable (advance 1 w1)) (sample_trains self)) as Hall1.
    { eapply Forall_impl; [exact Hall|]. intros train. by apply schedulable_same_clock. }
    pose proof (calculate_run self (advance 1 w1) Hall1) as Hcalc1.
    fold schedule in Hcalc1.
    set (w2 := advance (length (sample_trains self)) (advance 1 w1)) in Hcalc1.
    destruct (predict_run_general _ _ _ _ Hcalc1) as (predictions & Hpred & _).
    eexists {| s_timestamp := clock w (ticks w);
               s_gate_closure_schedule := schedule;
               s_optimized_routes := entries;
               s_wait_predictions := predictions;
               s_traffic_analysis := _ |}, w2, (advance 3 w2).
    cbn [s_timestamp s_gate_closure_schedule s_optimized_routes s_wait_predictions
         s_traffic_analysis].
    split.
    { unfold sync_with_backend, build_snapshot, bind.
      rewrite now_run, Hcalc, Hopt, Hentries, Hpred, analyze_run. unfold ret.
      by destruct outcome. }
    split; [done|]. split; [done|]. split; [done|]. split; [done|].
    split; [done|]. split; [apply analyze_run|done].
Qed.

Lemma sync_returns_write_outcome_witness :
  exists w',
    sync_with_backend Sample.processor dump_fails (Some stale_snapshot) (at_clock 8 20)
    = ((false, None), w')
    /\ traffic_level (heap w' 2%nat) = "medium".
Proof.
  destruct (sync_returns_write_outcome Sample.processor dump_fails (Some stale_snapshot)
              (at_clock 8 20)) as [_ Hreturns].
  { sample_schedulable. }
  destruct (optimize_routes Sample.processor
              (advance (length (sample_trains Sample.processor))
                       (advance 1 (at_clock 8 20)))) as [[out|e] w1] eqn:Hopt;
    [|vm_compute in Hopt; discriminate Hopt].
  destruct (Hreturns out w1 eq_refl)
    as (doc & w2 & w' & Hsync & _ & _ & _ & _ & _ & _ & Hheap).
  exists w'. split; [exact Hsync|].
  rewrite Hheap. vm_compute in Hopt. injection Hopt as _ <-. reflexivity.
Defined.
